(** * pgcrime: the PDF-table parser of [parse_crime_pdf.py]

    A shallow embedding of the column-name normalizer, the cell coercion, the
    table record builder, the summary aggregator and the per-table error
    handling of [parse_pdf], with the properties the specification states
    about them.

    Modelling conventions.
    - Python [str] values are Rocq [string]s.  The model covers the ASCII
      repertoire: the character classes [\s], [\w], [\d], [str.isdigit],
      [str.strip] and [str.lower] are given on code points below 128, and a
      code point from 128 on is an opaque symbol (no space, no word
      character, no digit, unchanged by [lower]).
    - A dictionary is a [gmap string _]; a cell that pdfplumber reports as
      [None] is [None : option string].
    - [logger.warning] calls of the normalizer are returned as a list of
      messages next to the result; exceptions are a constructor of [Exc].
    - Integers are unbounded.  [datetime] and [strftime] are those of Python
      for years of four digits, 1000 to 9999: below 1000 the C library may
      print the year without padding, and a year outside the range of a C
      [int] makes the constructor raise [OverflowError], not [ValueError].
      [int] is that of Python for up to 4300 digits, the default limit of
      the interpreter on decimal strings. *)

From Stdlib Require Import String Ascii ZArith List Bool Lia DecimalString.
From Stdlib Require Import ssreflect.
From stdpp Require Import base gmap strings sorting.

Local Open Scope Z_scope.

(** ** Text primitives (Python [str] methods and [re] character classes) *)

Module Text.

Definition code (c : ascii) : N := N_of_ascii c.

(** [str.isspace] / [\s] on ASCII: TAB..CR, FS..US and the blank. *)
Definition is_space (c : ascii) : bool :=
  ((9 <=? code c) && (code c <=? 13) || (28 <=? code c) && (code c <=? 32))%N.

(** [\d] and [str.isdigit] on ASCII. *)
Definition is_digit (c : ascii) : bool :=
  ((48 <=? code c) && (code c <=? 57))%N.

Definition is_upper (c : ascii) : bool :=
  ((65 <=? code c) && (code c <=? 90))%N.

Definition is_lower (c : ascii) : bool :=
  ((97 <=? code c) && (code c <=? 122))%N.

(** [\w] on ASCII: letters, digits and the underscore. *)
Definition is_word (c : ascii) : bool :=
  is_digit c || is_upper c || is_lower c || Ascii.eqb c "_".

Definition lower_char (c : ascii) : ascii :=
  if is_upper c then ascii_of_N (code c + 32) else c.

(** [s.lower()] *)
Fixpoint lower (s : string) : string :=
  match s with
  | EmptyString => EmptyString
  | String c r => String (lower_char c) (lower r)
  end.

(** [s.lstrip()] *)
Fixpoint lstrip (s : string) : string :=
  match s with
  | EmptyString => EmptyString
  | String c r => if is_space c then lstrip r else s
  end.

(** [s.rstrip()]: a character is dropped when it is white space and all
    that follows it has been dropped. *)
Fixpoint rstrip (s : string) : string :=
  match s with
  | EmptyString => EmptyString
  | String c r =>
      match rstrip r with
      | EmptyString => if is_space c then EmptyString else String c EmptyString
      | r' => String c r'
      end
  end.

(** [s.strip()] *)
Definition strip (s : string) : string := rstrip (lstrip s).

(** [s.replace(a, b)] for one-character [a] and [b]. *)
Fixpoint replace_char (a b : ascii) (s : string) : string :=
  match s with
  | EmptyString => EmptyString
  | String c r =>
      String (if Ascii.eqb c a then b else c) (replace_char a b r)
  end.

(** [s.replace(a, '')] for a one-character [a]. *)
Fixpoint remove_char (a : ascii) (s : string) : string :=
  match s with
  | EmptyString => EmptyString
  | String c r =>
      if Ascii.eqb c a then remove_char a r else String c (remove_char a r)
  end.

(** [s.lstrip('+-')] *)
Fixpoint lstrip_signs (s : string) : string :=
  match s with
  | EmptyString => EmptyString
  | String c r =>
      if Ascii.eqb c "+" || Ascii.eqb c "-" then lstrip_signs r else s
  end.

Fixpoint all_chars (p : ascii -> bool) (s : string) : bool :=
  match s with
  | EmptyString => true
  | String c r => p c && all_chars p r
  end.

(** [s.isdigit()]: at least one character and only digits. *)
Definition isdigit (s : string) : bool :=
  match s with
  | EmptyString => false
  | _ => all_chars is_digit s
  end.

(** [s.startswith(p)] *)
Fixpoint startswith (p s : string) : bool :=
  match p, s with
  | EmptyString, _ => true
  | String a p', String c s' => Ascii.eqb a c && startswith p' s'
  | String _ _, EmptyString => false
  end.

(** [k in s] on strings: [k] occurs in [s] as a substring. *)
Fixpoint contains (k s : string) : bool :=
  startswith k s ||
  match s with
  | EmptyString => false
  | String _ r => contains k r
  end.

(** The value of a decimal digit, and of a run of digits ([int] on a
    string of ASCII digits). *)
Definition digit_val (c : ascii) : Z := Z.of_N (code c) - 48.

Fixpoint digits_val (acc : Z) (s : string) : Z :=
  match s with
  | EmptyString => acc
  | String c r => digits_val (10 * acc + digit_val c) r
  end.

(** One decimal digit as a character, for [0 <= n < 10]. *)
Definition digit_char (n : Z) : ascii := ascii_of_N (Z.to_N (48 + n mod 10)).

(** [n] printed on two, and on four, decimal digits with leading zeros. *)
Definition pad2 (n : Z) : string :=
  String (digit_char (n / 10)) (String (digit_char n) EmptyString).

Definition pad4 (n : Z) : string :=
  String (digit_char (n / 1000)) (String (digit_char (n / 100))
    (String (digit_char (n / 10)) (String (digit_char n) EmptyString))).

(** [str(n)] for a natural number. *)
Definition str_nat (n : nat) : string := NilZero.string_of_uint (Nat.to_uint n).

End Text.

Import Text.

(** ** Column Name Normalizer ([normalize_column_name], lines 47-104) *)

Module Normalizer.

(** *** The two regular expressions, compiled by hand

    [re.search] returns the leftmost match; at one position the
    alternatives are tried in order and quantifiers are greedy. *)

(** A literal matched without regard to case ([re.IGNORECASE]); the result
    is the text after the literal. *)
Fixpoint match_ci (lit s : string) : option string :=
  match lit, s with
  | EmptyString, _ => Some s
  | String a lit', String c s' =>
      if Ascii.eqb (lower_char a) (lower_char c) then match_ci lit' s' else None
  | String _ _, EmptyString => None
  end.

(** [\s+]: one or more white-space characters.  In both patterns [\s+] is
    followed by a digit or by the end of the pattern, so giving back a
    white-space character never helps and only the longest run matters. *)
Definition spaces1 (s : string) : option string :=
  match s with
  | String c r => if is_space c then Some (lstrip r) else None
  | EmptyString => None
  end.

(** [(\d{1,2})/]: two digits and a slash, or else one digit and a slash. *)
Definition month_slash (s : string) : option (string * string) :=
  match s with
  | String d1 (String d2 (String sl r)) =>
      if is_digit d1 && is_digit d2 && Ascii.eqb sl "/"
      then Some (String d1 (String d2 EmptyString), r)
      else if is_digit d1 && Ascii.eqb d2 "/"
      then Some (String d1 EmptyString, String sl r)
      else None
  | String d1 (String d2 EmptyString) =>
      if is_digit d1 && Ascii.eqb d2 "/"
      then Some (String d1 EmptyString, EmptyString)
      else None
  | _ => None
  end.

(** [(\d{1,2})] at the end of the pattern: two digits when there are two,
    else one. *)
Definition day_digits (s : string) : option string :=
  match s with
  | String d1 (String d2 _) =>
      if is_digit d1 && is_digit d2 then Some (String d1 (String d2 EmptyString))
      else if is_digit d1 then Some (String d1 EmptyString)
      else None
  | String d1 EmptyString =>
      if is_digit d1 then Some (String d1 EmptyString) else None
  | EmptyString => None
  end.

Definition weekdays : list string :=
  ["Monday"; "Tuesday"; "Wednesday"; "Thursday"; "Friday"; "Saturday"; "Sunday"].

(** What follows the weekday name: [\s+(\d{1,2})/(\d{1,2})], giving
    [int(group(1))] and [int(group(2))]. *)
Definition date_tail (s : string) : option (Z * Z) :=
  r ← spaces1 s;
  '(m, r') ← month_slash r;
  d ← day_digits r';
  Some (digits_val 0 m, digits_val 0 d).

(** The pattern tried at the head of [s]: the alternatives in order. *)
Fixpoint date_at (names : list string) (s : string) : option (Z * Z) :=
  match names with
  | [] => None
  | w :: names' =>
      match match_ci w s ≫= date_tail with
      | Some md => Some md
      | None => date_at names' s
      end
  end.

(** [re.search(date_pattern, col_name, re.IGNORECASE)] *)
Fixpoint date_search (s : string) : option (Z * Z) :=
  match date_at weekdays s with
  | Some md => Some md
  | None =>
      match s with
      | EmptyString => None
      | String _ r => date_search r
      end
  end.

(** [ytd\s+(\d{2})\s+] tried at the head of [s]; the result is group 1. *)
Definition ytd_at (s : string) : option string :=
  match s with
  | String "y" (String "t" (String "d" r)) =>
      match spaces1 r with
      | Some (String d1 (String d2 (String c _))) =>
          if is_digit d1 && is_digit d2 && is_space c
          then Some (String d1 (String d2 EmptyString))
          else None
      | _ => None
      end
  | _ => None
  end.

(** [re.search(ytd_pattern, normalized)] *)
Fixpoint ytd_search (s : string) : option string :=
  match ytd_at s with
  | Some y => Some y
  | None =>
      match s with
      | EmptyString => None
      | String _ r => ytd_search r
      end
  end.

(** *** [datetime(year, month, day)] and [strftime("%Y-%m-%d")] *)

Definition is_leap (y : Z) : bool :=
  (y mod 4 =? 0) && (negb (y mod 100 =? 0) || (y mod 400 =? 0)).

Definition days_in_month (y m : Z) : Z :=
  if m =? 2 then (if is_leap y then 29 else 28)
  else if (m =? 4) || (m =? 6) || (m =? 9) || (m =? 11) then 30
  else 31.

(** The constructor raises [ValueError] outside these ranges (for a year
    in the range of a C [int]; beyond it the error is [OverflowError],
    which the model does not tell apart). *)
Definition valid_date (y m d : Z) : bool :=
  (1 <=? y) && (y <=? 9999) && (1 <=? m) && (m <=? 12) &&
  (1 <=? d) && (d <=? days_in_month y m).

Definition datetime (y m d : Z) : option (Z * Z * Z) :=
  if valid_date y m d then Some (y, m, d) else None.

(** [%Y] on four digits: what every platform prints from the year 1000
    on. *)
Definition strftime (date_obj : Z * Z * Z) : string :=
  let '(y, m, d) := date_obj in
  pad4 y +:+ "-" +:+ pad2 m +:+ "-" +:+ pad2 d.

(** *** The rules after the weekday-date rule (lines 75-104) *)

Definition column_mapping : gmap string string :=
  <["7-day totals" := "seven_day_total"]>
    (<["+/-" := "change"]> (<["% change" := "percent_change"]> ∅)).

(** [re.sub(r'[^\w\s-]', '', s)] *)
Fixpoint drop_special (s : string) : string :=
  match s with
  | EmptyString => EmptyString
  | String c r =>
      if is_word c || is_space c || Ascii.eqb c "-"
      then String c (drop_special r) else drop_special r
  end.

(** [re.sub(r'[-\s]+', '_', s)]: [in_run] says that the previous character
    belonged to a run that has been replaced already. *)
Fixpoint join_runs (in_run : bool) (s : string) : string :=
  match s with
  | EmptyString => EmptyString
  | String c r =>
      if Ascii.eqb c "-" || is_space c
      then (if in_run then join_runs true r else String "_" (join_runs true r))
      else String c (join_runs false r)
  end.

(** The default rule (lines 100-104). *)
Definition generic_fallback (normalized : string) : string :=
  join_runs false (drop_special normalized).

(** Lines 75-104: everything below the weekday-date rule. *)
Definition normalize_rest (col_name : string) : string :=
  let normalized := strip (lower col_name) in
  if startswith "prev. 7" normalized then "prev_seven_day_total"
  else
    match ytd_search normalized with
    | Some year => "ytd_20" +:+ year
    | None =>
        match column_mapping !! normalized with
        | Some name => name
        | None => generic_fallback normalized
        end
    end.

Definition invalid_date_warning (col_name : string) : string :=
  "Invalid date in column name: " +:+ col_name.

(** Lines 59-60: [if not reference_year: reference_year = datetime.now().year];
    [None] and [0] are both false. *)
Definition year_or_now (now_year : Z) (reference_year : option Z) : Z :=
  match reference_year with
  | Some y => if y =? 0 then now_year else y
  | None => now_year
  end.

(** [normalize_column_name(col_name, reference_year)].  [now_year] is
    [datetime.now().year]; the second component lists the warnings
    logged. *)
Definition normalize_column_name
    (now_year : Z) (col_name : string) (reference_year : option Z)
    : string * list string :=
  let reference_year := year_or_now now_year reference_year in
  match date_search col_name with
  | Some (month, day) =>
      match datetime reference_year month day with
      | Some date_obj => (strftime date_obj, [])
      | None => (normalize_rest col_name, [invalid_date_warning col_name])
      end
  | None => (normalize_rest col_name, [])
  end.

End Normalizer.

Import Normalizer.

(** ** Values of record fields and the builtin conversions *)

Module Values.

(** A Python [float] obtained from a decimal literal, kept as the exact
    decimal [(-1)^negative * mantissa * 10^exp10] in canonical form (the
    mantissa has no trailing zero, and a zero mantissa has exponent 0).
    CPython rounds this number to the nearest binary64 value; the rounding
    is not part of the model, the success or failure of the conversion
    is. *)
Inductive PyFloat : Type :=
| FNan
| FInf (negative : bool)
| FDec (negative : bool) (mantissa : N) (exp10 : Z).

(** What a record can hold: [None], a [str], an [int] or a [float]. *)
Inductive Value : Type :=
| VNone
| VStr (s : string)
| VInt (n : Z)
| VFloat (x : PyFloat).

Global Instance PyFloat_eq_dec : EqDecision PyFloat.
Proof. solve_decision. Defined.

Global Instance Value_eq_dec : EqDecision Value.
Proof. solve_decision. Defined.

(** Underscores in a numeric string are accepted only between two digits:
    [prev] is the previous character (NUL at the start). *)
Fixpoint underscores_ok (prev : ascii) (s : string) : bool :=
  match s with
  | EmptyString => negb (Ascii.eqb prev "_")
  | String c r =>
      (if Ascii.eqb c "_" then is_digit prev
       else negb (Ascii.eqb prev "_") || is_digit c)
      && underscores_ok c r
  end.

(** The longest prefix of digits, and what follows it. *)
Fixpoint take_digits (s : string) : string * string :=
  match s with
  | String c r =>
      if is_digit c then let '(ds, rest) := take_digits r in (String c ds, rest)
      else (EmptyString, s)
  | EmptyString => (EmptyString, EmptyString)
  end.

(** An optional sign. *)
Definition take_sign (s : string) : bool * string :=
  match s with
  | String "-" r => (true, r)
  | String "+" r => (false, r)
  | _ => (false, s)
  end.

(** A digit string without its trailing zeros, and their number. *)
Fixpoint rstrip_zeros (s : string) : string * Z :=
  match s with
  | EmptyString => (EmptyString, 0)
  | String c r =>
      let '(r', k) := rstrip_zeros r in
      match r' with
      | EmptyString =>
          if Ascii.eqb c "0" then (EmptyString, k + 1) else (String c EmptyString, k)
      | _ => (String c r', k)
      end
  end.

Definition decimal (negative : bool) (digits : string) (exp10 : Z) : PyFloat :=
  let '(ds, k) := rstrip_zeros digits in
  let m := Z.to_N (digits_val 0 ds) in
  FDec negative m (if (m =? 0)%N then 0 else exp10 + k).

(** [digits [. digits] [(e|E) [sign] digits]] with a digit before or after
    the point; the whole string has to be consumed. *)
Definition parse_number (negative : bool) (s : string) : option PyFloat :=
  let '(ip, r1) := take_digits s in
  let '(fp, r2) :=
    match r1 with
    | String "." r => take_digits r
    | _ => (EmptyString, r1)
    end in
  if String.eqb (ip +:+ fp) "" then None
  else
    let scale := - Z.of_nat (String.length fp) in
    match r2 with
    | EmptyString => Some (decimal negative (ip +:+ fp) scale)
    | String e r3 =>
        if Ascii.eqb (lower_char e) "e" then
          let '(eneg, r4) := take_sign r3 in
          let '(ed, r5) := take_digits r4 in
          if negb (String.eqb ed "") && String.eqb r5 "" then
            let ev := digits_val 0 ed in
            Some (decimal negative (ip +:+ fp) (scale + (if eneg then - ev else ev)))
          else None
        else None
    end.

(** The builtin [float(s)] on a string: [None] is [ValueError]. *)
Definition py_float (s : string) : option PyFloat :=
  let t := strip s in
  if underscores_ok "000" t then
    let '(negative, body) := take_sign (remove_char "_" t) in
    let low := lower body in
    if String.eqb low "inf" || String.eqb low "infinity" then Some (FInf negative)
    else if String.eqb low "nan" then Some FNan
    else parse_number negative body
  else None.

(** The builtin [int(s)] on a string, base 10: [None] is [ValueError].  The
    interpreter's limit on the number of digits (4300 by default, also a
    [ValueError]) is not part of the model. *)
Definition py_int (s : string) : option Z :=
  let t := strip s in
  let '(negative, body) := take_sign t in
  let ds := remove_char "_" body in
  if underscores_ok "000" body && isdigit ds
  then Some (if negative then - digits_val 0 ds else digits_val 0 ds)
  else None.

End Values.

Import Values.

(** ** Table Record Builder ([parse_crime_table], lines 107-183) *)

Module Builder.

(** [config.py]: the two table parsing settings. *)
Definition SKIP_EMPTY_ROWS : bool := true.
Definition STRIP_WHITESPACE : bool := true.

(** A cell is a string or [None]; a table is a list of rows of cells. *)
Abbreviation Cell := (option string).
Abbreviation Row := (list (option string)).
Abbreviation RawTable := (list (list (option string))).
Abbreviation Record := (gmap string Value).

Definition nonempty (s : string) : bool := negb (String.eqb s "").

(** Lines 161-178: the value stored for a cell of column [col_name].  The
    variable [value] is reassigned only when a conversion succeeds. *)
Definition coerce_cell (col_name : string) (value : Cell) : Value :=
  match value with
  | None => VNone
  | Some raw =>
      let value_str := if STRIP_WHITESPACE then strip raw else raw in
      if String.eqb col_name "percent_change" && nonempty value_str then
        let numeric_str :=
          strip (remove_char "%" (remove_char "+" value_str)) in
        match py_float numeric_str with
        | Some x => VFloat x
        | None => VStr raw
        end
      else if isdigit (lstrip_signs value_str) then
        match py_int value_str with
        | Some n => VInt n
        | None => VStr raw
        end
      else VStr raw
  end.

(** Lines 156-179: [for i, value in enumerate(row[1:], start=1)]. *)
Fixpoint fill_record (columns : list string) (i : nat) (cells : Row)
    (record : Record) : Record :=
  match cells with
  | [] => record
  | value :: rest =>
      let record' :=
        match columns !! i with
        | Some col_name =>
            if nonempty col_name
            then <[col_name := coerce_cell col_name value]> record
            else record
        | None => record
        end in
      fill_record columns (S i) rest record'
  end.

(** [cell is None or str(cell).strip() == ''] *)
Definition blank_cell (cell : Cell) : bool :=
  match cell with
  | None => true
  | Some s => String.eqb (strip s) ""
  end.

(** [not row or all(... for cell in row)] *)
Definition empty_row (row : Row) : bool :=
  match row with
  | [] => true
  | _ => forallb blank_cell row
  end.

(** The body of the loop over the data rows (lines 139-181): [None] when
    the row is skipped by a [continue], else the record appended. *)
Definition row_record (columns : list string) (row : Row) : option Record :=
  if empty_row row && SKIP_EMPTY_ROWS then None
  else
    match head row with
    | Some (Some offense_type) =>
        if negb (nonempty offense_type) || String.eqb (strip offense_type) ""
        then None
        else
          let offense_type :=
            if STRIP_WHITESPACE then strip offense_type else offense_type in
          Some (fill_record columns 1 (tail row)
                  {[ "offense_type" := VStr offense_type ]})
    | _ => None
    end.

Fixpoint data_rows (columns : list string) (rows : RawTable) : list Record :=
  match rows with
  | [] => []
  | row :: rest =>
      match row_record columns row with
      | Some record => record :: data_rows columns rest
      | None => data_rows columns rest
      end
  end.

(** Lines 125-134: the name of one header cell. *)
Definition header_column (now_year : Z) (report_year : option Z) (col : Cell)
    : string :=
  match col with
  | Some c =>
      if nonempty c then
        let col_clean := strip (replace_char "010" " " c) in
        fst (normalize_column_name now_year col_clean report_year)
      else ""
  | None => ""
  end.

(** [parse_crime_table(table, report_year)] *)
Definition parse_crime_table (now_year : Z) (table : RawTable)
    (report_year : option Z) : list Record :=
  if (match table with [] => true | _ => false end) || (length table <? 2)%nat
  then []
  else
    let header :=
      if (1 <? length table)%nat then default [] (table !! 1%nat)
      else default [] (table !! 0%nat) in
    let columns := map (header_column now_year report_year) header in
    data_rows columns (drop 2 table).

End Builder.

Import Builder.

(** ** Exceptions *)

(** The outcome of a call that can raise: the value returned, or the text of
    the exception. *)
Inductive Exc (A : Type) : Type :=
| Return (a : A)
| Raise (e : string).

Arguments Return {A} a.
Arguments Raise {A} e.

(** ** Summary Aggregator ([calculate_summary], lines 186-217) *)

Module Aggregator.

Record Summary : Type := {
  total_offense_types : nat;
  violent_crimes : list string;
  property_crimes : list string;
  violent_crime_count : nat;
  property_crime_count : nat
}.

Definition violent_keywords : list string :=
  ["murder"; "sex"; "rape"; "assault"; "robbery"; "shooting"; "carjacking"].

(** [record.get('offense_type', '').lower()]: only a [str] has the method,
    any other value raises [AttributeError]. *)
Definition offense_lower (record : Record) : Exc string :=
  match record !! "offense_type" with
  | None => Return (lower "")
  | Some (VStr s) => Return (lower s)
  | Some VNone => Raise "'NoneType' object has no attribute 'lower'"
  | Some (VInt _) => Raise "'int' object has no attribute 'lower'"
  | Some (VFloat _) => Raise "'float' object has no attribute 'lower'"
  end.

(** [any(keyword in offense_type for keyword in violent_keywords)] *)
Definition is_violent (offense_type : string) : bool :=
  existsb (fun keyword => contains keyword offense_type) violent_keywords.

(** The loop of lines 205-212 over the two bucket lists. *)
Fixpoint categorize (records : list Record) (violent property : list string)
    : Exc (list string * list string) :=
  match records with
  | [] => Return (violent, property)
  | record :: rest =>
      match offense_lower record with
      | Raise e => Raise e
      | Return offense_type =>
          if is_violent offense_type
          then categorize rest (violent ++ [offense_type]) property
          else categorize rest violent (property ++ [offense_type])
      end
  end.

Definition calculate_summary (records : list Record) : Exc Summary :=
  match categorize records [] [] with
  | Raise e => Raise e
  | Return (violent, property) =>
      Return {| total_offense_types := length records;
                violent_crimes := violent;
                property_crimes := property;
                violent_crime_count := length violent;
                property_crime_count := length property |}
  end.

End Aggregator.

Import Aggregator.

(** ** Document Pipeline ([parse_pdf], lines 220-296) *)

Module Pipeline.

(** What pdfplumber gives for one page: its text and its tables. *)
Record Page : Type := {
  extract_text : string;
  extract_tables : list RawTable
}.

(** The fields of the result that the parse computes. *)
Record ParseResult : Type := {
  report_date : option string;
  extracted_date_text : option string;
  crime_statistics : list Record;
  summary : Summary;
  parse_errors : list string
}.

(** [s[:n]] *)
Fixpoint take_chars (n : nat) (s : string) : string :=
  match n, s with
  | S n', String c r => String c (take_chars n' r)
  | _, _ => EmptyString
  end.

(** [s.split(sep)] for a one-character separator. *)
Fixpoint split_on (sep : ascii) (s : string) : list string :=
  match s with
  | EmptyString => [EmptyString]
  | String c r =>
      if Ascii.eqb c sep then EmptyString :: split_on sep r
      else
        match split_on sep r with
        | h :: t => String c h :: t
        | [] => [String c EmptyString]
        end
  end.

(** Line 261: [header_text.split('\n')[2] if '\n' in header_text else None];
    the subscript raises [IndexError] on fewer than three lines. *)
Definition date_text_line (header_text : string) : Exc (option string) :=
  if contains (String "010" EmptyString) header_text then
    match split_on "010" header_text !! 2%nat with
    | Some line => Return (Some line)
    | None => Raise "list index out of range"
    end
  else Return None.

(** Line 283 *)
Definition table_error (table_num page_num : nat) (e : string) : string :=
  "Error parsing table " +:+ str_nat table_num +:+ " on page " +:+
  str_nat page_num +:+ ": " +:+ e.

Section Parse.

(** The call of line 279, [parse_crime_table(table, report_year)], seen
    from the [try]: it returns records or raises. *)
Variable parse_table : RawTable -> option Z -> Exc (list Record).

(** [extract_date_from_header] (it relies on [dateutil]) and
    [datetime.strptime(_, "%Y-%m-%d").year], [None] for [ValueError]. *)
Variable extract_date_from_header : string -> option string.
Variable strptime_year : string -> option Z.

(** Lines 276-285: the tables of one page, numbered from [table_num];
    the state is [(all_records, parse_errors)]. *)
Fixpoint tables_loop (page_num table_num : nat) (tables : list RawTable)
    (report_year : option Z) (st : list Record * list string)
    : list Record * list string :=
  match tables with
  | [] => st
  | table :: rest =>
      let st' :=
        match parse_table table report_year with
        | Return records => (st.1 ++ records, st.2)
        | Raise e => (st.1, st.2 ++ [table_error table_num page_num e])
        end in
      tables_loop page_num (S table_num) rest report_year st'
  end.

(** Lines 272-285: the pages, numbered from [page_num]. *)
Fixpoint pages_loop (page_num : nat) (pages : list Page)
    (report_year : option Z) (st : list Record * list string)
    : list Record * list string :=
  match pages with
  | [] => st
  | page :: rest =>
      pages_loop (S page_num) rest report_year
        (tables_loop page_num 1 (extract_tables page) report_year st)
  end.

(** Lines 246-261: the date of the first page; the result is
    [(report_date, extracted_date_text, parse_errors)]. *)
Definition first_page_date (pages : list Page)
    : Exc (option string * option string * list string) :=
  match pages with
  | [] => Return (None, None, [])
  | first_page :: _ =>
      let header_text := take_chars 500 (extract_text first_page) in
      let '(date, errors) :=
        match extract_date_from_header header_text with
        | Some report_date =>
            if nonempty report_date then (Some report_date, [])
            else (None, ["Could not extract report date"])
        | None => (None, ["Could not extract report date"])
        end in
      match date_text_line header_text with
      | Return line => Return (date, line, errors)
      | Raise e => Raise e
      end
  end.

(** [parse_pdf]: [opened] is the outcome of [pdfplumber.open].  Every
    exception outside the [try] of line 278 reaches the handler of line
    292, which raises it again. *)
Definition parse_pdf (opened : Exc (list Page)) : Exc ParseResult :=
  match opened with
  | Raise e => Raise e
  | Return pages =>
      match first_page_date pages with
      | Raise e => Raise e
      | Return (date, line, errors) =>
          let report_year := date ≫= strptime_year in
          let '(all_records, errors') :=
            pages_loop 1 pages report_year ([], errors) in
          match calculate_summary all_records with
          | Raise e => Raise e
          | Return s =>
              Return {| report_date := date;
                        extracted_date_text := line;
                        crime_statistics := all_records;
                        summary := s;
                        parse_errors := errors' |}
          end
      end
  end.

End Parse.

(** The builder of this module never raises on a table of cells. *)
Definition crime_table (now_year : Z) (table : RawTable)
    (report_year : option Z) : Exc (list Record) :=
  Return (parse_crime_table now_year table report_year).

End Pipeline.

Import Pipeline.

(** ** The key normalizer of [update_json_keys.py] ([normalize_key]) *)

Module UpdateKeys.

(** [re.match(r'\d{4}-\d{2}-\d{2}', key)]: the pattern at the start of the
    key. *)
Definition iso_date_match (key : string) : bool :=
  match key with
  | String a (String b (String c (String d (String h1
      (String e (String f (String h2 (String g (String h _))))))))) =>
      is_digit a && is_digit b && is_digit c && is_digit d && Ascii.eqb h1 "-"
      && is_digit e && is_digit f && Ascii.eqb h2 "-"
      && is_digit g && is_digit h
  | _ => false
  end.

Definition standard_fields : list string :=
  ["report_date"; "extracted_date_text"; "download_timestamp";
   "source_file"; "crime_statistics"; "summary"; "parse_errors";
   "offense_type"; "total_offense_types"; "violent_crimes";
   "property_crimes"; "violent_crime_count"; "property_crime_count"].

(** [normalize_key(key)]: the rules of the column normalizer without the
    weekday-date rule, and with two rules that return the key as it is. *)
Definition normalize_key (key : string) : string :=
  let key_lower := strip (lower key) in
  if startswith "prev. 7" key_lower then "prev_seven_day_total"
  else
    match ytd_search key_lower with
    | Some year => "ytd_20" +:+ year
    | None =>
        match column_mapping !! key_lower with
        | Some name => name
        | None =>
            if iso_date_match key then key
            else if bool_decide (key ∈ standard_fields) then key
            else generic_fallback key_lower
        end
    end.

End UpdateKeys.

Import UpdateKeys.

(** ** Vocabulary of the statements *)

(** [k] occurs in [t]: [t] is [pre ++ k ++ post]. *)
Definition occurs_in (k t : string) : Prop :=
  ∃ pre post, t = pre +:+ k +:+ post.

(** The offense type names one of the keywords for violent crime. *)
Definition mentions_keyword (t : string) : Prop :=
  ∃ k, k ∈ violent_keywords ∧ occurs_in k t.

(** The [offense_type] entry of a record is a string, or there is none. *)
Definition textual_offense (record : Record) : Prop :=
  match record !! "offense_type" with
  | None | Some (VStr _) => True
  | Some _ => False
  end.

(** The [offense_type] string of a record as stored, [''] when missing. *)
Definition offense_text (record : Record) : string :=
  match record !! "offense_type" with
  | Some (VStr s) => s
  | _ => ""
  end.

(** A cell that is absent or blank after trimming. *)
Definition blank (cell : Cell) : Prop :=
  match cell with
  | None => True
  | Some s => strip s = ""
  end.

(** A row that is not data: it is empty, all its cells are blank, or its
    first cell (the offense type) is. *)
Definition not_data (row : Row) : Prop :=
  match row with
  | [] => True
  | first :: _ => blank first ∨ Forall blank row
  end.

(** The column names of a header row. *)
Definition columns_of (now_year : Z) (report_year : option Z) (header : Row)
    : list string :=
  map (header_column now_year report_year) header.

(** The reading of C1: every key of a record other than [offense_type] is
    the name of a column whose cell is present in the row. *)
Definition keys_from_present_cells (columns : list string) (row : Row)
    (record : Record) : Prop :=
  ∀ k, is_Some (record !! k) →
    k = "offense_type"
    ∨ ∃ (i : nat) (text : string),
        columns !! i = Some k ∧ row !! i = Some (Some text).

(** The reading of C5, after the specification's words: one leading [+] and
    one trailing [%] are stripped from the trimmed cell, the rest is parsed
    as a float, and on failure the trimmed cell is kept. *)
Definition strip_leading_plus (s : string) : string :=
  match s with
  | String "+" r => r
  | _ => s
  end.

Fixpoint strip_trailing_percent (s : string) : string :=
  match s with
  | EmptyString => EmptyString
  | String c EmptyString => if Ascii.eqb c "%" then EmptyString else s
  | String c r => String c (strip_trailing_percent r)
  end.

Definition percent_as_claimed (raw : string) : Value :=
  let trimmed := strip raw in
  match py_float (strip_trailing_percent (strip_leading_plus trimmed)) with
  | Some x => VFloat x
  | None => VStr trimmed
  end.

(** The text begins with a white-space character. *)
Definition starts_with_space (s : string) : bool :=
  match s with
  | String c _ => is_space c
  | EmptyString => false
  end.

(** [day] is a weekday name in any mix of upper and lower case. *)
Definition weekday_name (day : string) : Prop :=
  lower day ∈ lower <$> weekdays.

(** The pattern matches nowhere inside [pre] when [pre] stands in front of
    [text]: a match of [pre +:+ text] starts in [text]. *)
Definition no_match_inside (pre text : string) : Prop :=
  ∀ p1 p2, pre = p1 +:+ p2 → p2 ≠ "" → date_at weekdays (p2 +:+ text) = None.

(** One or two digits, as [\d{1,2}] takes them. *)
Definition short_number (s : string) : bool :=
  match s with
  | String a EmptyString => is_digit a
  | String a (String b EmptyString) => is_digit a && is_digit b
  | _ => false
  end.

(** The day number [D] is all that [\d{1,2}] takes in front of [rest]. *)
Definition day_ends (D rest : string) : bool :=
  match D, rest with
  | String _ EmptyString, String c _ => negb (is_digit c)
  | _, _ => true
  end.

(** What one table adds to the records and to the error list: its records
    and no message, or no record and one message with its numbers. *)
Definition table_records (parse_table : RawTable → option Z → Exc (list Record))
    (report_year : option Z) (table : RawTable) : list Record :=
  match parse_table table report_year with
  | Return records => records
  | Raise _ => []
  end.

Definition table_errors (parse_table : RawTable → option Z → Exc (list Record))
    (report_year : option Z) (page_num table_num : nat) (table : RawTable)
    : list string :=
  match parse_table table report_year with
  | Return _ => []
  | Raise e => [table_error table_num page_num e]
  end.

(** The same for a document, in page order and then table order; pages and
    tables are numbered from 1. *)
Definition document_records (parse_table : RawTable → option Z → Exc (list Record))
    (report_year : option Z) (pages : list Page) : list Record :=
  concat (map (λ page,
    concat (map (table_records parse_table report_year) (extract_tables page)))
    pages).

Definition document_errors (parse_table : RawTable → option Z → Exc (list Record))
    (report_year : option Z) (first_page : nat) (pages : list Page)
    : list string :=
  concat (imap (λ i page,
    concat (imap (λ j table,
      table_errors parse_table report_year (first_page + i) (1 + j) table)
      (extract_tables page)))
    pages).

(** A character of a snake-case name: a lower-case letter, a digit or the
    underscore. *)
Definition snake_char (c : ascii) : bool :=
  is_lower c || is_digit c || Ascii.eqb c "_".

(** A data row that gives a record: its first cell is present and not
    blank. *)
Definition data_row (row : Row) : bool :=
  match row with
  | Some s :: _ => negb (String.eqb (strip s) "")
  | _ => false
  end.

(** No column after the first has the name [offense_type]. *)
Definition no_offense_column (columns : list string) : Prop :=
  ∀ i : nat, (0 < i)%nat → columns !! i ≠ Some "offense_type".

(** The number of occurrences of a character in a text. *)
Fixpoint count_char (a : ascii) (s : string) : nat :=
  match s with
  | EmptyString => 0%nat
  | String c r => ((if Ascii.eqb c a then 1 else 0) + count_char a r)%nat
  end.

(** ** JSON values and Python dictionaries *)

Module PyDict.

(** What [json.load] returns: [None], a [bool], a number, a [str], a [list]
    or a [dict].  A [dict] is the list of its items in insertion order; its
    keys are strings and, in a dictionary that Python has built, distinct. *)
Inductive Json : Type :=
| JNull
| JBool (b : bool)
| JInt (n : Z)
| JFloat (x : PyFloat)
| JStr (s : string)
| JList (items : list Json)
| JDict (entries : list (string * Json)).

(** [d[k] = v]: the value of an existing key is replaced where the key
    stands, a new key goes to the end. *)
Fixpoint dict_set {A} (k : string) (v : A) (d : list (string * A))
    : list (string * A) :=
  match d with
  | [] => [(k, v)]
  | (k', v') :: rest =>
      if String.eqb k' k then (k', v) :: rest else (k', v') :: dict_set k v rest
  end.

(** [d.get(k)] *)
Fixpoint dict_get {A} (k : string) (d : list (string * A)) : option A :=
  match d with
  | [] => None
  | (k', v') :: rest => if String.eqb k' k then Some v' else dict_get k rest
  end.

(** [dict(items)], and a dictionary comprehension over [items]: the items
    are set one after the other into an empty dictionary. *)
Definition dict_of_items {A} (items : list (string * A)) : list (string * A) :=
  fold_left (λ d kv, dict_set kv.1 kv.2 d) items [].

End PyDict.

Import PyDict.

(** ** [update_json_keys.py]: [update_dict_keys] *)

Module UpdateDict.

(** [update_dict_keys(obj)]: the keys of every dictionary are normalized,
    all the way down; lists are mapped and other values returned. *)
Fixpoint update_dict_keys (obj : Json) : Json :=
  match obj with
  | JDict entries =>
      JDict (dict_of_items
               (map (λ kv, (normalize_key kv.1, update_dict_keys kv.2)) entries))
  | JList items => JList (map update_dict_keys items)
  | _ => obj
  end.

End UpdateDict.

Import UpdateDict.

(** The value of the last item of [entries] whose key satisfies [p]. *)
Fixpoint last_value {A} (p : string → bool) (entries : list (string * A))
    : option A :=
  match entries with
  | [] => None
  | (k, v) :: rest =>
      match last_value p rest with
      | Some v' => Some v'
      | None => if p k then Some v else None
      end
  end.

(** Every key of every dictionary inside a value satisfies [p]. *)
Fixpoint all_keys (p : string → bool) (obj : Json) : bool :=
  match obj with
  | JDict entries => forallb (λ kv, p kv.1 && all_keys p kv.2) entries
  | JList items => forallb (all_keys p) items
  | _ => true
  end.

(** ** [json_to_csv.py]: [flatten_record] and the columns of the CSV file *)

Module CsvExport.

(** [sep.join(strings)] *)
Fixpoint join (sep : string) (strings : list string) : string :=
  match strings with
  | [] => ""
  | [s] => s
  | s :: rest => s +:+ sep +:+ join sep rest
  end.

(** [sorted(names)]: strings compare by their code points, one after the
    other. *)
Definition sorted (names : list string) : list string :=
  merge_sort String.le names.

(** [names.remove(field)]: the first occurrence goes. *)
Fixpoint remove_first (field : string) (names : list string) : list string :=
  match names with
  | [] => []
  | name :: rest =>
      if String.eqb name field then rest else name :: remove_first field rest
  end.

(** Lines 94-97: [if field in fieldnames: fieldnames.remove(field);
    fieldnames.insert(0, field)]. *)
Definition move_to_front (field : string) (fieldnames : list string)
    : list string :=
  if bool_decide (field ∈ fieldnames)
  then field :: remove_first field fieldnames
  else fieldnames.

(** [for field in reversed(priority_fields): ...] *)
Definition prioritize (priority_fields fieldnames : list string) : list string :=
  fold_left (λ names field, move_to_front field names)
    (rev priority_fields) fieldnames.

(** Lines 86-97: the column names of the CSV file, from the flattened
    records: the sorted set of their keys, the priority fields in front. *)
Definition csv_fieldnames (priority_fields : list string)
    (flattened_records : list (list (string * Json))) : list string :=
  prioritize priority_fields
    (sorted (remove_dups (concat (map (map fst) flattened_records)))).

(** What [csv.DictWriter] writes for one record: for each column the value
    of the record, or nothing (the empty [restval]). *)
Definition csv_row (fieldnames : list string) (record : list (string * Json))
    : list (option Json) :=
  map (λ field, dict_get field record) fieldnames.

Section Flatten.

(** The builtin [str] on the members of a list. *)
Variable py_str : Json → string.

(** [flatten_record(record, parent_key)], with [obj = JDict record]; the
    result is the list of items of the dictionary returned. *)
Fixpoint flatten_json (parent_key : string) (obj : Json) {struct obj}
    : list (string * Json) :=
  match obj with
  | JDict record =>
      dict_of_items
        ((fix items (entries : list (string * Json)) : list (string * Json) :=
            match entries with
            | [] => []
            | (k, v) :: rest =>
                let new_key :=
                  if nonempty parent_key then parent_key +:+ "." +:+ k else k in
                match v with
                | JDict _ => flatten_json new_key v
                | JList members =>
                    [(new_key,
                      JStr (match members with
                            | [] => ""
                            | _ => join ", " (map py_str members)
                            end))]
                | _ => [(new_key, v)]
                end ++ items rest
            end) record)
  | _ => []
  end.

Definition flatten_record (record : list (string * Json)) (parent_key : string)
    : list (string * Json) :=
  flatten_json parent_key (JDict record).

(** Lines 69-98 of [json_to_csv], without the files: the header and the rows
    written for the loaded [data], or [None] where the function returns
    [False] (no [crime_statistics], or, through the [except], a value that
    is not a list of dictionaries). *)
Definition enhance (report_date extracted_date_text : Json)
    (record : list (string * Json)) : list (string * Json) :=
  dict_of_items
    (("report_date", report_date)
     :: ("extracted_date_text", extracted_date_text) :: record).

Fixpoint records_of (members : list Json) : option (list (list (string * Json))) :=
  match members with
  | [] => Some []
  | JDict record :: rest => cons record <$> records_of rest
  | _ :: _ => None
  end.

Definition csv_table (data : list (string * Json))
    : option (list string * list (list (option Json))) :=
  match dict_get "crime_statistics" data with
  | Some (JList (member :: members)) =>
      match records_of (member :: members) with
      | Some crime_statistics =>
          let report_date := default JNull (dict_get "report_date" data) in
          let extracted_date_text :=
            default JNull (dict_get "extracted_date_text" data) in
          let flattened_records :=
            map (λ record,
                   flatten_record (enhance report_date extracted_date_text record) "")
              crime_statistics in
          let fieldnames :=
            csv_fieldnames ["report_date"; "offense_type"] flattened_records in
          Some (fieldnames, map (csv_row fieldnames) flattened_records)
      | None => None
      end
  | _ => None
  end.

End Flatten.

End CsvExport.

Import CsvExport.

(** ** [update_manifest.py] *)

Module Manifest.

Record Manifest : Type := {
  files : list string;
  latest : option string;
  count : nat
}.

(** [sorted(names, reverse=True)] *)
Definition sorted_reverse (names : list string) : list string :=
  merge_sort (λ a b, String.le b a) names.

(** [update_manifest]: [json_names] are the names that [glob('*.json')]
    finds in the data directory; the result is the manifest written, or
    [None] when there is nothing to list and nothing is written. *)
Definition update_manifest (json_names : list string) : option Manifest :=
  let json_files :=
    sorted_reverse
      (List.filter (λ name, negb (String.eqb name "manifest.json")) json_names) in
  match json_files with
  | [] => None
  | first :: _ =>
      Some {| files := json_files;
              latest := Some first;
              count := length json_files |}
  end.

End Manifest.

Import Manifest.

(** A value that is neither a list nor a dictionary. *)
Definition scalar (v : Json) : bool :=
  match v with
  | JList _ | JDict _ => false
  | _ => true
  end.

(** The key under which [flatten_record] files the entry [k] of a record
    flattened below [parent_key]. *)
Definition dotted (parent_key k : string) : string :=
  if nonempty parent_key then parent_key +:+ "." +:+ k else k.

(** The items that the loop of [flatten_record] collects for the entries of
    a record, before they are put into the dictionary returned. *)
Fixpoint flatten_items (py_str : Json → string) (parent_key : string)
    (entries : list (string * Json)) : list (string * Json) :=
  match entries with
  | [] => []
  | (k, v) :: rest =>
      match v with
      | JDict _ => flatten_json py_str (dotted parent_key k) v
      | JList members =>
          [(dotted parent_key k,
            JStr (match members with
                  | [] => ""
                  | _ => join ", " (map py_str members)
                  end))]
      | _ => [(dotted parent_key k, v)]
      end ++ flatten_items py_str parent_key rest
  end.

(** ** Date extraction ([extract_date_from_header], lines 21-44, with
    [DATE_PATTERNS] of [config.py]) *)

Module HeaderDate.

(** A piece of a pattern, tried at the head of a text: the text it matches
    and the text after it. *)
Definition Matcher : Type := string → option (string * string).

(** One piece after the other. *)
Definition then_ (m1 m2 : Matcher) : Matcher :=
  λ s, '(a, r) ← m1 s; '(b, r') ← m2 r; Some (a +:+ b, r').

(** The longest run of characters of a class at the head of a text. *)
Fixpoint span (p : ascii → bool) (s : string) : string * string :=
  match s with
  | EmptyString => (EmptyString, EmptyString)
  | String c r =>
      if p c then (String c (span p r).1, (span p r).2) else (EmptyString, s)
  end.

(** [\w+] and [\s+].  In [DATE_PATTERNS] what follows [\w+] is a comma or
    [\s], what follows [\s+] or [\s*] is [\w] or [\d]: a character outside
    the class, so that only the longest run can match. *)
Definition many1 (p : ascii → bool) : Matcher :=
  λ s, match span p s with
       | (String c a, r) => Some (String c a, r)
       | (EmptyString, _) => None
       end.

(** [\s*] *)
Definition many0 (p : ascii → bool) : Matcher := λ s, Some (span p s).

(** One literal character. *)
Definition char (c : ascii) : Matcher :=
  λ s, match s with
       | String c' r =>
           if Ascii.eqb c' c then Some (String c' EmptyString, r) else None
       | EmptyString => None
       end.

(** [\d{1,2}] followed by the literal [sep], which is not a digit: two
    digits and [sep], or else one digit and [sep]. *)
Definition digits12_then (sep : ascii) : Matcher :=
  λ s, match s with
       | String d1 (String d2 r) =>
           if is_digit d1 && is_digit d2
           then match r with
                | String c r' =>
                    if Ascii.eqb c sep
                    then Some (String d1 (String d2 (String c EmptyString)), r')
                    else None
                | EmptyString => None
                end
           else if is_digit d1 && Ascii.eqb d2 sep
           then Some (String d1 (String d2 EmptyString), r)
           else None
       | _ => None
       end.

(** [\d{4}] *)
Definition digits4 : Matcher :=
  λ s, match s with
       | String a (String b (String c (String d r))) =>
           if is_digit a && is_digit b && is_digit c && is_digit d
           then Some (String a (String b (String c (String d EmptyString))), r)
           else None
       | _ => None
       end.

(** [\w+\s+\d{1,2},\s+\d{4}], as in [February 8, 2026] *)
Definition month_date : Matcher :=
  then_ (many1 is_word)
    (then_ (many1 is_space)
       (then_ (digits12_then ",") (then_ (many1 is_space) digits4))).

(** [\w+,\s+\w+\s+\d{1,2},\s+\d{4}], as in [Sunday, February 8, 2026] *)
Definition weekday_date : Matcher :=
  then_ (many1 is_word) (then_ (char ",") (then_ (many1 is_space) month_date)).

(** [\d{1,2}/\d{1,2}/\d{4}], as in [02/08/2026] *)
Definition slash_date : Matcher :=
  then_ (digits12_then "/") (then_ (digits12_then "/") digits4).

(** The four patterns tried at the head of a text; the result is group 1,
    which is the whole match for the first three and the date after the
    label for [Date:\s*(...)]. *)
Definition weekday_date_at (s : string) : option string := fst <$> weekday_date s.

Definition month_date_at (s : string) : option string := fst <$> month_date s.

Definition slash_date_at (s : string) : option string := fst <$> slash_date s.

Definition labelled_date_at (s : string) : option string :=
  r ← match_ci "Date:" s;
  '(_, r') ← many0 is_space r;
  fst <$> slash_date r'.

(** [re.search(pattern, text, re.IGNORECASE)] and [match.group(1)]: the
    leftmost position at which the pattern matches. *)
Fixpoint search (at_head : string → option string) (s : string) : option string :=
  match at_head s with
  | Some group => Some group
  | None =>
      match s with
      | EmptyString => None
      | String _ r => search at_head r
      end
  end.

Definition DATE_PATTERNS : list (string → option string) :=
  [search weekday_date_at; search month_date_at; search slash_date_at;
   search labelled_date_at].

Section Extract.

(** [date_parser.parse(date_str).strftime("%Y-%m-%d")] of [dateutil], or
    [None] where it raises. *)
Variable parse_date : string → option string.

(** The loop over the patterns: a pattern that does not match, or whose
    match the parser refuses, passes the text on to the next. *)
Fixpoint try_patterns (patterns : list (string → option string)) (text : string)
    : option string :=
  match patterns with
  | [] => None
  | pattern :: rest =>
      match pattern text with
      | Some date_str =>
          match parse_date date_str with
          | Some date => Some date
          | None => try_patterns rest text
          end
      | None => try_patterns rest text
      end
  end.

Definition extract_date_from_header (text : string) : option string :=
  try_patterns DATE_PATTERNS text.

End Extract.

End HeaderDate.

Import HeaderDate.

(** A piece of a pattern that cuts the text it is given in two. *)
Definition splits (m : Matcher) : Prop :=
  ∀ s a r, m s = Some (a, r) → s = a +:+ r.

(** A text that ends in four digits. *)
Definition ends_in_year (s : string) : Prop :=
  ∃ front year, s = front +:+ year ∧ String.length year = 4%nat
                ∧ all_chars is_digit year = true.

(** The group of a pattern lies inside the text the pattern was tried on,
    and ends in four digits. *)
Definition group_inside (at_head : string → option string) : Prop :=
  ∀ s group, at_head s = Some group →
    (∃ front back, s = front +:+ group +:+ back) ∧ ends_in_year group.

(** ** [download_crime_report.py]: [get_date_filename] (lines 122-141) *)

Module DateFilename.

Definition in_range (lo hi c : ascii) : bool :=
  ((code lo <=? code c) && (code c <=? code hi))%N.

(** [datetime.strptime(s, "%Y-%m-%d")].  The format compiles to the regular
    expression [(\d\d\d\d)-(1[0-2]|0[1-9]|[1-9])-(3[01]|[12]\d|0[1-9]|[1-9]| [1-9])],
    which must match at the head of the text and leave nothing of it over;
    the alternatives are tried in order. *)

(** [%Y] *)
Definition year_field (s : string) : option (Z * string) :=
  match s with
  | String a (String b (String c (String d r))) =>
      if is_digit a && is_digit b && is_digit c && is_digit d
      then Some (digits_val 0 (String a (String b (String c (String d EmptyString)))), r)
      else None
  | _ => None
  end.

Definition dash (s : string) : option string :=
  match s with
  | String c r => if Ascii.eqb c "-" then Some r else None
  | EmptyString => None
  end.

(** [%m]: a hyphen has to follow, so an alternative that has matched two
    digits cannot be given up for a later one that matches one. *)
Definition month_field (s : string) : option (Z * string) :=
  match s with
  | String a (String b r) =>
      if Ascii.eqb a "1" && in_range "0" "2" b then Some (10 + digit_val b, r)
      else if Ascii.eqb a "0" && in_range "1" "9" b then Some (digit_val b, r)
      else if in_range "1" "9" a then Some (digit_val a, String b r)
      else None
  | String a EmptyString =>
      if in_range "1" "9" a then Some (digit_val a, EmptyString) else None
  | EmptyString => None
  end.

(** [%d], the last field: the first alternative that matches is taken. *)
Definition day_field (s : string) : option (Z * string) :=
  match s with
  | String a (String b r) =>
      if Ascii.eqb a "3" && in_range "0" "1" b then Some (30 + digit_val b, r)
      else if in_range "1" "2" a && is_digit b
      then Some (10 * digit_val a + digit_val b, r)
      else if Ascii.eqb a "0" && in_range "1" "9" b then Some (digit_val b, r)
      else if in_range "1" "9" a then Some (digit_val a, String b r)
      else if Ascii.eqb a " " && in_range "1" "9" b then Some (digit_val b, r)
      else None
  | String a EmptyString =>
      if in_range "1" "9" a then Some (digit_val a, EmptyString) else None
  | EmptyString => None
  end.

(** [None] stands for the [ValueError]: no match, unconverted data left
    over, or a date that does not exist. *)
Definition strptime (s : string) : option (Z * Z * Z) :=
  '(y, r) ← year_field s;
  r ← dash r;
  '(m, r) ← month_field r;
  r ← dash r;
  '(d, r) ← day_field r;
  if nonempty r then None else datetime y m d.

(** [dt.strftime("%Y%m%d")], with [%Y] on four digits as in [strftime]:
    years from 1000 on. *)
Definition strftime_compact (dt : Z * Z * Z) : string :=
  let '(y, m, d) := dt in pad4 y +:+ pad2 m +:+ pad2 d.

(** [get_date_filename(report_date)], with [now] for [datetime.now()]. *)
Definition get_date_filename (now : Z * Z * Z) (report_date : option string)
    : string :=
  match report_date with
  | Some text =>
      if nonempty text
      then match strptime text with
           | Some dt => strftime_compact dt
           | None => strftime_compact now
           end
      else strftime_compact now
  | None => strftime_compact now
  end.

End DateFilename.

Import DateFilename.

(** A character of ASCII.  On texts written in ASCII the character classes,
    [strip] and [lower] of this development are those of Python. *)
Definition is_ascii (c : ascii) : bool := (code c <? 128)%N.

(** * Properties *)

(** ** Strings *)

Lemma append_cons (c : ascii) (s t : string) :
  String c s +:+ t = String c (s +:+ t).
Proof. reflexivity. Qed.

Lemma append_nil_l (s : string) : "" +:+ s = s.
Proof. reflexivity. Qed.

Lemma append_nil_r (s : string) : s +:+ "" = s.
Proof. induction s as [|c s IH]; [done|]. by rw append_cons IH. Qed.

Lemma append_assoc (a b c : string) : (a +:+ b) +:+ c = a +:+ b +:+ c.
Proof. induction a as [|x a IH]; [done|]. by rw !append_cons IH. Qed.

Lemma startswith_spec (p s : string) :
  startswith p s = true ↔ ∃ post, s = p +:+ post.
Proof.
  revert s. induction p as [|a p IH]; intros s; simpl.
  - split; [|done]. intros _. by exists s.
  - destruct s as [|c s].
    + split; [done|]. by intros [post ?].
    + rw andb_true_iff Ascii.eqb_eq IH. split.
      * intros [-> [post ->]]. by exists post.
      * intros [post Hpost]. rw append_cons in Hpost.
        injection Hpost as -> ->. eauto.
Qed.

Lemma contains_spec (k t : string) : contains k t = true ↔ occurs_in k t.
Proof.
  induction t as [|c t IH]; simpl.
  - rw orb_false_r startswith_spec. split.
    + intros [post ->]. by exists "", post.
    + intros [pre [post Heq]]. destruct pre; [by exists post|done].
  - rw orb_true_iff IH startswith_spec. split.
    + intros [[post ->]|[pre [post ->]]]; [by exists "", post|].
      by exists (String c pre), post.
    + intros [[|a pre] [post Heq]]; [left; by exists post|right].
      rw append_cons in Heq. injection Heq as _ ->. by exists pre, post.
Qed.

(** ** Summary Aggregator *)

Lemma is_violent_spec (t : string) : is_violent t = true ↔ mentions_keyword t.
Proof.
  rw /is_violent existsb_exists /mentions_keyword.
  split; intros [k [Hin Hk]]; exists k.
  - split; [by apply list_elem_of_In | by apply contains_spec].
  - split; [by apply list_elem_of_In | by apply contains_spec].
Qed.

Lemma offense_lower_textual (record : Record) :
  textual_offense record →
  offense_lower record = Return (lower (offense_text record)).
Proof.
  rw /textual_offense /offense_lower /offense_text.
  by destruct (record !! "offense_type") as [[]|].
Qed.

Lemma categorize_textual (records : list Record) (violent property : list string) :
  Forall textual_offense records →
  categorize records violent property =
    Return (violent ++ List.filter is_violent (map (lower ∘ offense_text) records),
            property ++
              List.filter (negb ∘ is_violent) (map (lower ∘ offense_text) records)).
Proof.
  intros Hall. revert violent property.
  induction Hall as [|record records Hrec _ IH]; intros violent property.
  - by rw /= !app_nil_r.
  - rw /= offense_lower_textual //.
    destruct (is_violent (lower (offense_text record))); rw IH /=.
    + by rw -app_assoc.
    + by rw -app_assoc.
Qed.

Lemma summary_buckets_by_keyword_aux (records : list Record) :
  Forall textual_offense records →
  ∃ s, calculate_summary records = Return s
    ∧ violent_crimes s =
        List.filter is_violent (map (lower ∘ offense_text) records)
    ∧ property_crimes s =
        List.filter (negb ∘ is_violent) (map (lower ∘ offense_text) records).
Proof.
  intros Hall. rw /calculate_summary categorize_textual //=. by eexists.
Qed.

(** C8: the Summary Aggregator puts a record in the violent bucket exactly
    when its lowercased offense type contains one of the seven keywords as
    a substring, and in the property bucket otherwise; the two counts are
    the lengths of the buckets and the total is the number of records. *)
Theorem summary_buckets_by_keyword (records : list Record) :
  Forall textual_offense records →
  ∃ s, calculate_summary records = Return s
    ∧ violent_crimes s =
        List.filter is_violent (map (lower ∘ offense_text) records)
    ∧ property_crimes s =
        List.filter (negb ∘ is_violent) (map (lower ∘ offense_text) records)
    ∧ (∀ t, is_violent t = true ↔ mentions_keyword t)
    ∧ violent_crime_count s = length (violent_crimes s)
    ∧ property_crime_count s = length (property_crimes s)
    ∧ total_offense_types s = length records.
Proof.
  intros Hall. rw /calculate_summary categorize_textual //=.
  eexists. split; [done|]. simpl. split_and!; try done.
  apply is_violent_spec.
Qed.

Lemma summary_buckets_by_keyword_witness :
  ∃ s, calculate_summary
         [{[ "offense_type" := VStr "Armed Robbery" ]};
          {[ "offense_type" := VStr "Theft from Auto" ]}] = Return s
    ∧ violent_crimes s = ["armed robbery"]
    ∧ property_crimes s = ["theft from auto"].
Proof.
  destruct (summary_buckets_by_keyword
              [{[ "offense_type" := VStr "Armed Robbery" ]};
               {[ "offense_type" := VStr "Theft from Auto" ]}])
    as (s & Hs & Hv & Hp & _).
  - repeat constructor.
  - exists s. split; [exact Hs|]. split; [exact Hv | exact Hp].
Defined.

Lemma filter_split_perm {A} (f : A → bool) (l : list A) :
  List.filter f l ++ List.filter (negb ∘ f) l ≡ₚ l.
Proof.
  induction l as [|x l IH]; [done|].
  rw /=. destruct (f x); rw /=.
  - by f_equiv.
  - rw -Permutation_middle. by f_equiv.
Qed.

(** C10: the two bucket lists hold the lowercased offense types, not the
    strings stored in the records, and a record without an [offense_type]
    key counts as the empty string, which goes to the property bucket. *)
Theorem buckets_hold_lowercased_text (records : list Record) :
  Forall textual_offense records →
  ∃ s, calculate_summary records = Return s
    ∧ violent_crimes s ++ property_crimes s
        ≡ₚ map (λ record, lower (offense_text record)) records
    ∧ (∀ record, record ∈ records → record !! "offense_type" = None →
         offense_text record = ""
         ∧ "" ∈ property_crimes s ∧ "" ∉ violent_crimes s).
Proof.
  intros Hall.
  destruct (summary_buckets_by_keyword_aux records Hall) as (s & Hs & Hv & Hp).
  exists s. split; [done|]. rw Hv Hp. split; [apply filter_split_perm|].
  intros record Hin Hnone.
  have Htext : offense_text record = "" by rw /offense_text Hnone.
  split; [done|]. split.
  - apply list_elem_of_In, filter_In. split; [|done].
    apply in_map_iff. exists record. rw /= Htext. by rw -list_elem_of_In.
  - rw list_elem_of_In filter_In. by intros [_ ?].
Qed.

Lemma buckets_hold_lowercased_text_witness :
  ∃ s, calculate_summary [{[ "offense_type" := VStr "Robbery" ]}; ∅] = Return s
    ∧ violent_crimes s ++ property_crimes s ≡ₚ ["robbery"; ""]
    ∧ "" ∈ property_crimes s.
Proof.
  destruct (buckets_hold_lowercased_text
              [{[ "offense_type" := VStr "Robbery" ]}; ∅])
    as (s & Hs & Hperm & Hmissing).
  - repeat constructor.
  - exists s. split; [exact Hs|]. split; [exact Hperm|].
    apply (Hmissing ∅); [|reflexivity].
    apply list_elem_of_In. right. by left.
Defined.

(** ** Table Record Builder: rows *)

Lemma blank_cell_spec (cell : Cell) : blank_cell cell = true ↔ blank cell.
Proof. destruct cell as [s|]; [apply String.eqb_eq | done]. Qed.

Lemma row_record_not_data (columns : list string) (row : Row) :
  not_data row → row_record columns row = None.
Proof.
  destruct row as [|first row]; [done|].
  intros [Hfirst|Hall].
  - rw /row_record. destruct (empty_row (first :: row) && SKIP_EMPTY_ROWS); [done|].
    destruct first as [s|]; [|done]. rw /= in Hfirst |- *.
    by rw Hfirst /= orb_true_r.
  - have Hempty : empty_row (first :: row) = true; [|by rw /row_record Hempty].
    apply forallb_forall. intros cell Hin. apply blank_cell_spec.
    rw Forall_forall in Hall. by apply Hall, list_elem_of_In.
Qed.

Lemma data_rows_app (columns : list string) (rows1 rows2 : RawTable) :
  data_rows columns (rows1 ++ rows2) =
    data_rows columns rows1 ++ data_rows columns rows2.
Proof.
  induction rows1 as [|row rows1 IH]; [done|].
  rw /=. destruct (row_record columns row); by rw IH.
Qed.

Lemma parse_crime_table_rows (now_year : Z) (title header : Row)
    (rows : RawTable) (report_year : option Z) :
  parse_crime_table now_year (title :: header :: rows) report_year =
    data_rows (columns_of now_year report_year header) rows.
Proof. reflexivity. Qed.

(** C9: a table with fewer than two rows gives no record, and a data row
    that is empty, all blank, or whose first cell is absent or blank after
    trimming adds nothing to the records of its table. *)
Theorem short_tables_and_blank_rows_give_nothing
    (now_year : Z) (report_year : option Z) :
  (∀ table : RawTable,
     (length table < 2)%nat →
     parse_crime_table now_year table report_year = [])
  ∧ (∀ (title header row : Row) (before after : RawTable),
       not_data row →
       parse_crime_table now_year
           (title :: header :: before ++ row :: after) report_year =
         parse_crime_table now_year
           (title :: header :: before ++ after) report_year).
Proof.
  split.
  - intros table Hlen. rw /parse_crime_table.
    destruct table as [|title [|header rows]]; [done|done|].
    rw /= in Hlen. lia.
  - intros title header row before after Hrow.
    rw !parse_crime_table_rows !data_rows_app /=.
    by rw row_record_not_data.
Qed.

Lemma short_tables_and_blank_rows_give_nothing_witness :
  parse_crime_table 2026 [[Some "Daily Crime Report"]] (Some 2026) = []
  ∧ parse_crime_table 2026
        [[Some "Title"]; [Some "Offense"; Some "7-Day Totals"];
         [Some "Theft"; Some "3"]; [Some "  "; Some "9"];
         [Some "Robbery"; Some "4"]] (Some 2026) =
      parse_crime_table 2026
        [[Some "Title"]; [Some "Offense"; Some "7-Day Totals"];
         [Some "Theft"; Some "3"]; [Some "Robbery"; Some "4"]] (Some 2026).
Proof.
  destruct (short_tables_and_blank_rows_give_nothing 2026 (Some 2026))
    as [Hshort Hrow].
  split.
  - apply Hshort. simpl. lia.
  - apply (Hrow [Some "Title"] [Some "Offense"; Some "7-Day Totals"]
             [Some "  "; Some "9"] [[Some "Theft"; Some "3"]]
             [[Some "Robbery"; Some "4"]]).
    left. reflexivity.
Defined.

(** ** Table Record Builder: cells *)

Lemma nonempty_spec (s : string) : nonempty s = true ↔ s ≠ "".
Proof.
  rw /nonempty negb_true_iff. split.
  - by intros ?%String.eqb_neq.
  - by intros ?%String.eqb_neq.
Qed.

(** A field keeps its value when every later cell of a column with the same
    name is coerced to that value. *)
Lemma fill_record_keeps (columns : list string) (c : string) (v : Value)
    (cells : Row) (k : nat) (record : Record) :
  record !! c = Some v →
  (∀ j cell, cells !! j = Some cell → columns !! (k + j)%nat = Some c →
     coerce_cell c cell = v) →
  fill_record columns k cells record !! c = Some v.
Proof.
  revert k record. induction cells as [|cell cells IH]; intros k record Hc Hlater.
  - done.
  - rw /=. apply IH.
    + destruct (columns !! k) as [name|] eqn:Hname; [|done].
      destruct (nonempty name); [|done].
      destruct (decide (name = c)) as [->|Hne].
      * rw lookup_insert_eq. f_equal. apply (Hlater 0%nat); [done|].
        by rw Nat.add_0_r.
      * by rw lookup_insert_ne.
    + intros j cell' Hj Hcol. apply (Hlater (S j)); [done|].
      by rw Nat.add_succ_r.
Qed.

(** The field of a cell at a named column: it holds the coerced value of
    the last cell of a column with that name. *)
Lemma fill_record_lookup (columns : list string) (c : string) (cells : Row) :
  ∀ (j k : nat) (cell : Cell) (record : Record),
  cells !! j = Some cell → columns !! (k + j)%nat = Some c → c ≠ "" →
  (∀ j' cell', (j < j')%nat → cells !! j' = Some cell' →
     columns !! (k + j')%nat = Some c → coerce_cell c cell' = coerce_cell c cell) →
  fill_record columns k cells record !! c = Some (coerce_cell c cell).
Proof.
  induction cells as [|cell0 cells IH]; intros j k cell record Hj Hcol Hc Hlater.
  - done.
  - destruct j as [|j].
    + injection Hj as ->. rw Nat.add_0_r in Hcol. rw /= Hcol.
      move/nonempty_spec: (Hc) => ->. apply fill_record_keeps.
      * by rw lookup_insert_eq.
      * intros j' cell' Hj' Hcol'. apply (Hlater (S j')); [lia|done|].
        by rw Nat.add_succ_r.
    + rw /=. apply (IH j); [done|by rw Nat.add_succ_r in Hcol|done|].
      intros j' cell' Hlt Hj' Hcol'. apply (Hlater (S j')); [lia|done|].
      by rw Nat.add_succ_r.
Qed.

(** Filling never removes a key. *)
Lemma fill_record_dom (columns : list string) (cells : Row) :
  ∀ (k : nat) (record : Record) (c : string),
  is_Some (record !! c) → is_Some (fill_record columns k cells record !! c).
Proof.
  induction cells as [|cell cells IH]; intros k record c Hc; [done|].
  rw /=. apply IH.
  destruct (columns !! k) as [name|]; [|done].
  destruct (nonempty name); [|done].
  rw lookup_insert_is_Some. destruct (decide (name = c)); auto.
Qed.

Lemma fill_record_has_key (columns : list string) (c : string) (cells : Row) :
  ∀ (j k : nat) (cell : Cell) (record : Record),
  cells !! j = Some cell → columns !! (k + j)%nat = Some c → c ≠ "" →
  is_Some (fill_record columns k cells record !! c).
Proof.
  induction cells as [|cell0 cells IH]; intros j k cell record Hj Hcol Hc; [done|].
  destruct j as [|j].
  - rw Nat.add_0_r in Hcol. rw /= Hcol.
    move/nonempty_spec: (Hc) => ->. apply fill_record_dom.
    by rw lookup_insert_eq.
  - rw /=. apply (IH j _ cell); [done|by rw Nat.add_succ_r in Hcol|done].
Qed.

Lemma row_record_fill (columns : list string) (row : Row) (record : Record) :
  row_record columns row = Some record →
  ∃ first text,
    row = Some first :: tail row
    ∧ record = fill_record columns 1 (tail row) {[ "offense_type" := VStr text ]}.
Proof.
  rw /row_record. destruct (empty_row row && SKIP_EMPTY_ROWS); [done|].
  destruct row as [|[first|] cells]; [done| |done]. rw /=.
  destruct (negb (nonempty first) || String.eqb (strip first) ""); [done|].
  intros [= <-]. by exists first, (strip first).
Qed.

Lemma data_rows_elem (columns : list string) (rows : RawTable)
    (row : Row) (record : Record) :
  row ∈ rows → row_record columns row = Some record →
  record ∈ data_rows columns rows.
Proof.
  induction rows as [|row0 rows IH]; [by intros ?%not_elem_of_nil|].
  intros [->|Hin]%elem_of_cons Hrec; rw /=.
  - rw Hrec. by left.
  - destruct (row_record columns row0); [right|]; by apply IH.
Qed.

(** C1, as the code has it: an absent cell at a position whose column has a
    name is not left out of the record; the record has that column's key,
    and the key holds [None] unless a later column of the same name has a
    present cell in the row.  Only positions without a column name (or
    beyond the header) add no key. *)
Theorem absent_cell_is_null_field
    (now_year : Z) (report_year : option Z) (title header row : Row)
    (before after : RawTable) (record : Record) :
  row_record (columns_of now_year report_year header) row = Some record →
  record ∈ parse_crime_table now_year
             (title :: header :: before ++ row :: after) report_year
  ∧ ∀ (i : nat) (c : string),
      (0 < i)%nat → row !! i = Some None →
      columns_of now_year report_year header !! i = Some c → c ≠ "" →
      is_Some (record !! c)
      ∧ ((∀ (i' : nat) (text : string), (i < i')%nat →
            columns_of now_year report_year header !! i' = Some c →
            row !! i' ≠ Some (Some text)) →
         record !! c = Some VNone).
Proof.
  intros Hrec. split.
  - rw parse_crime_table_rows. apply (data_rows_elem _ _ row); [|done].
    apply elem_of_app. right. by left.
  - destruct (row_record_fill _ _ _ Hrec) as (first & text & Hrow & ->).
    intros [|j] c Hpos Hcell Hcol Hc; [lia|].
    rw Hrow /= in Hcell. split.
    + by apply (fill_record_has_key _ c _ j 1%nat None).
    + intros Hlast.
      apply (fill_record_lookup _ c _ j 1%nat None); [done..|].
      intros j' [text'|] Hlt Hj' Hcol'; [|done].
      exfalso. apply (Hlast (S j') text'); [lia|done|]. by rw Hrow.
Qed.

Lemma absent_cell_is_null_field_witness :
  ∃ record,
    row_record
      (columns_of 2026 (Some 2026)
         [Some "Offense"; Some "Monday 2/2"; Some "7-Day Totals"])
      [Some "Robbery"; None; Some "10"] = Some record
    ∧ record !! "2026-02-02" = Some VNone.
Proof.
  eexists. split; [reflexivity|].
  destruct (absent_cell_is_null_field 2026 (Some 2026) [Some "Title"]
              [Some "Offense"; Some "Monday 2/2"; Some "7-Day Totals"]
              [Some "Robbery"; None; Some "10"] [] [] _ eq_refl)
    as [_ Hcells].
  destruct (Hcells 1%nat "2026-02-02") as [_ Hnone];
    [lia | reflexivity | reflexivity | discriminate |].
  apply Hnone.
  intros [|[|[|i']]] text Hlt; [lia | lia | discriminate | discriminate].
Defined.

(** C1 as stated fails: the second cell of the data row is absent, its
    column is named [2026-02-02], and the record holds that key with
    [None]. *)
Lemma absent_cell_omitted_counterexample :
  ∃ record,
    parse_crime_table 2026
      [[Some "Title"]; [Some "Offense"; Some "Monday 2/2"];
       [Some "Robbery"; None]] (Some 2026) = [record]
    ∧ record !! "2026-02-02" = Some VNone
    ∧ ¬ keys_from_present_cells
          (columns_of 2026 (Some 2026) [Some "Offense"; Some "Monday 2/2"])
          [Some "Robbery"; None] record.
Proof.
  eexists. split; [reflexivity|]. split; [reflexivity|].
  intros Hkeys. destruct (Hkeys "2026-02-02") as [Heq|(i & text & Hcol & Hcell)].
  - by eexists.
  - discriminate Heq.
  - destruct i as [|[|i]]; discriminate.
Qed.

(** ** Characters and trimming *)

Ltac ascii_cases c :=
  destruct c as [[] [] [] [] [] [] [] []]; vm_compute; try done.

Lemma digit_not_space (c : ascii) : is_digit c = true → is_space c = false.
Proof. ascii_cases c. Qed.

Lemma digit_not_underscore (c : ascii) : is_digit c = true → Ascii.eqb c "_" = false.
Proof. ascii_cases c. Qed.

Lemma digit_not_sign (c : ascii) :
  is_digit c = true → Ascii.eqb c "+" || Ascii.eqb c "-" = false.
Proof. ascii_cases c. Qed.

Lemma lstrip_no_space (s : string) :
  all_chars (negb ∘ is_space) s = true → lstrip s = s.
Proof.
  destruct s as [|c s]; [done|]. rw /=.
  by destruct (is_space c).
Qed.

Lemma rstrip_no_space (s : string) :
  all_chars (negb ∘ is_space) s = true → rstrip s = s.
Proof.
  induction s as [|c s IH]; [done|].
  rw /=. destruct (is_space c) eqn:Hc; [done|]. rw /=.
  intros Hs. rw (IH Hs). by destruct s.
Qed.

Lemma strip_no_space (s : string) :
  all_chars (negb ∘ is_space) s = true → strip s = s.
Proof.
  intros Hs. by rw /strip lstrip_no_space // rstrip_no_space.
Qed.

Lemma all_chars_impl (p q : ascii → bool) (s : string) :
  (∀ c, p c = true → q c = true) →
  all_chars p s = true → all_chars q s = true.
Proof.
  intros Hpq. induction s as [|c s IH]; [done|].
  rw /= !andb_true_iff. intros [Hc Hs]. auto.
Qed.

Lemma digits_no_space (s : string) :
  all_chars is_digit s = true → all_chars (negb ∘ is_space) s = true.
Proof.
  apply all_chars_impl. intros c Hc. by rw /= digit_not_space.
Qed.

Lemma digits_no_underscore (s : string) :
  all_chars is_digit s = true → remove_char "_" s = s.
Proof.
  induction s as [|c s IH]; [done|].
  rw /= andb_true_iff. intros [Hc Hs].
  by rw digit_not_underscore // IH.
Qed.

Lemma digits_underscores_ok (s : string) (prev : ascii) :
  Ascii.eqb prev "_" = false →
  all_chars is_digit s = true → underscores_ok prev s = true.
Proof.
  revert prev. induction s as [|c s IH]; intros prev Hprev.
  - by rw /= Hprev.
  - rw /= andb_true_iff. intros [Hc Hs].
    rw digit_not_underscore // Hprev /=. apply IH; [|done].
    by apply digit_not_underscore.
Qed.

(** ** Cell Value Coercer *)

(** The integer rule of the coercer (lines 174-176): a trimmed cell made of
    an optional sign and digits is stored as that integer. *)
Lemma integer_cell_parsed (col_name raw digits : string) (negative : bool)
    (sign : string) :
  String.eqb col_name "percent_change" = false →
  isdigit digits = true →
  (sign = "" ∧ negative = false) ∨ (sign = "+" ∧ negative = false)
    ∨ (sign = "-" ∧ negative = true) →
  strip raw = sign +:+ digits →
  coerce_cell col_name (Some raw) =
    VInt (if negative then - digits_val 0 digits else digits_val 0 digits).
Proof.
  intros Hcol Hdigits Hsign Hraw.
  destruct digits as [|d digits]; [done|].
  move: Hdigits. rw /isdigit /= andb_true_iff. intros [Hd Hds].
  have Hall : all_chars is_digit (String d digits) = true by rw /= Hd Hds.
  have Hsigns : lstrip_signs (String d digits) = String d digits
    by rw /= digit_not_sign.
  have Hstrip : strip (String d digits) = String d digits
    by apply strip_no_space, digits_no_space.
  have Hint : ∀ pre, py_int (String d digits) = pre → pre = Some (digits_val 0 (String d digits)).
  { intros pre <-. rw /py_int Hstrip.
    have -> : take_sign (String d digits) = (false, String d digits).
    { move: (digit_not_sign d Hd). rw /take_sign orb_false_iff.
      intros [Hp Hm]. destruct d as [[] [] [] [] [] [] [] []]; done. }
    by rw digits_no_underscore // digits_underscores_ok // /isdigit Hall. }
  rw /coerce_cell Hcol /= Hraw.
  destruct Hsign as [[-> ->]|[[-> ->]|[-> ->]]].
  - rw append_nil_l Hsigns /isdigit Hall. by rw (Hint _ eq_refl).
  - have -> : lstrip_signs ("+" +:+ String d digits) = String d digits by done.
    rw /isdigit Hall /py_int.
    have -> : strip ("+" +:+ String d digits) = "+" +:+ String d digits.
    { apply strip_no_space. by rw /= digits_no_space // digit_not_space. }
    have -> : take_sign ("+" +:+ String d digits) = (false, String d digits) by done.
    by rw digits_no_underscore // digits_underscores_ok // /isdigit Hall.
  - have -> : lstrip_signs ("-" +:+ String d digits) = String d digits by done.
    rw /isdigit Hall /py_int.
    have -> : strip ("-" +:+ String d digits) = "-" +:+ String d digits.
    { apply strip_no_space. by rw /= digits_no_space // digit_not_space. }
    have -> : take_sign ("-" +:+ String d digits) = (true, String d digits) by done.
    by rw digits_no_underscore // digits_underscores_ok // /isdigit Hall.
Qed.

(** What the coercer stores when no conversion applies: the cell as it came,
    with its surrounding white space. *)
Lemma text_cell_stored_raw (col_name raw : string) :
  String.eqb col_name "percent_change" = false →
  isdigit (lstrip_signs (strip raw)) = false →
  coerce_cell col_name (Some raw) = VStr raw.
Proof. intros Hcol Hdigits. by rw /coerce_cell Hcol /= Hdigits. Qed.

(** C4 at the cell [" n/a "] of a count column: the trimmed text is ["n/a"],
    the coercer computes it for its digit test, but the value stored in the
    record is the cell with its blanks. *)
Theorem text_cell_kept_untrimmed :
  strip " n/a " = "n/a"
  ∧ coerce_cell "seven_day_total" (Some " n/a ") = VStr " n/a "
  ∧ ∃ record,
      parse_crime_table 2026
        [[Some "Title"]; [Some "Offense"; Some "7-Day Totals"];
         [Some " Theft "; Some " n/a "]] (Some 2026) = [record]
      ∧ record !! "offense_type" = Some (VStr "Theft")
      ∧ record !! "seven_day_total" = Some (VStr " n/a ").
Proof.
  split; [reflexivity|]. split; [reflexivity|].
  eexists. split; [reflexivity|]. split; reflexivity.
Qed.

(** C5, as the code has it: for a percent-change cell that is not blank,
    every [+] and every [%] is removed from the trimmed text, wherever it
    stands, and the rest is trimmed and parsed as a float; a cell without
    surrounding white space whose parse fails is kept as it is. *)
Theorem percent_change_coercion (raw : string) :
  strip raw ≠ "" →
  (∀ x, py_float (strip (remove_char "%" (remove_char "+" (strip raw)))) = Some x →
     coerce_cell "percent_change" (Some raw) = VFloat x)
  ∧ (py_float (strip (remove_char "%" (remove_char "+" (strip raw)))) = None →
     strip raw = raw →
     coerce_cell "percent_change" (Some raw) = VStr (strip raw))
  ∧ coerce_cell "percent_change" (Some "+12%") = VFloat (FDec false 12 0)
  ∧ coerce_cell "percent_change" (Some "-5%") = VFloat (FDec true 5 0)
  ∧ coerce_cell "percent_change" (Some "N/A%") = VStr "N/A%".
Proof.
  intros Hraw%nonempty_spec.
  split_and!; try reflexivity.
  - intros x Hx. by rw /coerce_cell /= Hraw Hx.
  - intros Hx Heq. by rw /coerce_cell /= Hraw Hx Heq.
Qed.

Lemma percent_change_coercion_witness :
  coerce_cell "percent_change" (Some "  +7.5 % ") = VFloat (FDec false 75 (-1))
  ∧ coerce_cell "percent_change" (Some "n/a") = VStr "n/a".
Proof.
  destruct (percent_change_coercion "  +7.5 % ") as (Hfloat & _);
    [discriminate|].
  destruct (percent_change_coercion "n/a") as (_ & Htext & _);
    [discriminate|].
  split.
  - apply Hfloat. reflexivity.
  - apply Htext; reflexivity.
Defined.

(** C5 as stated fails: on ["1+2%"] stripping a leading [+] and a trailing
    [%] leaves ["1+2"], which is no float, yet the code stores [12.0]; and
    on [" N/A% "] the code keeps the cell with its blanks, not the trimmed
    text. *)
Lemma percent_change_counterexample :
  coerce_cell "percent_change" (Some "1+2%") = VFloat (FDec false 12 0)
  ∧ percent_as_claimed "1+2%" = VStr "1+2%"
  ∧ coerce_cell "percent_change" (Some " N/A% ") = VStr " N/A% "
  ∧ percent_as_claimed " N/A% " = VStr "N/A%"
  ∧ coerce_cell "percent_change" (Some "1+2%") ≠ percent_as_claimed "1+2%".
Proof. split_and!; try reflexivity. discriminate. Qed.

(** ** Column Name Normalizer: the two patterns *)

(** Both patterns need a white-space character: a text without one matches
    neither. *)
Lemma spaces1_no_space (s : string) :
  all_chars (negb ∘ is_space) s = true → spaces1 s = None.
Proof. destruct s as [|c s]; [done|]. rw /=. by destruct (is_space c). Qed.

Lemma match_ci_all_chars (p : ascii → bool) (lit s t : string) :
  match_ci lit s = Some t → all_chars p s = true → all_chars p t = true.
Proof.
  revert s. induction lit as [|a lit IH]; intros s; rw /=.
  - by intros [= ->].
  - destruct s as [|c s]; [done|].
    destruct (Ascii.eqb (lower_char a) (lower_char c)); [|done].
    rw /= andb_true_iff. intros Ht [_ Hs]. by apply (IH s).
Qed.

Lemma date_at_no_space (names : list string) (s : string) :
  all_chars (negb ∘ is_space) s = true → date_at names s = None.
Proof.
  intros Hs. induction names as [|w names IH]; [done|].
  rw /=. destruct (match_ci w s) as [t|] eqn:Ht; [|done].
  by rw /= /date_tail (spaces1_no_space t) ?(match_ci_all_chars _ _ _ _ Ht).
Qed.

Lemma date_search_no_space (s : string) :
  all_chars (negb ∘ is_space) s = true → date_search s = None.
Proof.
  induction s as [|c s IH]; intros Hs.
  - done.
  - rw /date_search -/date_search date_at_no_space //.
    apply IH. move: Hs. rw /= andb_true_iff. by intros [_ ?].
Qed.

Lemma ytd_at_no_space (s : string) :
  all_chars (negb ∘ is_space) s = true → ytd_at s = None.
Proof.
  intros Hs. rw /ytd_at.
  repeat (case_match; try done); subst.
  all: match goal with
       | H : spaces1 ?r = Some _ |- _ =>
           rw spaces1_no_space in H; [|done]
       end.
  all: move: Hs; rw /= ?andb_true_iff; naive_solver.
Qed.

Lemma ytd_search_no_space (s : string) :
  all_chars (negb ∘ is_space) s = true → ytd_search s = None.
Proof.
  induction s as [|c s IH]; intros Hs.
  - done.
  - rw /ytd_search -/ytd_search ytd_at_no_space //.
    apply IH. move: Hs. rw /= andb_true_iff. by intros [_ ?].
Qed.

(** ** Column Name Normalizer: names that are ISO dates *)

Local Arguments Ascii.eqb : simpl never.

Lemma digit_is_word (c : ascii) : is_digit c = true → is_word c = true.
Proof. ascii_cases c. Qed.

Lemma digit_not_hyphen (c : ascii) : is_digit c = true → Ascii.eqb c "-" = false.
Proof. ascii_cases c. Qed.

Lemma digit_lower (c : ascii) : is_digit c = true → lower_char c = c.
Proof. ascii_cases c. Qed.

Lemma digit_not_p (c : ascii) : is_digit c = true → Ascii.eqb "p" c = false.
Proof. ascii_cases c. Qed.

Lemma digit_char_digit (n : Z) : is_digit (digit_char n) = true.
Proof.
  rw /digit_char.
  have Hn : 0 <= n mod 10 < 10 by apply Z.mod_pos_bound.
  have [k [-> Hk]] : ∃ k : nat, n mod 10 = Z.of_nat k ∧ (k < 10)%nat
    by exists (Z.to_nat (n mod 10)); lia.
  do 10 (destruct k as [|k]; [done|]). lia.
Qed.

Ltac digit_facts :=
  repeat match goal with
    | H : is_digit ?d = true |- _ =>
        rw ?(digit_is_word d H) ?(digit_not_space d H)
          ?(digit_not_hyphen d H) ?(digit_lower d H) ?(digit_not_p d H);
        revert H
    end;
  intros.

(** A name made of four digits, a hyphen, two digits, a hyphen and two
    digits leaves the normalizer with both hyphens turned into
    underscores. *)
Lemma normalize_iso_shape (now_year : Z) (reference_year : option Z)
    (a b c d e f g h : ascii) :
  is_digit a = true → is_digit b = true → is_digit c = true →
  is_digit d = true → is_digit e = true → is_digit f = true →
  is_digit g = true → is_digit h = true →
  normalize_column_name now_year
    (String a (String b (String c (String d (String "-"
      (String e (String f (String "-" (String g (String h ""))))))))))
    reference_year =
  (String a (String b (String c (String d (String "_"
      (String e (String f (String "_" (String g (String h ""))))))))), []).
Proof.
  intros Ha Hb Hc Hd He Hf Hg Hh.
  set (s := String a _).
  have Hs : all_chars (negb ∘ is_space) s = true by rw /s /=; digit_facts.
  have Hlow : lower s = s by rw /s /=; digit_facts.
  rw /normalize_column_name date_search_no_space // /normalize_rest Hlow.
  rw strip_no_space // ytd_search_no_space //.
  have -> : startswith "prev. 7" s = false by rw /s /=; digit_facts.
  have -> : column_mapping !! s = None.
  { rw /column_mapping !lookup_insert_ne //.
    all: rw /s; intros [= <- <-]; done. }
  rw /generic_fallback /s /=. digit_facts. by rw /=; digit_facts.
Qed.

Lemma strftime_shape (y m d : Z) :
  ∃ a b c e f g h i,
    strftime (y, m, d) =
      String a (String b (String c (String e (String "-"
        (String f (String g (String "-" (String h (String i "")))))))))
    ∧ pad4 y +:+ "_" +:+ pad2 m +:+ "_" +:+ pad2 d =
      String a (String b (String c (String e (String "_"
        (String f (String g (String "_" (String h (String i "")))))))))
    ∧ is_digit a = true ∧ is_digit b = true ∧ is_digit c = true
    ∧ is_digit e = true ∧ is_digit f = true ∧ is_digit g = true
    ∧ is_digit h = true ∧ is_digit i = true.
Proof.
  do 8 eexists. split; [reflexivity|]. split; [reflexivity|].
  split_and!; apply digit_char_digit.
Qed.

(** C2 at the ISO-date names: a name that the weekday rule produces is
    changed when it is normalized again, with any reference year; its
    hyphens become underscores. *)
Theorem iso_date_name_not_preserved
    (now_year : Z) (label : string) (reference_year : option Z)
    (now_year' : Z) (reference_year' : option Z) (m d : Z) :
  date_search label = Some (m, d) →
  valid_date (year_or_now now_year reference_year) m d = true →
  let y := year_or_now now_year reference_year in
  let name := fst (normalize_column_name now_year label reference_year) in
  name = pad4 y +:+ "-" +:+ pad2 m +:+ "-" +:+ pad2 d
  ∧ fst (normalize_column_name now_year' name reference_year') =
      pad4 y +:+ "_" +:+ pad2 m +:+ "_" +:+ pad2 d
  ∧ fst (normalize_column_name now_year' name reference_year') ≠ name.
Proof.
  intros Hsearch Hvalid y name.
  have Hname : name = strftime (y, m, d).
  { by rw /name /normalize_column_name Hsearch /datetime Hvalid. }
  destruct (strftime_shape y m d)
    as (a & b & c & e & f & g & h & i & Hiso & Hus & Ha & Hb & Hc & He & Hf & Hg & Hh & Hi).
  split; [done|].
  have Hagain : fst (normalize_column_name now_year' name reference_year') =
                pad4 y +:+ "_" +:+ pad2 m +:+ "_" +:+ pad2 d.
  { by rw Hname Hiso normalize_iso_shape // Hus. }
  split; [done|].
  rw Hagain Hname Hiso Hus. by intros [=].
Qed.

Lemma iso_date_name_not_preserved_witness :
  fst (normalize_column_name 2026 "Monday 2/2" (Some 2026)) = "2026-02-02"
  ∧ fst (normalize_column_name 2026 "2026-02-02" (Some 2026)) = "2026_02_02".
Proof.
  destruct (iso_date_name_not_preserved 2026 "Monday 2/2" (Some 2026)
              2026 (Some 2026) 2 2 eq_refl eq_refl) as (Hname & Hagain & _).
  split; [exact Hname | exact Hagain].
Defined.

(** ** Column Name Normalizer: year-to-date columns *)

Lemma lstrip_spaces_app (ws s : string) :
  all_chars is_space ws = true → starts_with_space s = false →
  lstrip (ws +:+ s) = s.
Proof.
  intros Hws Hs. induction ws as [|c ws IH].
  - rw append_nil_l. destruct s as [|c s]; [done|].
    rw /= in Hs |- *. by rw Hs.
  - move: Hws. rw append_cons /= andb_true_iff. intros [Hc Hws].
    rw Hc. by apply IH.
Qed.

Lemma spaces1_app (ws s : string) :
  ws ≠ "" → all_chars is_space ws = true → starts_with_space s = false →
  spaces1 (ws +:+ s) = Some s.
Proof.
  destruct ws as [|c ws]; [done|]. intros _.
  rw append_cons /= andb_true_iff. intros [Hc Hws] Hs.
  by rw Hc lstrip_spaces_app.
Qed.

(** The year-to-date rule on a text that starts with [ytd], white space,
    two digits and one more white-space character. *)
Lemma ytd_search_head (ws rest : string) (d1 d2 w : ascii) :
  ws ≠ "" → all_chars is_space ws = true →
  is_digit d1 = true → is_digit d2 = true → is_space w = true →
  ytd_search ("ytd" +:+ ws +:+ String d1 (String d2 (String w rest))) =
    Some (String d1 (String d2 "")).
Proof.
  intros Hne Hws Hd1 Hd2 Hw.
  have Hat : ytd_at ("ytd" +:+ ws +:+ String d1 (String d2 (String w rest))) =
             Some (String d1 (String d2 "")).
  { rw !append_cons append_nil_l /ytd_at spaces1_app //.
    - by rw /= digit_not_space.
    - by rw Hd1 Hd2 Hw. }
  rw !append_cons append_nil_l in Hat |- *.
  by rw /ytd_search -/ytd_search Hat.
Qed.

(** C3, as the code has it: the pattern asks for white space after the two
    digits of the year.  A label whose lowercased, trimmed text starts with
    [ytd], white space, two digits and a further white-space character (a
    date range follows the year) gets the name [ytd_20xx], unless the
    weekday-date rule applies first. *)
Theorem ytd_needs_text_after_year
    (now_year : Z) (label : string) (reference_year : option Z)
    (ws rest : string) (d1 d2 w : ascii) :
  strip (lower label) = "ytd" +:+ ws +:+ String d1 (String d2 (String w rest)) →
  ws ≠ "" → all_chars is_space ws = true →
  is_digit d1 = true → is_digit d2 = true → is_space w = true →
  normalize_rest label = "ytd_20" +:+ String d1 (String d2 "")
  ∧ (date_search label = None →
     normalize_column_name now_year label reference_year =
       ("ytd_20" +:+ String d1 (String d2 ""), [])).
Proof.
  intros Hlabel Hne Hws Hd1 Hd2 Hw.
  have Hrest : normalize_rest label = "ytd_20" +:+ String d1 (String d2 "").
  { by rw /normalize_rest Hlabel ytd_search_head. }
  split; [done|]. intros Hdate.
  by rw /normalize_column_name Hdate Hrest.
Qed.

Lemma ytd_needs_text_after_year_witness :
  normalize_column_name 2026 " YTD 25 (1/1 - 2/2)" (Some 2026) = ("ytd_2025", []).
Proof.
  refine (proj2 (ytd_needs_text_after_year 2026 " YTD 25 (1/1 - 2/2)" (Some 2026)
                   " " "(1/1 - 2/2)" "2" "5" " "
                   eq_refl _ eq_refl eq_refl eq_refl eq_refl) eq_refl).
  discriminate.
Defined.

(** C3 as stated fails on the trimmed label ["YTD 25"]: nothing follows the
    year, the pattern does not match, and the generic rule gives
    [ytd_25]. *)
Lemma ytd_bare_label_counterexample :
  strip "YTD 25" = "YTD 25"
  ∧ normalize_column_name 2026 "YTD 25" (Some 2026) = ("ytd_25", [])
  ∧ fst (normalize_column_name 2026 "YTD 25" (Some 2026)) ≠ "ytd_2025".
Proof. split_and!; [reflexivity | reflexivity | discriminate]. Qed.

(** ** Column Name Normalizer: weekday-date columns *)

Lemma lower_app (a b : string) : lower (a +:+ b) = lower a +:+ lower b.
Proof. induction a as [|c a IH]; [done|]. by rw !append_cons /= IH. Qed.

Lemma match_ci_app (lit day t : string) :
  lower day = lower lit → match_ci lit (day +:+ t) = Some t.
Proof.
  revert day. induction lit as [|a lit IH]; intros day.
  - by destruct day.
  - destruct day as [|c day]; [done|].
    rw append_cons /=. intros [= -> Hday]. by rw Ascii.eqb_refl IH.
Qed.

Lemma match_ci_none (lit s : string) :
  startswith (lower lit) (lower s) = false → match_ci lit s = None.
Proof.
  revert s. induction lit as [|a lit IH]; intros s; [done|].
  destruct s as [|c s]; [done|].
  rw /=. destruct (Ascii.eqb (lower_char a) (lower_char c)); [|done].
  apply IH.
Qed.

Lemma date_at_cons (w : string) (names : list string) (s : string) :
  date_at (w :: names) s =
    match match_ci w s ≫= date_tail with
    | Some md => Some md
    | None => date_at names s
    end.
Proof. reflexivity. Qed.

(** At a weekday name, in any case, the pattern goes on with what follows
    the name; no other alternative matches there. *)
Lemma date_at_weekday (day t : string) :
  weekday_name day → date_at weekdays (day +:+ t) = date_tail t.
Proof.
  rw /weekday_name.
  have -> : lower <$> weekdays =
            ["monday"; "tuesday"; "wednesday"; "thursday"; "friday";
             "saturday"; "sunday"] by done.
  intros Hday. rw /weekdays.
  repeat (apply elem_of_cons in Hday as [Hday|Hday]);
    [..|by apply not_elem_of_nil in Hday].
  all: repeat (rw date_at_cons;
               first [ rw match_ci_app; [by rw Hday|]
                     | rw match_ci_none; [by rw lower_app Hday|] ]).
  all: rw /=; by destruct (date_tail t).
Qed.

Lemma date_search_head (s : string) (md : Z * Z) :
  date_at weekdays s = Some md → date_search s = Some md.
Proof. intros Hat. destruct s; by rw /date_search -/date_search Hat. Qed.

(** White space, one or two digits, a slash and one or two digits. *)
Lemma date_tail_shape (ws M D rest : string) :
  ws ≠ "" → all_chars is_space ws = true →
  short_number M = true → short_number D = true → day_ends D rest = true →
  date_tail (ws +:+ M +:+ "/" +:+ D +:+ rest) =
    Some (digits_val 0 M, digits_val 0 D).
Proof.
  intros Hne Hws HM HD Hend.
  have Hday : day_digits (D +:+ rest) = Some D.
  { destruct D as [|a [|b [|c D]]]; [done| | |by rw /= in HD].
    - rw /= in HD. rw append_cons append_nil_l.
      destruct rest as [|c rest]; rw /= HD; [done|].
      rw /= in Hend. apply negb_true_iff in Hend. by rw Hend.
    - rw /= in HD. by rw !append_cons append_nil_l /= HD. }
  have Hmonth : month_slash (M +:+ "/" +:+ D +:+ rest) = Some (M, D +:+ rest).
  { destruct M as [|a [|b [|c M]]]; [done| | |by rw /= in HM].
    - rw /= in HM. rw !append_cons !append_nil_l.
      destruct D as [|x D]; [done|]. rw append_cons /month_slash HM.
      have -> : is_digit "/" = false by done.
      by rw Ascii.eqb_refl.
    - rw /= in HM. rw !append_cons !append_nil_l.
      by rw /month_slash HM Ascii.eqb_refl. }
  have Hspaces : spaces1 (ws +:+ M +:+ "/" +:+ D +:+ rest) =
                 Some (M +:+ "/" +:+ D +:+ rest).
  { apply spaces1_app; [done..|].
    destruct M as [|a [|b [|c M]]]; [done| | |done]; rw /= in HM |- *.
    - by apply digit_not_space.
    - apply andb_true_iff in HM as [Ha _]. by apply digit_not_space. }
  rw /date_tail Hspaces. cbn [mbind option_bind].
  rw Hmonth. cbn [mbind option_bind]. by rw Hday.
Qed.

(** *** The later rules on a label that is just a weekday and a date *)

Lemma space_lower (c : ascii) : is_space c = true → lower_char c = c.
Proof. ascii_cases c. Qed.

Lemma space_not_y (c : ascii) : is_space c = true → Ascii.eqb c "y" = false.
Proof. ascii_cases c. Qed.

Lemma digit_not_y (c : ascii) : is_digit c = true → Ascii.eqb c "y" = false.
Proof. ascii_cases c. Qed.

Lemma space_not_word (c : ascii) : is_space c = true → is_word c = false.
Proof. ascii_cases c. Qed.

Lemma all_chars_app (p : ascii → bool) (a b : string) :
  all_chars p (a +:+ b) = all_chars p a && all_chars p b.
Proof.
  induction a as [|c a IH]; [done|].
  by rw append_cons /= IH andb_assoc.
Qed.

Lemma lower_fixed (p : ascii → bool) (s : string) :
  (∀ c, p c = true → lower_char c = c) → all_chars p s = true → lower s = s.
Proof.
  intros Hp. induction s as [|c s IH]; [done|].
  rw /= andb_true_iff. intros [Hc Hs]. by rw Hp // IH.
Qed.

Lemma short_number_digits (s : string) :
  short_number s = true → all_chars is_digit s = true ∧ s ≠ "".
Proof.
  destruct s as [|a [|b [|c s]]]; rw /=; try done.
  - by intros ->.
  - intros [-> ->]%andb_true_iff. done.
Qed.

Lemma rstrip_app_keep (a b : string) :
  rstrip b = b → b ≠ "" → rstrip (a +:+ b) = a +:+ b.
Proof.
  intros Hb Hne. induction a as [|c a IH]; [done|].
  rw append_cons /= IH. destruct (a +:+ b) eqn:Hab; [|done].
  destruct a; [|done]. by rw append_nil_l in Hab.
Qed.

Lemma ytd_at_not_y (c : ascii) (s : string) :
  Ascii.eqb c "y" = false → ytd_at (String c s) = None.
Proof. ascii_cases c. Qed.

Lemma ytd_at_y_space (c : ascii) (s : string) :
  is_space c = true → ytd_at (String "y" (String c s)) = None.
Proof. ascii_cases c. Qed.

Lemma ytd_search_cons (c : ascii) (s : string) :
  ytd_at (String c s) = None → ytd_search (String c s) = ytd_search s.
Proof. intros Hat. by rw /ytd_search -/ytd_search Hat. Qed.

Lemma ytd_search_no_y (s : string) :
  all_chars (λ c, negb (Ascii.eqb c "y")) s = true → ytd_search s = None.
Proof.
  induction s as [|c s IH]; [done|].
  intros [Hc%negb_true_iff Hs]%andb_true_iff.
  rw ytd_search_cons; [by apply ytd_at_not_y | by apply IH].
Qed.

Lemma drop_special_app (a b : string) :
  drop_special (a +:+ b) = drop_special a +:+ drop_special b.
Proof.
  induction a as [|c a IH]; [done|].
  rw append_cons /= IH. by case_match.
Qed.

Lemma drop_special_fixed (p : ascii → bool) (s : string) :
  (∀ c, p c = true → is_word c || is_space c || Ascii.eqb c "-" = true) →
  all_chars p s = true → drop_special s = s.
Proof.
  intros Hp. induction s as [|c s IH]; [done|].
  rw /= andb_true_iff. intros [Hc Hs]. by rw Hp // IH.
Qed.

(** Characters that [join_runs] copies: neither a hyphen nor white space. *)
Lemma join_runs_keep (p : ascii → bool) (a s : string) (in_run : bool) :
  (∀ c, p c = true → Ascii.eqb c "-" || is_space c = false) →
  a ≠ "" → all_chars p a = true →
  join_runs in_run (a +:+ s) = a +:+ join_runs false s.
Proof.
  intros Hp Hne Ha. revert in_run.
  induction a as [|c a IH]; intros in_run; [done|].
  move: Ha. rw append_cons /= andb_true_iff. intros [Hc Ha].
  rw Hp //. destruct a as [|c' a]; [done|]. by rw IH.
Qed.

Lemma join_runs_spaces_in_run (ws s : string) :
  all_chars is_space ws = true →
  join_runs true (ws +:+ s) = join_runs true s.
Proof.
  induction ws as [|c ws IH]; [done|].
  rw append_cons /= andb_true_iff. intros [Hc Hws].
  by rw Hc orb_true_r IH.
Qed.

Lemma join_runs_spaces (ws s : string) :
  ws ≠ "" → all_chars is_space ws = true →
  join_runs false (ws +:+ s) = String "_" (join_runs true s).
Proof.
  destruct ws as [|c ws]; [done|]. intros _.
  rw append_cons /= andb_true_iff. intros [Hc Hws].
  by rw Hc orb_true_r join_runs_spaces_in_run.
Qed.

Lemma letter_not_separator (c : ascii) :
  is_lower c = true → Ascii.eqb c "-" || is_space c = false.
Proof. ascii_cases c. Qed.

Lemma letter_is_word (c : ascii) :
  is_lower c = true → is_word c || is_space c || Ascii.eqb c "-" = true.
Proof. ascii_cases c. Qed.

Lemma append_not_nil_r (a b : string) : b ≠ "" → a +:+ b ≠ "".
Proof. destruct a; [done|]. by rw append_cons. Qed.

Lemma lstrip_keep (s : string) : starts_with_space s = false → lstrip s = s.
Proof. destruct s as [|c s]; [done|]. rw /=. by intros ->. Qed.

(** A label that is a weekday name, white space and [M/D] matches none of
    the prefix, year-to-date and vocabulary rules; the generic rule drops
    the slash and joins the name and the digits with one underscore. *)
Lemma normalize_rest_weekday_label (day ws M D : string) :
  weekday_name day → ws ≠ "" → all_chars is_space ws = true →
  short_number M = true → short_number D = true →
  normalize_rest (day +:+ ws +:+ M +:+ "/" +:+ D) =
    lower day +:+ "_" +:+ M +:+ D.
Proof.
  intros Hday Hne Hws [HM HMne]%short_number_digits [HD HDne]%short_number_digits.
  have Hlow : lower (day +:+ ws +:+ M +:+ "/" +:+ D) =
              lower day +:+ ws +:+ M +:+ "/" +:+ D.
  { rw !lower_app (lower_fixed is_space ws space_lower) //.
    by rw (lower_fixed is_digit M digit_lower) // (lower_fixed is_digit D digit_lower). }
  have Hnoy : all_chars (λ c, negb (Ascii.eqb c "y")) (ws +:+ M +:+ "/" +:+ D) = true.
  { rw !all_chars_app.
    rw (all_chars_impl is_space _ ws) //; [by intros c ->%space_not_y|].
    rw (all_chars_impl is_digit _ M) //; [by intros c ->%digit_not_y|].
    rw (all_chars_impl is_digit _ D) //. by intros c ->%digit_not_y. }
  have Hend : rstrip (ws +:+ M +:+ "/" +:+ D) = ws +:+ M +:+ "/" +:+ D.
  { do 3 (apply rstrip_app_keep; [|by repeat apply append_not_nil_r]).
    by apply rstrip_no_space, digits_no_space. }
  have Hdrop : drop_special (ws +:+ M +:+ "/" +:+ D) = ws +:+ M +:+ D.
  { rw !drop_special_app (drop_special_fixed is_space ws) //.
    { intros c Hc. by rw Hc orb_true_r. }
    rw (drop_special_fixed is_digit M) //; [intros c Hc; by rw digit_is_word|].
    rw (drop_special_fixed is_digit D) //. intros c Hc; by rw digit_is_word. }
  have Hjoin : join_runs false (ws +:+ M +:+ D) = "_" +:+ M +:+ D.
  { rw join_runs_spaces // (join_runs_keep is_digit M) //.
    { intros c Hc. by rw digit_not_hyphen // digit_not_space. }
    f_equal. f_equal. rw -{1}(append_nil_r D) (join_runs_keep is_digit D) //.
    { intros c Hc. by rw digit_not_hyphen // digit_not_space. }
    by rw /= append_nil_r. }
  destruct ws as [|w ws]; [done|].
  have Hw : is_space w = true by move: Hws; rw /= andb_true_iff; intros [? _].
  rw /normalize_rest Hlow. move: Hday. rw /weekday_name.
  have -> : lower <$> weekdays =
            ["monday"; "tuesday"; "wednesday"; "thursday"; "friday";
             "saturday"; "sunday"] by done.
  intros Hday.
  repeat (apply elem_of_cons in Hday as [Hday|Hday]);
    [..|by apply not_elem_of_nil in Hday].
  all: rw Hday.
  all: lazymatch goal with
       | |- context [strip (?W +:+ ?X)] =>
           (have -> : strip (W +:+ X) = W +:+ X
              by (rw /strip lstrip_keep // rstrip_app_keep));
           (have -> : startswith "prev. 7" (W +:+ X) = false by done);
           (have -> : column_mapping !! (W +:+ X) = None
              by (rw /column_mapping !lookup_insert_ne));
           (have -> : generic_fallback (W +:+ X) = W +:+ "_" +:+ M +:+ D
              by (rw /generic_fallback drop_special_app Hdrop
                    (drop_special_fixed is_lower W letter_is_word) //
                    (join_runs_keep is_lower W _ _ letter_not_separator) // Hjoin))
       end.
  all: rw !append_cons append_nil_l.
  all: rw append_cons in Hnoy.
  all: repeat (rw ytd_search_cons; [reflexivity|]).
  all: rw ytd_search_cons; [by apply ytd_at_y_space|].
  all: by rw ytd_search_no_y.
Qed.

Lemma date_search_skip (pre text : string) :
  no_match_inside pre text → date_search (pre +:+ text) = date_search text.
Proof.
  induction pre as [|c pre IH]; [done|].
  intros Hpre. rw append_cons /date_search -/date_search.
  have -> : date_at weekdays (String c (pre +:+ text)) = None
    by apply (Hpre "" (String c pre)).
  apply IH. intros p1 p2 -> Hne. by apply (Hpre (String c p1) p2).
Qed.

(** C6, as the code has it.  Take a label written in ASCII and its leftmost
    occurrence of a weekday name (in any case), white space and [M/D], and
    the reference year [y] (the current year when none or 0 is given), a
    year of four digits.  When [(y, M, D)]
    is a calendar date the name is exactly the ISO date and nothing is
    logged; otherwise one warning is logged and the name is what the later
    rules give, in their order (prefix, year-to-date, vocabulary, generic).
    When the label is nothing but the weekday and the date, that is the
    generic rule: the lowercased weekday, an underscore and the digits of
    [M] and [D]. *)
Theorem weekday_date_rule
    (now_year : Z) (reference_year : option Z)
    (pre day ws M D rest : string) :
  all_chars is_ascii pre = true → all_chars is_ascii rest = true →
  1000 ≤ year_or_now now_year reference_year ≤ 9999 →
  weekday_name day → ws ≠ "" → all_chars is_space ws = true →
  short_number M = true → short_number D = true → day_ends D rest = true →
  no_match_inside pre (day +:+ ws +:+ M +:+ "/" +:+ D +:+ rest) →
  let label := pre +:+ day +:+ ws +:+ M +:+ "/" +:+ D +:+ rest in
  let y := year_or_now now_year reference_year in
  let m := digits_val 0 M in
  let d := digits_val 0 D in
  (valid_date y m d = true →
   normalize_column_name now_year label reference_year =
     (pad4 y +:+ "-" +:+ pad2 m +:+ "-" +:+ pad2 d, []))
  ∧ (valid_date y m d = false →
     normalize_column_name now_year label reference_year =
       (normalize_rest label, [invalid_date_warning label]))
  ∧ (pre = "" → rest = "" →
     normalize_rest label = lower day +:+ "_" +:+ M +:+ D).
Proof.
  intros _ _ _ Hday Hne Hws HM HD Hend Hpre label y m d.
  have Hsearch : date_search label = Some (m, d).
  { rw /label date_search_skip //. apply date_search_head.
    rw date_at_weekday //. by apply date_tail_shape. }
  split_and!.
  - intros Hvalid.
    by rw /normalize_column_name Hsearch /datetime -/y Hvalid.
  - intros Hinvalid.
    by rw /normalize_column_name Hsearch /datetime -/y Hinvalid.
  - intros -> ->. rw /label append_nil_l append_nil_r.
    by apply normalize_rest_weekday_label.
Qed.

Lemma weekday_date_rule_witness :
  normalize_column_name 2026 "Monday 2/2" (Some 2026) = ("2026-02-02", [])
  ∧ normalize_column_name 2026 "Monday 2/30" (Some 2026) =
      ("monday_230", ["Invalid date in column name: Monday 2/30"]).
Proof.
  have Hne : " " ≠ "" by discriminate.
  have Hday : weekday_name "Monday" by apply list_elem_of_here.
  have Hyear : 1000 ≤ year_or_now 2026 (Some 2026) ≤ 9999 by rw /=; lia.
  have Hpre : ∀ text, no_match_inside "" text.
  { intros text [|c p1] [|c2 p2] Heq Hp2; [by destruct Hp2|discriminate..]. }
  destruct (weekday_date_rule 2026 (Some 2026) "" "Monday" " " "2" "2" ""
              eq_refl eq_refl Hyear
              Hday Hne eq_refl eq_refl eq_refl eq_refl (Hpre _))
    as (Hdate & _).
  destruct (weekday_date_rule 2026 (Some 2026) "" "Monday" " " "2" "30" ""
              eq_refl eq_refl Hyear
              Hday Hne eq_refl eq_refl eq_refl eq_refl (Hpre _))
    as (_ & Hfall & Hgeneric).
  split.
  - exact (Hdate eq_refl).
  - etransitivity; [exact (Hfall eq_refl)|].
    exact (f_equal (λ name, (name, _)) (Hgeneric eq_refl eq_refl)).
Defined.

(** C6 as stated fails: the label contains [Monday 2/30], which is no date
    in 2026, but the name is that of the prefix rule, not what the generic
    rule gives for the label. *)
Lemma weekday_date_counterexample :
  date_search "Prev. 7 Monday 2/30" = Some (2, 30)
  ∧ valid_date 2026 2 30 = false
  ∧ normalize_column_name 2026 "Prev. 7 Monday 2/30" (Some 2026) =
      ("prev_seven_day_total",
       ["Invalid date in column name: Prev. 7 Monday 2/30"])
  ∧ generic_fallback (strip (lower "Prev. 7 Monday 2/30")) = "prev_7_monday_230"
  ∧ fst (normalize_column_name 2026 "Prev. 7 Monday 2/30" (Some 2026)) ≠
      generic_fallback (strip (lower "Prev. 7 Monday 2/30")).
Proof. split_and!; try reflexivity. discriminate. Qed.

(** ** Document Pipeline *)

Section PipelineProperties.

Variable parse_table : RawTable → option Z → Exc (list Record).
Variable extract_date_from_header : string → option string.
Variable strptime_year : string → option Z.

Lemma tables_loop_spec (page_num : nat) (tables : list RawTable)
    (report_year : option Z) :
  ∀ (table_num : nat) (st : list Record * list string),
  tables_loop parse_table page_num table_num tables report_year st =
    (st.1 ++ concat (map (table_records parse_table report_year) tables),
     st.2 ++ concat (imap (λ j table,
               table_errors parse_table report_year page_num (table_num + j) table)
               tables)).
Proof.
  induction tables as [|table tables IH]; intros table_num [records errors].
  - by rw /= !app_nil_r.
  - have Himap :
      imap (λ j t, table_errors parse_table report_year page_num (table_num + j) t)
        (table :: tables) =
      table_errors parse_table report_year page_num table_num table ::
      imap (λ j t, table_errors parse_table report_year page_num (S table_num + j) t)
        tables.
    { rw imap_cons Nat.add_0_r. f_equal. apply imap_ext.
      intros j t _. by rw /= Nat.add_succ_r. }
    rw Himap /= IH /table_records /table_errors.
    destruct (parse_table table report_year) as [rs|e]; by rw /= -!app_assoc.
Qed.

Lemma pages_loop_spec (pages : list Page) (report_year : option Z) :
  ∀ (page_num : nat) (st : list Record * list string),
  pages_loop parse_table page_num pages report_year st =
    (st.1 ++ document_records parse_table report_year pages,
     st.2 ++ document_errors parse_table report_year page_num pages).
Proof.
  rw /document_records /document_errors.
  induction pages as [|page pages IH]; intros page_num [records errors].
  - by rw /= !app_nil_r.
  - have Himap :
      imap (λ i p, concat (imap (λ j t,
              table_errors parse_table report_year (page_num + i) (1 + j) t)
              (extract_tables p))) (page :: pages) =
      concat (imap (λ j t,
              table_errors parse_table report_year page_num (1 + j) t)
              (extract_tables page)) ::
      imap (λ i p, concat (imap (λ j t,
              table_errors parse_table report_year (S page_num + i) (1 + j) t)
              (extract_tables p))) pages.
    { rw imap_cons Nat.add_0_r. f_equal. apply imap_ext.
      intros i p _. by rw /= Nat.add_succ_r. }
    by rw Himap /= IH tables_loop_spec /= -!app_assoc.
Qed.

(** X14: a table that raises is caught where it is parsed (lines 278-285):
    the parse goes on, the table gives no record and exactly one message
    with its page and table numbers, and every other table gives its
    records.  With the date of the first page read and the summary
    computed, the result is returned whatever the tables did; its records
    and messages are in page order and, on a page, in table order. *)
Lemma table_failures_stay_local (pages : list Page)
    (date line : option string) (errors : list string) (s : Summary) :
  first_page_date extract_date_from_header pages = Return (date, line, errors) →
  calculate_summary
    (document_records parse_table (date ≫= strptime_year) pages) = Return s →
  parse_pdf parse_table extract_date_from_header strptime_year (Return pages) =
    Return {| report_date := date;
              extracted_date_text := line;
              crime_statistics :=
                document_records parse_table (date ≫= strptime_year) pages;
              summary := s;
              parse_errors :=
                errors ++
                document_errors parse_table (date ≫= strptime_year) 1 pages |}.
Proof.
  intros Hdate Hsum.
  by rw /parse_pdf Hdate pages_loop_spec /= Hsum.
Qed.

End PipelineProperties.

(** A table that raises and its sibling on the same page: the sibling
    gives its record and the error list names page 1, table 1 once. *)
Example sibling_table_still_parsed :
  let parse_table := λ (table : RawTable) (report_year : option Z),
    match table with
    | [] => Raise "boom"
    | _ => crime_table 2026 table report_year
    end in
  let good := [[Some "Title"]; [Some "Offense"; Some "7-Day Totals"];
               [Some "Robbery"; Some "4"]] in
  let text := "Daily Crime Report" +:+ String "010" ("Prince George's County"
                +:+ String "010" "Sunday, February 8, 2026") in
  ∃ result,
    parse_pdf parse_table (λ _, Some "2026-02-08") (λ _, Some 2026)
      (Return [{| extract_text := text; extract_tables := [[]; good] |}])
      = Return result
    ∧ crime_statistics result =
        [<["seven_day_total" := VInt 4]> {[ "offense_type" := VStr "Robbery" ]}]
    ∧ parse_errors result = ["Error parsing table 1 on page 1: boom"].
Proof.
  intros parse_table good text.
  eexists. split.
  - apply table_failures_stay_local; reflexivity.
  - split; reflexivity.
Defined.

(** C7 at two documents that open without error.  The text of the first
    page of the one has a line break but only two lines, and the subscript
    of line 261 raises; a table of the other has a second column headed
    [Offense Type], whose count replaces the offense type of the record, and
    the summary raises on it.  Both exceptions are outside the [try] of
    line 278, and [parse_pdf] raises them to its caller. *)
Theorem short_header_text_aborts_parse
    (parse_table : RawTable → option Z → Exc (list Record))
    (extract_date_from_header : string → option string)
    (strptime_year : string → option Z) :
  parse_pdf parse_table extract_date_from_header strptime_year
    (Return [{| extract_text :=
                  "Daily Crime Report" +:+ String "010" "February 8, 2026";
                extract_tables := [] |}])
    = Raise "list index out of range"
  ∧ parse_pdf (crime_table 2026) extract_date_from_header strptime_year
      (Return [{| extract_text := "";
                  extract_tables :=
                    [[[Some "Title"]; [Some "Offense"; Some "Offense Type"];
                      [Some "Robbery"; Some "5"]]] |}])
      = Raise "'int' object has no attribute 'lower'".
Proof.
  split.
  - rw /parse_pdf /first_page_date.
    by destruct (extract_date_from_header _) as [date|];
      [destruct (nonempty date)|].
  - rw /parse_pdf /first_page_date.
    by destruct (extract_date_from_header _) as [date|];
      [destruct (nonempty date)|].
Qed.

(** ** Column Name Normalizer: the names it keeps *)

Lemma snake_not_space (c : ascii) : snake_char c = true → (negb ∘ is_space) c = true.
Proof. ascii_cases c. Qed.

Lemma snake_lower (c : ascii) : snake_char c = true → lower_char c = c.
Proof. ascii_cases c. Qed.

Lemma snake_kept (c : ascii) :
  snake_char c = true → is_word c || is_space c || Ascii.eqb c "-" = true.
Proof. ascii_cases c. Qed.

Lemma snake_not_separator (c : ascii) :
  snake_char c = true → Ascii.eqb c "-" || is_space c = false.
Proof. ascii_cases c. Qed.

Lemma digit_snake (c : ascii) : is_digit c = true → snake_char c = true.
Proof. ascii_cases c. Qed.

Lemma lower_char_not_upper (c : ascii) : is_upper (lower_char c) = false.
Proof. ascii_cases c. Qed.

Lemma kept_char_snake (c : ascii) :
  is_upper c = false →
  is_word c || is_space c || Ascii.eqb c "-" = true →
  Ascii.eqb c "-" || is_space c = false →
  snake_char c = true.
Proof. ascii_cases c. Qed.

Lemma startswith_all_chars (p : ascii → bool) (pre s : string) :
  startswith pre s = true → all_chars p s = true → all_chars p pre = true.
Proof.
  revert s. induction pre as [|a pre IH]; intros s; [done|].
  destruct s as [|c s]; [done|].
  rw /= !andb_true_iff. intros [->%Ascii.eqb_eq Hpre] [Hc Hs].
  split; [done|]. by apply (IH s).
Qed.

Lemma join_runs_fixed (s : string) (in_run : bool) :
  all_chars snake_char s = true → join_runs in_run s = s.
Proof.
  revert in_run. induction s as [|c s IH]; intros in_run; [done|].
  rw /= andb_true_iff. intros [Hc Hs].
  by rw snake_not_separator // IH.
Qed.

(** A snake-case name goes through the normalizer unchanged. *)
Lemma snake_name_fixed (now_year : Z) (reference_year : option Z) (s : string) :
  all_chars snake_char s = true →
  normalize_column_name now_year s reference_year = (s, []).
Proof.
  intros Hs.
  have Hnospace : all_chars (negb ∘ is_space) s = true
    by apply (all_chars_impl snake_char), Hs; apply snake_not_space.
  have Hlow : lower s = s by apply (lower_fixed snake_char), Hs; apply snake_lower.
  rw /normalize_column_name date_search_no_space // /normalize_rest Hlow.
  rw strip_no_space // ytd_search_no_space //.
  have -> : startswith "prev. 7" s = false.
  { destruct (startswith "prev. 7" s) eqn:Hpre; [|done].
    by have := startswith_all_chars snake_char _ _ Hpre Hs. }
  have -> : column_mapping !! s = None.
  { rw /column_mapping !lookup_insert_ne //.
    all: intros <-; done. }
  rw /generic_fallback (drop_special_fixed snake_char) //; [apply snake_kept|].
  by rw join_runs_fixed.
Qed.

Lemma all_chars_lstrip (p : ascii → bool) (s : string) :
  all_chars p s = true → all_chars p (lstrip s) = true.
Proof.
  induction s as [|c s IH]; [done|].
  rw /=. destruct (is_space c); [|done].
  rw andb_true_iff. intros [_ Hs]. by apply IH.
Qed.

Lemma all_chars_rstrip (p : ascii → bool) (s : string) :
  all_chars p s = true → all_chars p (rstrip s) = true.
Proof.
  induction s as [|c s IH]; [done|].
  rw /= andb_true_iff. intros [Hc Hs]. move: (IH Hs).
  destruct (rstrip s) as [|c' r]; [destruct (is_space c)|]; rw /= ?Hc //.
Qed.

Lemma lower_not_upper (s : string) :
  all_chars (negb ∘ is_upper) (lower s) = true.
Proof.
  induction s as [|c s IH]; [done|].
  by rw /= lower_char_not_upper IH.
Qed.

Lemma generic_fallback_snake (s : string) :
  all_chars (negb ∘ is_upper) s = true →
  all_chars snake_char (generic_fallback s) = true.
Proof.
  rw /generic_fallback. generalize false.
  induction s as [|c s IH]; intros in_run; [done|].
  rw /= andb_true_iff negb_true_iff. intros [Hc Hs].
  destruct (is_word c || is_space c || Ascii.eqb c "-") eqn:Hkept; [|by apply IH].
  rw /=. destruct (Ascii.eqb c "-" || is_space c) eqn:Hsep.
  - destruct in_run; [by apply IH|]. rw /=. by apply IH.
  - by rw /= kept_char_snake // IH.
Qed.

Lemma ytd_at_digits (s y : string) :
  ytd_at s = Some y → all_chars is_digit y = true.
Proof.
  rw /ytd_at. repeat (case_match; try done).
  intros [= <-]. rw /=.
  match goal with H : _ && _ && _ = true |- _ =>
    apply andb_true_iff in H as [[-> ->]%andb_true_iff _] end.
  done.
Qed.

Lemma ytd_search_digits (s y : string) :
  ytd_search s = Some y → all_chars is_digit y = true.
Proof.
  induction s as [|c s IH].
  - done.
  - rw /ytd_search -/ytd_search.
    destruct (ytd_at (String c s)) eqn:Hat; [|done].
    intros [= <-]. by apply (ytd_at_digits _ _ Hat).
Qed.

(** Every name that the rules after the weekday-date rule produce is in
    snake case. *)
Lemma normalize_rest_snake (label : string) :
  all_chars snake_char (normalize_rest label) = true.
Proof.
  rw /normalize_rest.
  destruct (startswith "prev. 7" (strip (lower label))); [done|].
  destruct (ytd_search (strip (lower label))) as [year|] eqn:Hytd.
  { rw !append_cons append_nil_l /=.
    apply (all_chars_impl is_digit); [apply digit_snake|].
    by apply (ytd_search_digits _ _ Hytd). }
  destruct (column_mapping !! strip (lower label)) as [name|] eqn:Hmap.
  { move: Hmap. rw /column_mapping.
    rw !lookup_insert. repeat case_decide; by intros [= <-]. }
  apply generic_fallback_snake.
  rw /strip. apply all_chars_rstrip, all_chars_lstrip, lower_not_upper.
Qed.

(** C2 everywhere else: a name produced by a rule other than the
    weekday-date rule is returned unchanged when it is normalized again,
    with any reference year. *)
Lemma other_names_preserved (label : string) (now_year : Z)
    (reference_year : option Z) :
  normalize_column_name now_year (normalize_rest label) reference_year =
    (normalize_rest label, []).
Proof. apply snake_name_fixed, normalize_rest_snake. Qed.

(** The sibling [normalize_key] has the rule that the column normalizer
    lacks: a key that is an ISO date is returned as it is. *)
Lemma normalize_key_keeps_iso_date (a b c d e f g h : ascii) :
  is_digit a = true → is_digit b = true → is_digit c = true →
  is_digit d = true → is_digit e = true → is_digit f = true →
  is_digit g = true → is_digit h = true →
  normalize_key
    (String a (String b (String c (String d (String "-"
      (String e (String f (String "-" (String g (String h "")))))))))) =
  String a (String b (String c (String d (String "-"
    (String e (String f (String "-" (String g (String h ""))))))))).
Proof.
  intros Ha Hb Hc Hd He Hf Hg Hh.
  set (s := String a _).
  have Hs : all_chars (negb ∘ is_space) s = true by rw /s /=; digit_facts.
  have Hlow : lower s = s by rw /s /=; digit_facts.
  rw /normalize_key Hlow strip_no_space // ytd_search_no_space //.
  have -> : startswith "prev. 7" s = false by rw /s /=; digit_facts.
  have -> : column_mapping !! s = None.
  { rw /column_mapping !lookup_insert_ne //.
    all: rw /s; intros [= <- <-]; done. }
  by rw /s /iso_date_match Ha Hb Hc Hd He Hf Hg Hh !Ascii.eqb_refl.
Qed.

(** ** The scenario of the specification, end to end *)

Example one_table_document :
  let text := "Daily Crime Report" +:+ String "010" ("Prince George's County"
                +:+ String "010" "Sunday, February 8, 2026") in
  let table := [[Some "Daily Crime Report"];
                [Some "Offense"; Some "Monday 2/2"; Some "7-Day Totals"];
                [Some "Robbery"; Some "4"; Some "10"]] in
  ∃ result,
    parse_pdf (crime_table 2026) (λ _, Some "2026-02-08") (λ _, Some 2026)
      (Return [{| extract_text := text; extract_tables := [table] |}])
      = Return result
    ∧ crime_statistics result =
        [<["2026-02-02" := VInt 4]>
           (<["seven_day_total" := VInt 10]>
              {[ "offense_type" := VStr "Robbery" ]})]
    ∧ violent_crimes (summary result) = ["robbery"]
    ∧ property_crimes (summary result) = []
    ∧ parse_errors result = [].
Proof.
  intros text table. eexists. split; [reflexivity|].
  split_and!; reflexivity.
Qed.

(** * Further properties of the code *)

(** ** Column Name Normalizer *)

(** X1: whenever the weekday-date rule does not give the name (the label has
    no weekday date, or its date is not valid in the reference year), the
    name returned is a fixed point of the normalizer: normalizing it again,
    with any clock and reference year, returns it unchanged and logs
    nothing. *)
Theorem names_off_dates_are_fixed
    (now_year : Z) (label : string) (reference_year : option Z)
    (now_year' : Z) (reference_year' : option Z) :
  (date_search label = None
   ∨ ∃ m d, date_search label = Some (m, d)
            ∧ valid_date (year_or_now now_year reference_year) m d = false) →
  let name := fst (normalize_column_name now_year label reference_year) in
  normalize_column_name now_year' name reference_year' = (name, []).
Proof.
  intros Hrule name.
  have -> : name = normalize_rest label.
  { rw /name /normalize_column_name.
    destruct Hrule as [->|(m & d & -> & Hinvalid)]; [done|].
    by rw /datetime Hinvalid. }
  apply snake_name_fixed, normalize_rest_snake.
Qed.

Lemma names_off_dates_are_fixed_witness :
  fst (normalize_column_name 2026 " Prev. 7 (1/26 - 2/1)" (Some 2026)) =
    "prev_seven_day_total"
  ∧ normalize_column_name 1999 "prev_seven_day_total" None =
      ("prev_seven_day_total", [])
  ∧ normalize_column_name 2026
      (fst (normalize_column_name 2026 "Monday 2/30" (Some 2026))) (Some 2026) =
      ("monday_230", []).
Proof.
  split; [reflexivity|]. split.
  - exact (names_off_dates_are_fixed 2026 " Prev. 7 (1/26 - 2/1)" (Some 2026)
             1999 None (or_introl eq_refl)).
  - exact (names_off_dates_are_fixed 2026 "Monday 2/30" (Some 2026)
             2026 (Some 2026)
             (or_intror (ex_intro _ 2 (ex_intro _ 30 (conj eq_refl eq_refl))))).
Defined.

(** X2: for a label written in ASCII and a reference year of four digits,
    the name the normalizer returns is machine-readable: it is made only of
    lower-case letters, digits and underscores, or else it is the ISO form
    of a valid calendar date in the reference year. *)
Theorem names_are_snake_case_or_dates
    (now_year : Z) (label : string) (reference_year : option Z) :
  all_chars is_ascii label = true →
  1000 ≤ year_or_now now_year reference_year ≤ 9999 →
  let name := fst (normalize_column_name now_year label reference_year) in
  all_chars snake_char name = true
  ∨ ∃ m d, valid_date (year_or_now now_year reference_year) m d = true
           ∧ name = strftime (year_or_now now_year reference_year, m, d).
Proof.
  intros _ _. rw /normalize_column_name /datetime.
  destruct (date_search label) as [[m d]|]; [|left; apply normalize_rest_snake].
  destruct (valid_date _ m d) eqn:Hvalid; [|left; apply normalize_rest_snake].
  right. by exists m, d.
Qed.

Lemma names_are_snake_case_or_dates_witness :
  (all_chars snake_char
     (fst (normalize_column_name 2026 "Monday 2/2" (Some 2026))) = true
   ∨ ∃ m d, valid_date 2026 m d = true
            ∧ fst (normalize_column_name 2026 "Monday 2/2" (Some 2026)) =
                strftime (2026, m, d))
  ∧ (all_chars snake_char
       (fst (normalize_column_name 2026 "Offense Type" None)) = true
     ∨ ∃ m d, valid_date 2026 m d = true
              ∧ fst (normalize_column_name 2026 "Offense Type" None) =
                  strftime (2026, m, d)).
Proof.
  have Hyear : 1000 ≤ 2026 ≤ 9999 by lia.
  split.
  - exact (names_are_snake_case_or_dates 2026 "Monday 2/2" (Some 2026)
             eq_refl Hyear).
  - exact (names_are_snake_case_or_dates 2026 "Offense Type" None
             eq_refl Hyear).
Defined.

Lemma rstrip_cons_keep (c : ascii) (s : string) :
  is_space c = false → rstrip (String c s) = String c (rstrip s).
Proof. intros Hc. rw /= Hc. by destruct (rstrip s). Qed.

Lemma rstrip_cons_before (c : ascii) (s : string) :
  rstrip s ≠ "" → rstrip (String c s) = String c (rstrip s).
Proof. intros Hs. rw /=. by destruct (rstrip s). Qed.

(** X3: a label that begins, after any leading white space and in any mix
    of upper and lower case, with [prev. 7] gets the name
    [prev_seven_day_total] whatever follows the prefix, unless the label
    also holds a weekday date that is valid in the reference year. *)
Theorem prev_seven_prefix_wins
    (now_year : Z) (reference_year : option Z) (ws p rest : string) :
  all_chars is_space ws = true → lower p = "prev. 7" →
  (∀ m d, date_search (ws +:+ p +:+ rest) = Some (m, d) →
          valid_date (year_or_now now_year reference_year) m d = false) →
  fst (normalize_column_name now_year (ws +:+ p +:+ rest) reference_year) =
    "prev_seven_day_total".
Proof.
  intros Hws Hp Hdate.
  have Hrest : normalize_rest (ws +:+ p +:+ rest) = "prev_seven_day_total".
  { rw /normalize_rest !lower_app Hp (lower_fixed is_space ws space_lower) //.
    rw /strip lstrip_spaces_app //.
    have -> : rstrip ("prev. 7" +:+ lower rest) =
              "prev. " +:+ String "7" (rstrip (lower rest)).
    { rw !append_cons append_nil_l.
      do 5 (rw rstrip_cons_keep; [done|]).
      rw rstrip_cons_before; by rw rstrip_cons_keep. }
    done. }
  rw /normalize_column_name.
  destruct (date_search (ws +:+ p +:+ rest)) as [[m d]|] eqn:Hsearch; [|done].
  by rw /datetime (Hdate m d).
Qed.

Lemma prev_seven_prefix_wins_witness :
  fst (normalize_column_name 2026 "  PREV. 7 1/26-2/1  " (Some 2026)) =
    "prev_seven_day_total".
Proof.
  apply (prev_seven_prefix_wins 2026 (Some 2026) "  " "PREV. 7" " 1/26-2/1  ");
    [reflexivity | reflexivity |].
  intros m d Hsearch. discriminate Hsearch.
Defined.

(** ** Table Record Builder *)

Lemma data_rows_elem_inv (columns : list string) (rows : RawTable)
    (record : Record) :
  record ∈ data_rows columns rows →
  ∃ row, row ∈ rows ∧ row_record columns row = Some record.
Proof.
  induction rows as [|row rows IH]; [by intros ?%not_elem_of_nil|].
  rw /=. destruct (row_record columns row) as [r|] eqn:Hrow.
  - intros [->|Hin]%elem_of_cons.
    + exists row. split; [by left|done].
    + destruct (IH Hin) as (row' & Hrow' & Hrec). exists row'.
      split; [by right|done].
  - intros Hin. destruct (IH Hin) as (row' & Hrow' & Hrec). exists row'.
    split; [by right|done].
Qed.

Lemma row_record_data_row (columns : list string) (row : Row) :
  is_Some (row_record columns row) ↔ data_row row = true.
Proof.
  destruct row as [|[s|] cells]; rw /row_record /=.
  - split; [by intros [? ?]|done].
  - destruct (String.eqb (strip s) "") eqn:Hs; rw /=.
    + rw orb_true_r. destruct (_ && SKIP_EMPTY_ROWS); split; try done.
      all: by intros [? ?].
    + have -> : nonempty s = true.
      { apply nonempty_spec. intros ->. by rw /= in Hs. }
      rw /=. split; [done|]. intros _. by eexists.
  - destruct (_ && SKIP_EMPTY_ROWS); split; try done.
    all: by intros [? ?].
Qed.

Lemma length_data_rows (columns : list string) (rows : RawTable) :
  length (data_rows columns rows) = length (List.filter data_row rows).
Proof.
  induction rows as [|row rows IH]; [done|].
  rw /=. have := row_record_data_row columns row.
  destruct (row_record columns row) as [r|], (data_row row); rw /= ?IH //.
  - intros [H _]. by have := H (mk_is_Some _ _ eq_refl).
  - intros [_ H]. by destruct (H eq_refl).
Qed.

(** X4: the parser returns one record for each data row whose first cell is
    present and not blank, and none for any other row; a table never gives
    more records than it has rows below the header. *)
Theorem one_record_per_offense_row
    (now_year : Z) (table : RawTable) (report_year : option Z) :
  length (parse_crime_table now_year table report_year) =
    length (List.filter data_row (drop 2 table))
  ∧ (length (parse_crime_table now_year table report_year) ≤ length table - 2)%nat.
Proof.
  have Hlen : length (parse_crime_table now_year table report_year) =
              length (List.filter data_row (drop 2 table)).
  { destruct table as [|title [|header rows]]; [done..|].
    by rw parse_crime_table_rows length_data_rows. }
  split; [done|]. rw Hlen.
  etrans; [apply filter_length_le|]. by rw length_drop.
Qed.

(** X5: the records of a table come in row order and row by row: parsing
    the data rows in two parts under the same title and header gives the
    records of the whole table. *)
Theorem records_follow_row_order
    (now_year : Z) (title header : Row) (rows1 rows2 : RawTable)
    (report_year : option Z) :
  parse_crime_table now_year (title :: header :: rows1 ++ rows2) report_year =
    parse_crime_table now_year (title :: header :: rows1) report_year
    ++ parse_crime_table now_year (title :: header :: rows2) report_year.
Proof. by rw !parse_crime_table_rows data_rows_app. Qed.

Lemma rstrip_idem (s : string) : rstrip (rstrip s) = rstrip s.
Proof.
  induction s as [|c s IH]; [done|].
  rw /=. destruct (rstrip s) as [|c' r] eqn:Hr.
  - destruct (is_space c) eqn:Hc; [done|]. by rw /= Hc.
  - rw /=. rw /= in IH. by rw IH.
Qed.

Lemma lstrip_head (s : string) : starts_with_space (lstrip s) = false.
Proof.
  induction s as [|c s IH]; [done|].
  rw /=. destruct (is_space c) eqn:Hc; [done|]. by rw /= Hc.
Qed.

Lemma rstrip_head (s : string) :
  starts_with_space s = false → starts_with_space (rstrip s) = false.
Proof.
  destruct s as [|c s]; [done|]. rw /starts_with_space. intros Hc.
  by rw rstrip_cons_keep.
Qed.

Lemma strip_idem (s : string) : strip (strip s) = strip s.
Proof.
  rw /strip (lstrip_keep (rstrip (lstrip s))); [|apply rstrip_idem].
  apply rstrip_head, lstrip_head.
Qed.

Lemma row_record_inv (columns : list string) (row : Row) (record : Record) :
  row_record columns row = Some record →
  ∃ first,
    row = Some first :: tail row ∧ strip first ≠ ""
    ∧ record = fill_record columns 1 (tail row)
                 {[ "offense_type" := VStr (strip first) ]}.
Proof.
  rw /row_record. destruct (empty_row row && SKIP_EMPTY_ROWS); [done|].
  destruct row as [|[first|] cells]; [done| |done]. rw /=.
  destruct (String.eqb (strip first) "") eqn:Hblank;
    [by rw orb_true_r|].
  destruct (negb (nonempty first)); [done|].
  intros [= <-]. exists first. split; [done|]. split; [|done].
  by apply String.eqb_neq.
Qed.

(** X6: every record has an [offense_type] entry.  When no column after the
    first is itself named [offense_type], the entry is the first cell of
    the record's row with its surrounding white space removed: a text that
    is not empty and has no white space at either end. *)
Theorem records_carry_their_offense_type
    (now_year : Z) (table : RawTable) (report_year : option Z)
    (record : Record) :
  record ∈ parse_crime_table now_year table report_year →
  is_Some (record !! "offense_type")
  ∧ ∀ header,
      table !! 1%nat = Some header →
      no_offense_column (columns_of now_year report_year header) →
      ∃ row first,
        row ∈ drop 2 table ∧ head row = Some (Some first)
        ∧ record !! "offense_type" = Some (VStr (strip first))
        ∧ strip first ≠ "" ∧ strip (strip first) = strip first.
Proof.
  destruct table as [|title [|header rows]];
    [by intros ?%not_elem_of_nil..|].
  rw parse_crime_table_rows.
  intros (row & Hrow & Hrec)%data_rows_elem_inv.
  destruct (row_record_inv _ _ _ Hrec) as (first & Hshape & Hne & ->).
  split.
  - apply fill_record_dom. by rw lookup_singleton_eq.
  - intros header' [= <-] Hcols. exists row, first.
    split; [done|]. split; [by rw Hshape|]. split; [|by split; [|apply strip_idem]].
    apply fill_record_keeps; [by rw lookup_singleton_eq|].
    intros j cell _ Hcol. by destruct (Hcols (1 + j)%nat ltac:(lia)).
Qed.

Lemma records_carry_their_offense_type_witness :
  ∃ record,
    parse_crime_table 2026
      [[Some "Title"]; [Some "Offense"; Some "7-Day Totals"];
       [Some "  Theft from Auto "; Some "12"]] (Some 2026) = [record]
    ∧ record !! "offense_type" = Some (VStr "Theft from Auto").
Proof.
  eexists. split; [reflexivity|].
  destruct (records_carry_their_offense_type 2026
              [[Some "Title"]; [Some "Offense"; Some "7-Day Totals"];
               [Some "  Theft from Auto "; Some "12"]] (Some 2026) _
              (list_elem_of_here _ _))
    as [_ Hoffense].
  destruct (Hoffense [Some "Offense"; Some "7-Day Totals"] eq_refl)
    as (row & first & Hrow & Hhead & Hvalue & _).
  - intros [|[|[|i]]] Hi; [lia|discriminate..].
  - apply elem_of_cons in Hrow as [->|Hrow];
      [|by apply not_elem_of_nil in Hrow].
    injection Hhead as <-. exact Hvalue.
Defined.

Lemma fill_record_origin (columns : list string) (c : string) (v : Value)
    (cells : Row) :
  ∀ (k : nat) (record : Record),
  fill_record columns k cells record !! c = Some v →
  record !! c = Some v
  ∨ ∃ (j : nat) (cell : Cell),
      cells !! j = Some cell ∧ columns !! (k + j)%nat = Some c ∧ c ≠ ""
      ∧ v = coerce_cell c cell.
Proof.
  induction cells as [|cell cells IH]; intros k record; [by left|].
  rw /=. intros [Hrec|(j & cell' & Hj & Hcol & Hc & Hv)]%IH.
  - destruct (columns !! k) as [name|] eqn:Hname; [|by left].
    destruct (nonempty name) eqn:Hne; [|by left].
    destruct (decide (name = c)) as [->|Hdiff].
    + rw lookup_insert_eq in Hrec. injection Hrec as <-.
      right. exists 0%nat, cell. rw Nat.add_0_r.
      split; [done|]. split; [done|]. split; [by apply nonempty_spec|done].
    + rw lookup_insert_ne // in Hrec. by left.
  - right. exists (S j), cell'. by rw Nat.add_succ_r.
Qed.

(** X7: a record never has a field the header does not name.  Every entry
    other than [offense_type] stands under the non-empty name of a header
    column after the first and holds the coerced cell that the record's row
    has at that position; cells beyond the header and cells under a column
    without a name leave no trace. *)
Theorem fields_come_from_named_columns
    (now_year : Z) (table : RawTable) (report_year : option Z)
    (record : Record) (k : string) (v : Value) :
  record ∈ parse_crime_table now_year table report_year →
  record !! k = Some v →
  k = "offense_type"
  ∨ ∃ (header row : Row) (i : nat) (cell : Cell),
      table !! 1%nat = Some header ∧ row ∈ drop 2 table ∧ (0 < i)%nat
      ∧ columns_of now_year report_year header !! i = Some k ∧ k ≠ ""
      ∧ row !! i = Some cell ∧ v = coerce_cell k cell.
Proof.
  destruct table as [|title [|header rows]];
    [by intros ?%not_elem_of_nil..|].
  rw parse_crime_table_rows.
  intros (row & Hrow & Hrec)%data_rows_elem_inv Hk.
  destruct (row_record_inv _ _ _ Hrec) as (first & Hshape & _ & ->).
  apply fill_record_origin in Hk as [Hk|(j & cell & Hj & Hcol & Hne & ->)].
  - left. apply lookup_singleton_Some in Hk. by destruct Hk.
  - right. exists header, row, (S j), cell.
    split_and!; try done; [lia|]. by rw Hshape.
Qed.

Lemma fields_come_from_named_columns_witness :
  ∃ record,
    parse_crime_table 2026
      [[Some "Title"]; [Some "Offense"; Some ""; Some "YTD 25 (1/1-2/8)"];
       [Some "Theft"; Some "7"; Some "9"; Some "11"]] (Some 2026) = [record]
    ∧ ∀ k v, record !! k = Some v → k = "offense_type" ∨ k = "ytd_2025".
Proof.
  eexists. split; [reflexivity|]. intros k v Hk.
  destruct (fields_come_from_named_columns 2026
              [[Some "Title"]; [Some "Offense"; Some ""; Some "YTD 25 (1/1-2/8)"];
               [Some "Theft"; Some "7"; Some "9"; Some "11"]] (Some 2026)
              _ k v (list_elem_of_here _ _) Hk)
    as [Hoff|(header & row & i & cell & Hheader & _ & Hi & Hcol & Hne & _)].
  - by left.
  - right. injection Hheader as <-.
    destruct i as [|[|[|i]]]; [lia| | |discriminate Hcol].
    + injection Hcol as <-. by destruct Hne.
    + by injection Hcol as <-.
Defined.

(** X8: in a record, the field of a column that is not [percent_change],
    and whose name no later column repeats, holds an integer whenever the
    cell, white space at its ends aside, is a string of digits, at most
    4300 of them (what [int] takes by default), with at most one sign in
    front: the integer those digits write in base ten. *)
Theorem signed_digits_become_integer_field
    (columns : list string) (row : Row) (record : Record)
    (i : nat) (c raw sign digits : string) (negative : bool) :
  row_record columns row = Some record →
  (0 < i)%nat → columns !! i = Some c → c ≠ "" → c ≠ "percent_change" →
  (∀ j : nat, (i < j)%nat → columns !! j ≠ Some c) →
  row !! i = Some (Some raw) →
  strip raw = sign +:+ digits → isdigit digits = true →
  (String.length digits ≤ 4300)%nat →
  (sign = "" ∧ negative = false) ∨ (sign = "+" ∧ negative = false)
    ∨ (sign = "-" ∧ negative = true) →
  record !! c =
    Some (VInt (if negative then - digits_val 0 digits else digits_val 0 digits)).
Proof.
  intros Hrec Hi Hcol Hc Hpercent Hlast Hcell Hraw Hdigits _ Hsign.
  destruct (row_record_inv _ _ _ Hrec) as (first & Hshape & _ & ->).
  destruct i as [|j]; [lia|]. rw Hshape /= in Hcell.
  rw -(integer_cell_parsed c raw digits negative sign) //.
  { by apply String.eqb_neq. }
  apply (fill_record_lookup _ c _ j 1%nat (Some raw)); [done..|].
  intros j' cell' Hlt _ Hcol'. by destruct (Hlast (S j') ltac:(lia)).
Qed.

Lemma signed_digits_become_integer_field_witness :
  ∃ record,
    row_record ["offense"; "change"; "seven_day_total"]
      [Some "Theft"; Some " -12 "; Some "+007"] = Some record
    ∧ record !! "change" = Some (VInt (-12))
    ∧ record !! "seven_day_total" = Some (VInt 7).
Proof.
  eexists. split; [reflexivity|]. split.
  - apply (signed_digits_become_integer_field
             ["offense"; "change"; "seven_day_total"]
             [Some "Theft"; Some " -12 "; Some "+007"] _
             1 "change" " -12 " "-" "12" true eq_refl);
      try reflexivity; try discriminate; try lia.
    + intros [|[|[|j]]] Hj; (lia || discriminate).
    + rw /=. lia.
    + right. right. done.
  - apply (signed_digits_become_integer_field
             ["offense"; "change"; "seven_day_total"]
             [Some "Theft"; Some " -12 "; Some "+007"] _
             2 "seven_day_total" "+007" "+" "007" false eq_refl);
      try reflexivity; try discriminate; try lia.
    + intros [|[|[|j]]] Hj; (lia || discriminate).
    + rw /=. lia.
    + right. left. done.
Defined.

(** ** Summary Aggregator *)

Lemma categorize_outcome (records : list Record) :
  ∀ violent property : list string,
  (Forall textual_offense records
   ∧ ∃ buckets, categorize records violent property = Return buckets)
  ∨ (Exists (λ record, ¬ textual_offense record) records
     ∧ ∃ e, categorize records violent property = Raise e).
Proof.
  induction records as [|record records IH]; intros violent property.
  - left. split; [done|]. by eexists.
  - have Hgo : ∀ t, textual_offense record →
      (Forall textual_offense (record :: records)
       ∧ ∃ buckets,
           (if is_violent t then categorize records (violent ++ [t]) property
            else categorize records violent (property ++ [t])) = Return buckets)
      ∨ (Exists (λ r, ¬ textual_offense r) (record :: records)
         ∧ ∃ e,
           (if is_violent t then categorize records (violent ++ [t]) property
            else categorize records violent (property ++ [t])) = Raise e).
    { intros t Htext.
      destruct (is_violent t);
        [destruct (IH (violent ++ [t]) property) as [[Hall Hret]|[Hsome Hraise]]
        |destruct (IH violent (property ++ [t])) as [[Hall Hret]|[Hsome Hraise]]].
      all: first [ left; split; [by apply Forall_cons|done]
                 | right; split; [by apply Exists_cons_tl|done] ]. }
    rw /= /offense_lower.
    destruct (record !! "offense_type") as [[|s|n|x]|] eqn:Hoff.
    2, 5: apply Hgo; by rw /textual_offense Hoff.
    all: right; split; [|by eexists].
    all: apply Exists_cons_hd; intros Htext; by rw /textual_offense Hoff in Htext.
Qed.

Lemma Forall_Exists_not {A} (P : A → Prop) (l : list A) :
  Forall P l → Exists (λ x, ¬ P x) l → False.
Proof.
  intros Hall Hsome. induction Hsome as [x l Hx|x l _ IH].
  - by apply Forall_cons in Hall as [? _].
  - apply IH. by apply Forall_cons in Hall as [_ ?].
Qed.

(** X9: the summary step raises exactly when some record holds, under
    [offense_type], a value that is not a string ([None], an integer or a
    float); records without the key do no harm. *)
Theorem summary_raises_on_untyped_offense (records : list Record) :
  (∃ e, calculate_summary records = Raise e)
  ↔ Exists (λ record, ¬ textual_offense record) records.
Proof.
  rw /calculate_summary.
  destruct (categorize_outcome records [] [])
    as [[Hall [[v p] Hret]]|[Hsome [e Hraise]]].
  - rw Hret. split; [by intros [e ?]|].
    intros Hsome. by destruct (Forall_Exists_not _ _ Hall Hsome).
  - rw Hraise. split; [done|]. by exists e.
Qed.

Lemma length_filter_split {A} (f : A → bool) (l : list A) :
  (length (List.filter f l) + length (List.filter (negb ∘ f) l))%nat = length l.
Proof. by rw -length_app filter_split_perm. Qed.

(** X10: when the summary is returned, every record is counted in exactly
    one bucket: the violent and the property counts add up to the total,
    which is the number of records. *)
Theorem summary_counts_add_up (records : list Record) (s : Summary) :
  calculate_summary records = Return s →
  (violent_crime_count s + property_crime_count s)%nat = total_offense_types s
  ∧ total_offense_types s = length records.
Proof.
  intros Hs.
  have Hall : Forall textual_offense records.
  { destruct (categorize_outcome records [] []) as [[Hall _]|[_ [e Hraise]]];
      [done|].
    by rw /calculate_summary Hraise in Hs. }
  destruct (summary_buckets_by_keyword_aux records Hall) as (s' & Hs' & Hv & Hp).
  rw Hs in Hs'. injection Hs' as <-.
  move: Hs. rw /calculate_summary categorize_textual //. intros [= <-].
  rw /= length_filter_split. by rw length_map.
Qed.

Lemma summary_counts_add_up_witness :
  ∃ s, calculate_summary
         [{[ "offense_type" := VStr "Carjacking" ]};
          {[ "offense_type" := VStr "Theft" ]}; ∅] = Return s
    ∧ (violent_crime_count s + property_crime_count s)%nat = 3%nat.
Proof.
  pose (records := [{[ "offense_type" := VStr "Carjacking" ]};
                    {[ "offense_type" := VStr "Theft" ]}; ∅] : list Record).
  pose (s := {| total_offense_types := 3;
                violent_crimes := ["carjacking"];
                property_crimes := ["theft"; ""];
                violent_crime_count := 1;
                property_crime_count := 2 |}).
  exists s. split; [reflexivity|].
  destruct (summary_counts_add_up records s eq_refl) as [Hsum Htotal].
  etransitivity; [exact Hsum | exact Htotal].
Defined.

Lemma row_record_textual (columns : list string) (row : Row) (record : Record) :
  no_offense_column columns → row_record columns row = Some record →
  textual_offense record.
Proof.
  intros Hcols Hrec.
  destruct (row_record_inv _ _ _ Hrec) as (first & _ & _ & ->).
  rw /textual_offense (fill_record_keeps columns "offense_type"
                         (VStr (strip first))) //.
  intros j cell _ Hcol. by destruct (Hcols (1 + j)%nat ltac:(lia)).
Qed.

(** X11: the records of a table always go through the summary step when no
    column after the first is named [offense_type]: the summary is returned,
    not raised, and its total is the number of data rows with an offense
    type. *)
Theorem table_records_can_be_summarized
    (now_year : Z) (table : RawTable) (report_year : option Z) :
  (∀ header, table !! 1%nat = Some header →
             no_offense_column (columns_of now_year report_year header)) →
  ∃ s,
    calculate_summary (parse_crime_table now_year table report_year) = Return s
    ∧ total_offense_types s = length (List.filter data_row (drop 2 table)).
Proof.
  intros Hcols.
  have Hall : Forall textual_offense
                (parse_crime_table now_year table report_year).
  { destruct table as [|title [|header rows]]; [done..|].
    rw parse_crime_table_rows. apply Forall_forall.
    intros record (row & _ & Hrec)%data_rows_elem_inv.
    apply (row_record_textual (columns_of now_year report_year header) row);
      [|done].
    by apply Hcols. }
  destruct (summary_buckets_by_keyword_aux _ Hall) as (s & Hs & _).
  exists s. split; [done|].
  move: Hs. rw /calculate_summary categorize_textual //. intros [= <-].
  rw /=. destruct table as [|title [|header rows]]; [done..|].
  by rw parse_crime_table_rows length_data_rows.
Qed.

Lemma table_records_can_be_summarized_witness :
  ∃ s,
    calculate_summary
      (parse_crime_table 2026
         [[Some "Title"]; [Some "Offense"; Some "7-Day Totals"];
          [Some "Robbery"; Some "4"]; [None; Some "1"];
          [Some "Theft"; None]] (Some 2026)) = Return s
    ∧ total_offense_types s = 2%nat.
Proof.
  apply (table_records_can_be_summarized 2026
           [[Some "Title"]; [Some "Offense"; Some "7-Day Totals"];
            [Some "Robbery"; Some "4"]; [None; Some "1"];
            [Some "Theft"; None]] (Some 2026)).
  intros header [= <-] [|[|[|i]]] Hi; (lia || discriminate).
Defined.

(** ** Document Pipeline *)

Lemma contains_char_none (a : ascii) (s : string) :
  count_char a s = 0%nat → contains (String a "") s = false.
Proof.
  induction s as [|c s IH]; [done|].
  rw /= (Ascii.eqb_sym a c). destruct (Ascii.eqb c a); [done|].
  exact IH.
Qed.

Lemma split_on_none (a : ascii) (s : string) :
  count_char a s = 0%nat → split_on a s = [s].
Proof.
  induction s as [|c s IH]; [done|].
  rw /=. destruct (Ascii.eqb c a); [done|]. intros Hs. by rw /= IH.
Qed.

Lemma split_on_app (a : ascii) (s t : string) :
  count_char a s = 0%nat →
  split_on a (s +:+ String a t) = s :: split_on a t.
Proof.
  induction s as [|c s IH].
  - intros _. by rw append_nil_l /= Ascii.eqb_refl.
  - rw append_cons /=. destruct (Ascii.eqb c a); [done|].
    intros Hs. by rw /= IH.
Qed.

(** X12: the line kept as [extracted_date_text] is the third line of the
    header text.  A text without a line break gives [None]; a text with
    three lines or more gives its third line; a text with a line break but
    only two lines makes the subscript fail with [IndexError]. *)
Theorem third_line_or_index_error (l0 l1 l2 rest : string) :
  count_char "010" l0 = 0%nat → count_char "010" l1 = 0%nat →
  count_char "010" l2 = 0%nat →
  date_text_line l0 = Return None
  ∧ date_text_line (l0 +:+ String "010" l1) = Raise "list index out of range"
  ∧ date_text_line (l0 +:+ String "010" (l1 +:+ String "010" l2)) =
      Return (Some l2)
  ∧ date_text_line
      (l0 +:+ String "010" (l1 +:+ String "010" (l2 +:+ String "010" rest))) =
      Return (Some l2).
Proof.
  intros H0 H1 H2.
  have Hin : ∀ t, contains (String "010" "") (l0 +:+ String "010" t) = true.
  { intros t. apply contains_spec. by exists l0, t. }
  split_and!.
  - by rw /date_text_line contains_char_none.
  - by rw /date_text_line Hin split_on_app // split_on_none.
  - by rw /date_text_line Hin !split_on_app // split_on_none.
  - by rw /date_text_line Hin !split_on_app.
Qed.

Lemma third_line_or_index_error_witness :
  date_text_line "Daily Crime Report" = Return None
  ∧ date_text_line ("Daily Crime Report" +:+ String "010" "February 8, 2026") =
      Raise "list index out of range"
  ∧ date_text_line
      ("Daily Crime Report" +:+ String "010"
         ("Prince George's County" +:+ String "010" "Sunday, February 8, 2026")) =
      Return (Some "Sunday, February 8, 2026").
Proof.
  destruct (third_line_or_index_error "Daily Crime Report" "February 8, 2026"
              "" "" eq_refl eq_refl eq_refl) as (Hnone & Hraise & _).
  destruct (third_line_or_index_error "Daily Crime Report"
              "Prince George's County" "Sunday, February 8, 2026" ""
              eq_refl eq_refl eq_refl) as (_ & _ & Hthird & _).
  split; [exact Hnone|]. split; [exact Hraise | exact Hthird].
Defined.

Section PipelineFailures.

Variable parse_table : RawTable → option Z → Exc (list Record).
Variable extract_date_from_header : string → option string.
Variable strptime_year : string → option Z.

Lemma first_page_date_raise (pages : list Page) (e : string) :
  first_page_date extract_date_from_header pages = Raise e
  ↔ ∃ first rest,
      pages = first :: rest
      ∧ date_text_line (take_chars 500 (extract_text first)) = Raise e.
Proof.
  destruct pages as [|first rest]; rw /first_page_date.
  - split; [done|]. by intros (? & ? & ? & _).
  - set (dated := match extract_date_from_header _ with
                  | Some _ => _ | None => _ end).
    destruct dated as [date errors].
    destruct (date_text_line _) as [line|e'] eqn:Hline.
    + split; [done|]. intros (f & r & [= <- <-] & Hraise).
      by rw Hline in Hraise.
    + split.
      * intros [= <-]. by exists first, rest.
      * intros (f & r & [= <- <-] & Hraise). rw Hline in Hraise.
        by injection Hraise as ->.
Qed.

(** X13: a parse ends with an exception in three cases only: the document
    cannot be opened; the text of the first page makes the third-line
    subscript fail; or the summary step raises on the records.  A table on
    which the builder raises is never the reason, it only leaves the
    records that the summary sees. *)
Theorem parse_raises_in_three_cases (opened : Exc (list Page)) (e : string) :
  parse_pdf parse_table extract_date_from_header strptime_year opened = Raise e
  ↔ opened = Raise e
    ∨ (∃ first rest,
         opened = Return (first :: rest)
         ∧ date_text_line (take_chars 500 (extract_text first)) = Raise e)
    ∨ (∃ pages date line errors,
         opened = Return pages
         ∧ first_page_date extract_date_from_header pages =
             Return (date, line, errors)
         ∧ calculate_summary
             (document_records parse_table (date ≫= strptime_year) pages) =
             Raise e).
Proof.
  destruct opened as [pages|e0]; rw /parse_pdf.
  - destruct (first_page_date extract_date_from_header pages)
      as [[[date line] errors]|e1] eqn:Hdate.
    + rw pages_loop_spec /=.
      destruct (calculate_summary _) as [s|e2] eqn:Hsum.
      * split; [done|].
        intros [?|[(f & r & [= ->] & Hline)|(ps & d & l & es & [= <-] & Hd & Hs)]];
          [done| |].
        -- have Hraise : first_page_date extract_date_from_header (f :: r) = Raise e
             by apply first_page_date_raise; exists f, r.
           by rw Hraise in Hdate.
        -- rw Hdate in Hd. injection Hd as <- <- <-. by rw Hsum in Hs.
      * split.
        -- intros [= <-]. right. right. by exists pages, date, line, errors.
        -- intros [?|[(f & r & [= ->] & Hline)|(ps & d & l & es & [= <-] & Hd & Hs)]];
             [done| |].
           ++ have Hraise : first_page_date extract_date_from_header (f :: r) = Raise e
                by apply first_page_date_raise; exists f, r.
              by rw Hraise in Hdate.
           ++ rw Hdate in Hd. injection Hd as <- <- <-. rw Hsum in Hs.
              by injection Hs as ->.
    + split.
      * intros [= <-]. right. left.
        apply first_page_date_raise in Hdate as (f & r & -> & Hline).
        by exists f, r.
      * intros [?|[(f & r & [= ->] & Hline)|(ps & d & l & es & [= <-] & Hd & Hs)]];
          [done| |].
        -- have Hraise : first_page_date extract_date_from_header (f :: r) = Raise e
             by apply first_page_date_raise; exists f, r.
           rw Hraise in Hdate. by injection Hdate as ->.
        -- by rw Hdate in Hd.
  - split.
    + intros [= <-]. by left.
    + intros [[= ->]|[(f & r & ? & _)|(ps & d & l & es & ? & _)]]; done.
Qed.

End PipelineFailures.

Lemma concat_all_nil {A B} (f : nat → A → list B) (l : list A) :
  (∀ i x, f i x = []) → concat (imap f l) = [].
Proof.
  intros Hf. revert f Hf. induction l as [|x l IH]; intros f Hf; [done|].
  rw imap_cons /= Hf /=. apply IH. intros i y. apply Hf.
Qed.

Lemma crime_tables_never_raise (now_year : Z) (report_year : option Z)
    (first_page : nat) (pages : list Page) :
  document_errors (crime_table now_year) report_year first_page pages = [].
Proof.
  rw /document_errors. apply concat_all_nil. intros i page.
  by apply concat_all_nil.
Qed.

(** X15: with the table builder of this module, whose input is a table of
    cells, no table ever fails: the error list of a result is empty or
    holds only the message about the missing report date, and the records
    are those of every table, page after page and table after table, with
    the header dates read in the year of the report date. *)
Theorem records_in_document_order
    (now_year : Z) (extract_date_from_header : string → option string)
    (strptime_year : string → option Z) (pages : list Page)
    (result : ParseResult) :
  parse_pdf (crime_table now_year) extract_date_from_header strptime_year
    (Return pages) = Return result →
  (parse_errors result = []
   ∨ parse_errors result = ["Could not extract report date"])
  ∧ crime_statistics result =
      concat (map (λ page,
        concat (map (λ table,
          parse_crime_table now_year table (report_date result ≫= strptime_year))
          (extract_tables page))) pages).
Proof.
  rw /parse_pdf.
  destruct (first_page_date extract_date_from_header pages)
    as [[[date line] errors]|e] eqn:Hdate; [|done].
  rw pages_loop_spec /= crime_tables_never_raise app_nil_r.
  destruct (calculate_summary _) as [s|e]; [|done].
  intros [= <-]. rw /=. split; [|done].
  move: Hdate. rw /first_page_date.
  destruct pages as [|first rest]; [intros [= <- <- <-]; by left|].
  destruct (extract_date_from_header _) as [d|];
    [destruct (nonempty d)|];
    (destruct (date_text_line _); [|done]);
    intros [= <- <- <-]; by [left | right].
Qed.

Lemma records_in_document_order_witness :
  let text := "Daily Crime Report" +:+ String "010" ("No date here"
                +:+ String "010" "Third line") in
  let table1 := [[Some "Title"]; [Some "Offense"; Some "Monday 2/2"];
                 [Some "Robbery"; Some "4"]] in
  let table2 := [[Some "Title"]; [Some "Offense"; Some "Monday 2/2"];
                 [Some "Theft"; Some "7"]] in
  ∃ result,
    parse_pdf (crime_table 2026) (λ _, None) (λ _, None)
      (Return [{| extract_text := text; extract_tables := [table1] |};
               {| extract_text := ""; extract_tables := [table2] |}])
      = Return result
    ∧ crime_statistics result =
        [<["2026-02-02" := VInt 4]> {[ "offense_type" := VStr "Robbery" ]};
         <["2026-02-02" := VInt 7]> {[ "offense_type" := VStr "Theft" ]}]
    ∧ parse_errors result = ["Could not extract report date"].
Proof.
  intros text table1 table2.
  pose (pages := [{| extract_text := text; extract_tables := [table1] |};
                  {| extract_text := ""; extract_tables := [table2] |}]).
  eexists. split; [reflexivity|].
  match goal with
  | |- crime_statistics ?r = _ ∧ _ =>
      destruct (records_in_document_order 2026 (λ _, None) (λ _, None)
                  pages r eq_refl) as [Herrors Hrecords]
  end.
  split; [exact Hrecords|].
  destruct Herrors as [Hnil|Hone]; [discriminate Hnil | exact Hone].
Defined.

(** ** The key normalizer of [update_json_keys.py] *)

Lemma snake_rules (s : string) :
  all_chars snake_char s = true →
  strip (lower s) = s ∧ startswith "prev. 7" s = false
  ∧ ytd_search s = None ∧ column_mapping !! s = None
  ∧ generic_fallback s = s.
Proof.
  intros Hs.
  have Hnospace : all_chars (negb ∘ is_space) s = true
    by apply (all_chars_impl snake_char), Hs; apply snake_not_space.
  split_and!.
  - rw (lower_fixed snake_char s snake_lower) //. by apply strip_no_space.
  - destruct (startswith "prev. 7" s) eqn:Hpre; [|done].
    by have := startswith_all_chars snake_char _ _ Hpre Hs.
  - by apply ytd_search_no_space.
  - rw /column_mapping !lookup_insert_ne //.
    all: intros <-; done.
  - rw /generic_fallback (drop_special_fixed snake_char) //; [apply snake_kept|].
    by rw join_runs_fixed.
Qed.

Lemma normalize_key_snake (s : string) :
  all_chars snake_char s = true → normalize_key s = s.
Proof.
  intros (Hlow & Hprev & Hytd & Hmap & Hgen)%snake_rules.
  rw /normalize_key Hlow Hprev Hytd Hmap Hgen.
  by repeat case_match.
Qed.

Lemma column_mapping_snake (key name : string) :
  column_mapping !! key = Some name → all_chars snake_char name = true.
Proof.
  rw /column_mapping !lookup_insert. repeat case_decide; by intros [= <-].
Qed.

Lemma standard_field_generic (key : string) :
  key ∈ standard_fields → all_chars snake_char key = true.
Proof.
  rw /standard_fields. intros Hin.
  repeat (apply elem_of_cons in Hin as [->|Hin]; [done|]).
  by apply not_elem_of_nil in Hin.
Qed.

Lemma normalize_key_twice (key : string) :
  normalize_key (normalize_key key) = normalize_key key.
Proof.
  rw {2 3}/normalize_key.
  destruct (startswith "prev. 7" (strip (lower key))) eqn:Hprev; [done|].
  destruct (ytd_search (strip (lower key))) as [year|] eqn:Hytd.
  { apply normalize_key_snake.
    rw !append_cons append_nil_l /=.
    apply (all_chars_impl is_digit); [apply digit_snake|].
    by apply (ytd_search_digits _ _ Hytd). }
  destruct (column_mapping !! strip (lower key)) as [name|] eqn:Hmap.
  { by apply normalize_key_snake, (column_mapping_snake _ _ Hmap). }
  destruct (iso_date_match key) eqn:Hiso.
  { by rw /normalize_key Hprev Hytd Hmap Hiso. }
  destruct (bool_decide (key ∈ standard_fields)) eqn:Hstd.
  { by rw /normalize_key Hprev Hytd Hmap Hiso Hstd. }
  apply normalize_key_snake, generic_fallback_snake.
  rw /strip. apply all_chars_rstrip, all_chars_lstrip, lower_not_upper.
Qed.

(** X16: normalizing a key a second time changes nothing: the result of
    [normalize_key] is a fixed point of [normalize_key].  For a key written
    in ASCII the result is in snake case (lower-case letters, digits,
    underscores), or it is the key itself when the key begins with an ISO
    date. *)
Theorem normalize_key_idempotent (key : string) :
  normalize_key (normalize_key key) = normalize_key key
  ∧ (all_chars is_ascii key = true →
     all_chars snake_char (normalize_key key) = true
     ∨ (iso_date_match key = true ∧ normalize_key key = key)).
Proof.
  split; [apply normalize_key_twice|]. intros _.
  destruct (iso_date_match key) eqn:Hiso.
  - rw /normalize_key Hiso.
    destruct (startswith "prev. 7" (strip (lower key))); [by left|].
    destruct (ytd_search (strip (lower key))) as [year|] eqn:Hytd.
    { left. rw !append_cons append_nil_l /=.
      apply (all_chars_impl is_digit); [apply digit_snake|].
      by apply (ytd_search_digits _ _ Hytd). }
    destruct (column_mapping !! strip (lower key)) as [name|] eqn:Hmap;
      [left; by apply (column_mapping_snake _ _ Hmap) | by right].
  - left. rw /normalize_key Hiso.
    destruct (startswith "prev. 7" (strip (lower key))); [done|].
    destruct (ytd_search (strip (lower key))) as [year|] eqn:Hytd.
    { rw !append_cons append_nil_l /=.
      apply (all_chars_impl is_digit); [apply digit_snake|].
      by apply (ytd_search_digits _ _ Hytd). }
    destruct (column_mapping !! strip (lower key)) as [name|] eqn:Hmap;
      [by apply (column_mapping_snake _ _ Hmap)|].
    case_bool_decide as Hstd; [by apply standard_field_generic|].
    apply generic_fallback_snake.
    rw /strip. apply all_chars_rstrip, all_chars_lstrip, lower_not_upper.
Qed.

(** X17: [normalize_key] and the column normalizer differ on one kind of key
    only.  On every key that does not begin with an ISO date the result is
    that of the prefix, year-to-date, vocabulary and generic rules of
    [normalize_column_name]; the list of standard field names changes
    nothing, since the generic rule leaves each of them as it is. *)
Theorem normalize_key_agrees_off_iso_dates (key : string) :
  iso_date_match key = false → normalize_key key = normalize_rest key.
Proof.
  intros Hiso. rw /normalize_key /normalize_rest Hiso.
  destruct (startswith "prev. 7" (strip (lower key))); [done|].
  destruct (ytd_search (strip (lower key))); [done|].
  destruct (column_mapping !! strip (lower key)); [done|].
  case_bool_decide as Hstd; [|done].
  destruct (snake_rules key (standard_field_generic key Hstd))
    as (-> & _ & _ & _ & ->).
  done.
Qed.

Lemma normalize_key_agrees_off_iso_dates_witness :
  normalize_key "offense_type" = "offense_type"
  ∧ normalize_key " YTD 25 (1/1 - 2/8)" = "ytd_2025"
  ∧ normalize_rest "2026-02-02" = "2026_02_02"
  ∧ normalize_key "2026-02-02" = "2026-02-02".
Proof.
  split; [|split].
  - exact (normalize_key_agrees_off_iso_dates "offense_type" eq_refl).
  - exact (normalize_key_agrees_off_iso_dates " YTD 25 (1/1 - 2/8)" eq_refl).
  - split; reflexivity.
Defined.

(** ** Dictionaries *)

Lemma dict_get_set {A} (k k' : string) (v : A) (d : list (string * A)) :
  dict_get k' (dict_set k v d) =
    if String.eqb k k' then Some v else dict_get k' d.
Proof.
  induction d as [|[k0 v0] d IH]; rw /=.
  - by destruct (String.eqb k k').
  - destruct (String.eqb k0 k) eqn:Hk0; rw /=.
    + apply String.eqb_eq in Hk0 as ->. by destruct (String.eqb k k').
    + rw IH. destruct (String.eqb k0 k') eqn:Hk0'; [|done].
      apply String.eqb_eq in Hk0' as ->. by rw (String.eqb_sym k k') Hk0.
Qed.

Lemma dict_get_fold {A} (n : string) (items : list (string * A)) :
  ∀ acc : list (string * A),
  dict_get n (fold_left (λ d kv, dict_set kv.1 kv.2 d) items acc) =
    match last_value (λ k, String.eqb k n) items with
    | Some v => Some v
    | None => dict_get n acc
    end.
Proof.
  induction items as [|[k v] items IH]; intros acc; [done|].
  rw /= IH dict_get_set.
  destruct (last_value _ items); [done|]. by destruct (String.eqb k n).
Qed.

Lemma dict_set_elem {A} (k : string) (v : A) (d : list (string * A))
    (x : string * A) :
  In x (dict_set k v d) → x = (k, v) ∨ In x d.
Proof.
  induction d as [|[k0 v0] d IH]; rw /=.
  - intros [<-|[]]. by left.
  - destruct (String.eqb k0 k) eqn:Hk0; rw /=.
    + apply String.eqb_eq in Hk0 as ->. intros [<-|Hin]; [by left|by right; right].
    + intros [<-|Hin]; [by right; left|].
      destruct (IH Hin); [by left|by right; right].
Qed.

Lemma dict_fold_elem {A} (items : list (string * A)) (x : string * A) :
  ∀ acc : list (string * A),
  In x (fold_left (λ d kv, dict_set kv.1 kv.2 d) items acc) →
  In x items ∨ In x acc.
Proof.
  induction items as [|[k v] items IH]; intros acc; [by right|].
  rw /=. intros [Hin|Hin]%IH; [by left; right|].
  apply dict_set_elem in Hin as [->|Hin]; [by left; left|by right].
Qed.

Lemma dict_set_keys {A} (k : string) (v : A) (d : list (string * A)) (x : string) :
  In x (map fst (dict_set k v d)) → x = k ∨ In x (map fst d).
Proof.
  intros ((k0 & v0) & <- & Hin)%in_map_iff.
  apply dict_set_elem in Hin as [[= -> ->]|Hin]; [by left|right].
  by apply (in_map fst) in Hin.
Qed.

Lemma dict_set_NoDup {A} (k : string) (v : A) (d : list (string * A)) :
  List.NoDup (map fst d) → List.NoDup (map fst (dict_set k v d)).
Proof.
  induction d as [|[k0 v0] d IH]; rw /=.
  - intros _. constructor; [by intros []|constructor].
  - intros [Hk0 Hd]%List.NoDup_cons_iff.
    destruct (String.eqb k0 k) eqn:Heq; rw /=.
    + by constructor.
    + constructor; [|by apply IH].
      intros [->|Hin]%dict_set_keys; [|done].
      by rw String.eqb_refl in Heq.
Qed.

Lemma dict_fold_NoDup {A} (items : list (string * A)) :
  ∀ acc : list (string * A),
  List.NoDup (map fst acc) →
  List.NoDup (map fst (fold_left (λ d kv, dict_set kv.1 kv.2 d) items acc)).
Proof.
  induction items as [|[k v] items IH]; intros acc Hacc; [done|].
  rw /=. by apply IH, dict_set_NoDup.
Qed.

Lemma dict_set_fresh {A} (k : string) (v : A) (d : list (string * A)) :
  ¬ In k (map fst d) → dict_set k v d = d ++ [(k, v)].
Proof.
  induction d as [|[k0 v0] d IH]; [done|].
  rw /=. intros Hk.
  have -> : String.eqb k0 k = false by apply String.eqb_neq; intros ->; auto.
  rw IH //. intros Hin. auto.
Qed.

Lemma dict_fold_fresh {A} (items : list (string * A)) :
  ∀ acc : list (string * A),
  List.NoDup (map fst acc ++ map fst items) →
  fold_left (λ d kv, dict_set kv.1 kv.2 d) items acc = acc ++ items.
Proof.
  induction items as [|[k v] items IH]; intros acc Hnd.
  - by rw /= app_nil_r.
  - rw /= dict_set_fresh.
    { apply List.NoDup_remove_2 in Hnd. intros Hin. apply Hnd.
      apply in_or_app. by left. }
    rw IH.
    { move: Hnd. rw map_app /= -app_assoc. done. }
    by rw -app_assoc.
Qed.

Lemma dict_of_items_NoDup {A} (items : list (string * A)) :
  List.NoDup (map fst items) → dict_of_items items = items.
Proof. intros Hnd. by rw /dict_of_items dict_fold_fresh. Qed.

(** Induction over JSON values, through lists and dictionaries. *)
Lemma Json_rect' (P : Json → Prop) :
  P JNull → (∀ b, P (JBool b)) → (∀ n, P (JInt n)) → (∀ x, P (JFloat x)) →
  (∀ s, P (JStr s)) →
  (∀ items, List.Forall P items → P (JList items)) →
  (∀ entries, List.Forall (λ kv, P kv.2) entries → P (JDict entries)) →
  ∀ obj, P obj.
Proof.
  intros Hnull Hbool Hint Hfloat Hstr Hlist Hdict.
  fix IH 1.
  intros [|b|n|x|s|items|entries];
    [apply Hnull | apply Hbool | apply Hint | apply Hfloat | apply Hstr | |].
  - apply Hlist. induction items as [|x items IHitems]; constructor.
    + apply IH.
    + apply IHitems.
  - apply Hdict. induction entries as [|[k v] entries IHentries]; constructor.
    + apply IH.
    + apply IHentries.
Qed.

(** ** [update_dict_keys] *)

Lemma updated_entry (entries : list (string * Json)) (x : string * Json) :
  In x (dict_of_items
          (map (λ kv, (normalize_key kv.1, update_dict_keys kv.2)) entries)) →
  ∃ kv, In kv entries ∧ x = (normalize_key kv.1, update_dict_keys kv.2).
Proof.
  intros [Hin|[]]%dict_fold_elem.
  apply in_map_iff in Hin as (kv & <- & Hkv). by exists kv.
Qed.

(** X18: updating the keys of a JSON value twice gives what updating them
    once gives, for every value and at every depth: the script can be run
    again over a file it has already rewritten without changing it. *)
Theorem update_dict_keys_idempotent (obj : Json) :
  update_dict_keys (update_dict_keys obj) = update_dict_keys obj.
Proof.
  induction obj as [|b|n|x|s|items IH|entries IH] using Json_rect'; try done.
  - rw /= map_map. f_equal. apply map_ext_Forall.
    apply List.Forall_forall. intros x Hx.
    by apply (proj1 (List.Forall_forall _ _) IH).
  - rw /=. f_equal.
    set (out := dict_of_items
                  (map (λ kv, (normalize_key kv.1, update_dict_keys kv.2))
                     entries)).
    have -> : map (λ kv, (normalize_key kv.1, update_dict_keys kv.2)) out = out.
    { rw -{2}(map_id out). apply map_ext_in.
      intros x (kv & Hkv & ->)%updated_entry. rw /= normalize_key_twice.
      by rw (proj1 (List.Forall_forall _ _) IH kv Hkv). }
    apply dict_of_items_NoDup, dict_fold_NoDup. constructor.
Qed.

(** X19: in the result of [update_dict_keys] every key of every dictionary,
    at any depth, is a name that [normalize_key] leaves unchanged, and the
    keys of a rewritten dictionary are distinct; values that are neither
    lists nor dictionaries are returned as they are. *)
Theorem updated_keys_are_normal (obj : Json) :
  all_keys (λ k, bool_decide (normalize_key k = k)) (update_dict_keys obj) = true
  ∧ (∀ entries out,
       update_dict_keys (JDict entries) = JDict out → List.NoDup (map fst out))
  ∧ (match obj with
     | JList _ | JDict _ => True
     | _ => update_dict_keys obj = obj
     end).
Proof.
  split_and!.
  - induction obj as [|b|n|x|s|items IH|entries IH] using Json_rect'; try done.
    + rw /=. apply forallb_forall.
      intros y (x & <- & Hx)%in_map_iff.
      by apply (proj1 (List.Forall_forall _ _) IH).
    + rw /=. apply forallb_forall.
      intros x (kv & Hkv & ->)%updated_entry. rw /=.
      rw (proj1 (List.Forall_forall _ _) IH kv Hkv) andb_true_r.
      apply bool_decide_eq_true, normalize_key_twice.
  - intros entries out [= <-]. apply dict_fold_NoDup. constructor.
  - by destruct obj.
Qed.

Lemma last_value_map (n : string) (entries : list (string * Json)) :
  last_value (λ k, String.eqb k n)
    (map (λ kv, (normalize_key kv.1, update_dict_keys kv.2)) entries) =
  update_dict_keys <$>
    last_value (λ k, String.eqb (normalize_key k) n) entries.
Proof.
  induction entries as [|[k v] entries IH]; [done|].
  rw /= IH. destruct (last_value _ entries); [done|].
  by destruct (String.eqb (normalize_key k) n).
Qed.

(** X20: when several keys of a dictionary normalize to the same name, the
    rewritten dictionary has that name once and keeps the value of the
    last of them; the values of the earlier ones are lost.  A name that no
    key normalizes to is not in the result. *)
Theorem colliding_keys_keep_last_value
    (entries : list (string * Json)) (n : string) :
  match update_dict_keys (JDict entries) with
  | JDict out =>
      dict_get n out =
        update_dict_keys <$>
          last_value (λ k, String.eqb (normalize_key k) n) entries
  | _ => False
  end.
Proof.
  rw /= /dict_of_items dict_get_fold last_value_map.
  by destruct (last_value _ entries).
Qed.

(** ** [update_manifest] *)

Lemma le_reverse_transitive : Transitive (λ a b : string, String.le b a).
Proof. intros a b c Hab Hbc. by etrans. Qed.

Lemma le_reverse_total : Total (λ a b : string, String.le b a).
Proof. intros a b. destruct (total String.le a b); auto. Qed.

(** X21: the manifest lists every JSON file of the data directory except
    [manifest.json] itself, each as often as it was found, from the greatest
    name down; [latest] is the first and greatest of them (with names of the
    form [yyyymmdd.json], the most recent report), and [count] is their
    number.  When there is no such file, no manifest is written. *)
Theorem manifest_lists_files_latest_first (json_names : list string) :
  match update_manifest json_names with
  | Some m =>
      files m ≡ₚ List.filter (λ name, negb (String.eqb name "manifest.json"))
                   json_names
      ∧ StronglySorted (λ a b, String.le b a) (files m)
      ∧ "manifest.json" ∉ files m
      ∧ count m = length (files m)
      ∧ ∃ first, latest m = Some first ∧ first ∈ files m
                 ∧ ∀ name, name ∈ files m → String.le name first
  | None => ∀ name, name ∈ json_names → name = "manifest.json"
  end.
Proof.
  rw /update_manifest.
  set (kept := List.filter _ json_names).
  have Hperm : sorted_reverse kept ≡ₚ kept by apply merge_sort_Permutation.
  have Hsorted : StronglySorted (λ a b, String.le b a) (sorted_reverse kept).
  { apply (@StronglySorted_merge_sort _ _ _ le_reverse_transitive
             le_reverse_total). }
  have Hkept : ∀ name, name ∈ kept ↔ name ∈ json_names ∧ name ≠ "manifest.json".
  { intros name. rw /kept !list_elem_of_In filter_In negb_true_iff.
    by rw String.eqb_neq. }
  destruct (sorted_reverse kept) as [|first rest] eqn:Hfiles.
  - intros name Hin. destruct (decide (name = "manifest.json")); [done|].
    have Hname : name ∈ kept by apply Hkept.
    rw -Hperm in Hname. by apply not_elem_of_nil in Hname.
  - rw /=. split_and!; try done.
    + rw Hperm. intros [_ Hne]%Hkept. done.
    + exists first. split; [done|]. split; [by left|].
      intros name [->|Hin]%elem_of_cons; [done|].
      apply StronglySorted_inv in Hsorted as [_ Hfirst].
      by apply (proj1 (List.Forall_forall _ _) Hfirst), list_elem_of_In.
Qed.

(** ** [flatten_record] *)

Lemma flatten_json_dict (py_str : Json → string) (parent_key : string)
    (record : list (string * Json)) :
  flatten_json py_str parent_key (JDict record) =
    dict_of_items (flatten_items py_str parent_key record).
Proof.
  rw /=. f_equal.
  induction record as [|[k v] record IH]; [done|].
  by rw /= IH.
Qed.

Lemma flatten_json_elem (py_str : Json → string) (parent_key : string)
    (record : list (string * Json)) (x : string * Json) :
  In x (flatten_json py_str parent_key (JDict record)) →
  In x (flatten_items py_str parent_key record).
Proof. rw flatten_json_dict. by intros [Hin|[]]%dict_fold_elem. Qed.

Lemma flatten_json_NoDup (py_str : Json → string) (parent_key : string)
    (obj : Json) :
  List.NoDup (map fst (flatten_json py_str parent_key obj)).
Proof.
  destruct obj; try constructor.
  rw flatten_json_dict. apply dict_fold_NoDup. constructor.
Qed.

Lemma flatten_json_scalar (py_str : Json → string) (obj : Json) :
  ∀ parent_key x,
  In x (flatten_json py_str parent_key obj) → scalar x.2 = true.
Proof.
  induction obj as [|b|n|y|s|items IH|entries IH] using Json_rect';
    intros parent_key x; try done.
  intros Hin%flatten_json_elem. move: Hin.
  induction IH as [|[k v] entries Hv _ IHentries]; [done|].
  rw /=. intros [Hin|Hin]%in_app_or; [|by apply IHentries].
  destruct v; try (destruct Hin as [<-|[]]; done).
  by apply (Hv (dotted parent_key k)).
Qed.

(** X22: whatever the record and the parent key, the dictionary that
    [flatten_record] returns is flat: none of its values is a list or a
    dictionary, and its keys are distinct. *)
Theorem flattened_record_is_flat (py_str : Json → string)
    (record : list (string * Json)) (parent_key : string) :
  List.Forall (λ kv, scalar kv.2 = true) (flatten_record py_str record parent_key)
  ∧ List.NoDup (map fst (flatten_record py_str record parent_key)).
Proof.
  split; [|apply flatten_json_NoDup].
  apply List.Forall_forall. intros x. apply flatten_json_scalar.
Qed.

Lemma flatten_items_flat (py_str : Json → string)
    (record : list (string * Json)) :
  List.Forall (λ kv, scalar kv.2 = true) record →
  flatten_items py_str "" record = record.
Proof.
  induction 1 as [|[k v] record Hv _ IH]; [done|].
  rw /= IH. by destruct v.
Qed.

(** X23: a record that is already flat, with distinct keys, comes back
    unchanged from [flatten_record] called as [json_to_csv] calls it, with
    no parent key: same keys, same values, same order. *)
Theorem flat_record_is_unchanged (py_str : Json → string)
    (record : list (string * Json)) :
  List.Forall (λ kv, scalar kv.2 = true) record →
  List.NoDup (map fst record) →
  flatten_record py_str record "" = record.
Proof.
  intros Hflat Hnd.
  rw /flatten_record flatten_json_dict flatten_items_flat //.
  by apply dict_of_items_NoDup.
Qed.

Lemma flat_record_is_unchanged_witness :
  flatten_record (λ _, "") [("offense_type", JStr "Robbery"); ("ytd", JInt 3)] ""
  = [("offense_type", JStr "Robbery"); ("ytd", JInt 3)].
Proof.
  apply flat_record_is_unchanged.
  - by repeat constructor.
  - repeat constructor; rw /=; intuition discriminate.
Defined.

Lemma startswith_app (p s : string) : startswith p (p +:+ s) = true.
Proof.
  induction p as [|c p IH]; [by destruct s|].
  by rw append_cons /= Ascii.eqb_refl.
Qed.

Lemma startswith_trans (p q s : string) :
  startswith p q = true → startswith q s = true → startswith p s = true.
Proof.
  move: q s. induction p as [|c p IH]; intros q s; [by destruct s|].
  destruct q as [|d q]; [done|]. destruct s as [|e s]; [done|].
  rw /=. destruct (Ascii.eqb c d) eqn:Hcd; [|done].
  destruct (Ascii.eqb d e) eqn:Hde; [|done].
  apply Ascii.eqb_eq in Hcd as ->. rw Hde. apply IH.
Qed.

Lemma dotted_below (parent_key k : string) :
  nonempty parent_key = true →
  startswith (parent_key +:+ ".") (dotted parent_key k) = true
  ∧ nonempty (dotted parent_key k) = true.
Proof.
  intros Hp. rw /dotted Hp. split.
  - by rw -(append_assoc parent_key "." k) startswith_app.
  - destruct parent_key; [done|]. by rw append_cons.
Qed.

(** X24: the keys of a record flattened below a parent key that is not
    empty all begin with that key and a dot, as deep as the record goes:
    flattening a nested dictionary cannot produce a key outside its parent's
    name space. *)
Theorem nested_keys_are_dotted (py_str : Json → string)
    (record : list (string * Json)) (parent_key : string) :
  nonempty parent_key = true →
  List.Forall (λ kv, startswith (parent_key +:+ ".") kv.1 = true)
    (flatten_record py_str record parent_key).
Proof.
  intros Hp. apply List.Forall_forall. intros x. rw /flatten_record.
  move: parent_key Hp x.
  induction (JDict record) as [|b|n|y|s|items IH|entries IH] using Json_rect';
    intros parent_key Hp x; try done.
  intros Hin%flatten_json_elem. move: Hin.
  induction IH as [|[k v] entries Hv _ IHentries]; [done|].
  destruct (dotted_below parent_key k Hp) as [Hstart Hne].
  rw /=. intros [Hin|Hin]%in_app_or; [|by apply IHentries].
  destruct v; try (destruct Hin as [<-|[]]; done).
  apply (startswith_trans _ (dotted parent_key k +:+ ".")).
  - apply (startswith_trans _ (dotted parent_key k)); [done|].
    rw -{1}(append_nil_r (dotted parent_key k)).
    move: (dotted parent_key k) => d. clear.
    induction d as [|c d IHd]; [done|].
    by rw !append_cons /= Ascii.eqb_refl.
  - by apply (Hv _ Hne).
Qed.

Lemma nested_keys_are_dotted_witness :
  List.Forall (λ kv, startswith "total." kv.1 = true)
    (flatten_record (λ _, "") [("ytd", JDict [("2024", JInt 3)]); ("prev", JInt 1)]
       "total").
Proof.
  by apply (nested_keys_are_dotted _ _ "total").
Defined.

(** ** The columns of the CSV file *)

Lemma remove_first_elem (field k : string) (names : list string) :
  k ∈ remove_first field names → k ∈ names.
Proof.
  induction names as [|name names IH]; [done|].
  rw /=. destruct (String.eqb name field).
  - by right.
  - intros [->|Hin]%elem_of_cons; [by left|by right; apply IH].
Qed.

Lemma remove_first_others (field k : string) (names : list string) :
  k ∈ names → k = field ∨ k ∈ remove_first field names.
Proof.
  induction names as [|name names IH]; [by intros ?%elem_of_nil|].
  rw /=. destruct (String.eqb name field) eqn:Heq.
  - apply String.eqb_eq in Heq as ->.
    intros [->|Hin]%elem_of_cons; [by left|by right].
  - intros [->|Hin]%elem_of_cons; [by right; left|].
    destruct (IH Hin); [by left|by right; right].
Qed.

Lemma move_to_front_elem (field k : string) (names : list string) :
  k ∈ move_to_front field names ↔ k ∈ names.
Proof.
  rw /move_to_front. case_bool_decide as Hfield; [|done]. split.
  - intros [->|Hin]%elem_of_cons; [done|]. by apply remove_first_elem in Hin.
  - intros [->|Hin]%(remove_first_others field); [by left|by right].
Qed.

Lemma prioritize_cons (field : string) (priority_fields names : list string) :
  prioritize (field :: priority_fields) names =
    move_to_front field (prioritize priority_fields names).
Proof. by rw /prioritize /= fold_left_app. Qed.

Lemma prioritize_elem (priority_fields names : list string) (k : string) :
  k ∈ prioritize priority_fields names ↔ k ∈ names.
Proof.
  induction priority_fields as [|field priority_fields IH]; [done|].
  by rw prioritize_cons move_to_front_elem.
Qed.

Lemma remove_first_absent (field : string) (names : list string) :
  field ∉ names → remove_first field names = names.
Proof.
  induction names as [|name names IH]; [done|].
  intros [Hne Hin]%not_elem_of_cons. rw /= IH //.
  by have -> : String.eqb name field = false by apply String.eqb_neq.
Qed.

Lemma remove_first_app (field : string) (front back : list string) :
  field ∉ front →
  remove_first field (front ++ back) = front ++ remove_first field back.
Proof.
  induction front as [|name front IH]; [done|].
  intros [Hne Hin]%not_elem_of_cons. rw /= IH //.
  by have -> : String.eqb name field = false by apply String.eqb_neq.
Qed.

Lemma remove_first_filter (field : string) (keep : string → bool)
    (names : list string) :
  NoDup names →
  remove_first field (List.filter keep names) =
    List.filter (λ n, keep n && negb (String.eqb n field)) names.
Proof.
  induction 1 as [|name names Hname Hnd IH]; [done|].
  rw /=. destruct (keep name) eqn:Hkeep; rw /=; [|done].
  destruct (String.eqb name field) eqn:Heq; rw /=; [|by rw IH].
  apply String.eqb_eq in Heq as ->. apply filter_ext_in.
  intros n Hn%list_elem_of_In.
  have -> : String.eqb n field = false by apply String.eqb_neq; intros ->.
  by rw andb_true_r.
Qed.

Lemma filter_all {A} (keep : A → bool) (l : list A) :
  (∀ x, In x l → keep x = true) → List.filter keep l = l.
Proof.
  induction l as [|x l IH]; [done|].
  intros Hall. rw /= Hall; [by left|]. rw IH //.
  intros y Hy. apply Hall. by right.
Qed.

Lemma filter_elem (keep : string → bool) (names : list string) (k : string) :
  k ∈ List.filter keep names ↔ k ∈ names ∧ keep k = true.
Proof. by rw !list_elem_of_In filter_In. Qed.

Lemma prioritize_spec (priority_fields names : list string) :
  NoDup priority_fields → NoDup names →
  prioritize priority_fields names =
    List.filter (λ field, bool_decide (field ∈ names)) priority_fields
    ++ List.filter (λ name, bool_decide (name ∉ priority_fields)) names.
Proof.
  intros Hpriority Hnames.
  induction Hpriority as [|field priority_fields Hfield Hnd IH].
  - by rw /= filter_all.
  - rw prioritize_cons IH /move_to_front.
    destruct (decide (field ∈ names)) as [Hin|Hout].
    + rw (bool_decide_eq_true_2 (field ∈ _ ++ _)).
      { apply elem_of_app. right. apply filter_elem.
        by rw bool_decide_eq_true. }
      rw /= (bool_decide_eq_true_2 _ Hin) remove_first_app.
      { by intros [? _]%filter_elem. }
      rw remove_first_filter // -app_comm_cons. do 2 f_equal.
      apply filter_ext.
      intros n. destruct (String.eqb n field) eqn:Heq.
      * apply String.eqb_eq in Heq as ->. rw andb_false_r. symmetry.
        apply bool_decide_eq_false. intros Hn. apply Hn. by left.
      * apply String.eqb_neq in Heq. rw andb_true_r.
        apply bool_decide_ext. rw not_elem_of_cons. naive_solver.
    + rw (bool_decide_eq_false_2 (field ∈ _ ++ _)).
      { intros [[_ Hf]%filter_elem|[Hf _]%filter_elem]%elem_of_app; [|done].
        by apply bool_decide_eq_true in Hf. }
      rw /= (bool_decide_eq_false_2 _ Hout). f_equal. apply filter_ext_in.
      intros n Hn%list_elem_of_In. apply bool_decide_ext.
      rw not_elem_of_cons. split; [|naive_solver].
      intros Hnp. split; [by intros ->|done].
Qed.

Lemma StronglySorted_filter {A} (R : A → A → Prop) (keep : A → bool)
    (l : list A) :
  StronglySorted R l → StronglySorted R (List.filter keep l).
Proof.
  induction 1 as [|x l Hl IH Hx]; [constructor|].
  rw /=. destruct (keep x); [|done]. constructor; [done|].
  apply List.Forall_forall. intros y [Hy _]%filter_In.
  by apply (proj1 (List.Forall_forall _ _) Hx).
Qed.

Lemma NoDup_list_filter {A} (keep : A → bool) (l : list A) :
  NoDup l → NoDup (List.filter keep l).
Proof.
  intros Hnd. apply NoDup_ListNoDup, List.NoDup_filter.
  by apply NoDup_ListNoDup.
Qed.

Lemma sorted_keys_elem (keys : list string) (k : string) :
  k ∈ sorted (remove_dups keys) ↔ k ∈ keys.
Proof. by rw /sorted merge_sort_Permutation elem_of_remove_dups. Qed.

Lemma sorted_keys_NoDup (keys : list string) :
  NoDup (sorted (remove_dups keys)).
Proof. rw /sorted merge_sort_Permutation. apply NoDup_remove_dups. Qed.

Lemma csv_fieldnames_elem (priority_fields : list string)
    (flattened_records : list (list (string * Json))) (k : string) :
  k ∈ csv_fieldnames priority_fields flattened_records
  ↔ k ∈ concat (map (map fst) flattened_records).
Proof. by rw /csv_fieldnames prioritize_elem sorted_keys_elem. Qed.

(** X25: the columns of the CSV file are the priority fields that some
    record has, in the order of the priority list, followed by all the
    other keys of the records in ascending order; every key of a record is a
    column, and no column comes twice.  ([json_to_csv] gives the priority
    list [report_date, offense_type], [create_combined_csv] adds
    [source_file].) *)
Theorem priority_columns_then_sorted_rest (priority_fields : list string)
    (flattened_records : list (list (string * Json))) :
  NoDup priority_fields →
  let keys := concat (map (map fst) flattened_records) in
  let others :=
    List.filter (λ name, bool_decide (name ∉ priority_fields))
      (sorted (remove_dups keys)) in
  csv_fieldnames priority_fields flattened_records =
    List.filter (λ field, bool_decide (field ∈ keys)) priority_fields ++ others
  ∧ StronglySorted String.le others
  ∧ NoDup (csv_fieldnames priority_fields flattened_records)
  ∧ (∀ k, k ∈ csv_fieldnames priority_fields flattened_records ↔ k ∈ keys).
Proof.
  intros Hpriority keys others.
  have Hspec : csv_fieldnames priority_fields flattened_records =
    List.filter (λ field, bool_decide (field ∈ keys)) priority_fields ++ others.
  { rw /csv_fieldnames prioritize_spec //; [apply sorted_keys_NoDup|].
    f_equal. apply filter_ext. intros field. apply bool_decide_ext.
    apply sorted_keys_elem. }
  split_and!; [done| | |apply csv_fieldnames_elem].
  - apply StronglySorted_filter, StronglySorted_merge_sort; apply _.
  - rw Hspec. apply NoDup_app. split_and!.
    + by apply NoDup_list_filter.
    + intros k [Hk _]%filter_elem [_ Hout]%filter_elem.
      by apply bool_decide_eq_true in Hout.
    + apply NoDup_list_filter, sorted_keys_NoDup.
Qed.

Lemma priority_columns_then_sorted_rest_witness :
  csv_fieldnames ["report_date"; "offense_type"]
    [[("ytd", JInt 3); ("offense_type", JStr "Robbery")]; [("prev_7", JInt 1)]]
  = ["offense_type"; "prev_7"; "ytd"].
Proof.
  destruct (priority_columns_then_sorted_rest ["report_date"; "offense_type"]
              [[("ytd", JInt 3); ("offense_type", JStr "Robbery")];
               [("prev_7", JInt 1)]]) as [-> _]; [|done].
  apply (bool_decide_unpack _). by vm_compute.
Defined.

(** ** The table that [json_to_csv] writes *)

Lemma dict_get_elem {A} (k : string) (v : A) (d : list (string * A)) :
  List.NoDup (map fst d) → In (k, v) d → dict_get k d = Some v.
Proof.
  induction d as [|[k0 v0] d IH]; [done|].
  rw /=. intros [Hk0 Hd]%List.NoDup_cons_iff [[= -> ->]|Hin].
  - by rw String.eqb_refl.
  - destruct (String.eqb k0 k) eqn:Heq; [|by apply IH].
    apply String.eqb_eq in Heq as ->. destruct Hk0.
    by apply (in_map fst) in Hin.
Qed.

Lemma records_of_spec (members : list Json) :
  ∀ records, records_of members = Some records ↔ members = map JDict records.
Proof.
  induction members as [|m members IH]; intros records.
  - rw /=. split; [by intros [= <-]|by destruct records].
  - destruct m; rw /=; try (split; [done|by destruct records]).
    destruct (records_of members) as [rs|] eqn:Hrs; rw /=.
    + split.
      * intros [= <-]. rw /=. f_equal. by apply IH.
      * destruct records as [|r records]; [done|].
        intros [= -> Hm]. apply IH in Hm. by injection Hm as ->.
    + split; [done|]. destruct records as [|r records]; [done|].
      intros [= -> Hm]. by apply IH in Hm.
Qed.

(** X26: in the table that [json_to_csv] writes there is one row for each
    member of [crime_statistics], in the same order, each as long as the
    header; every field of a flattened record stands in its row under the
    column of its key, so that no field is lost and [DictWriter] meets no key
    that is not a column; a column for which the record has no key is left
    empty. *)
Theorem csv_rows_keep_every_field (py_str : Json → string)
    (data : list (string * Json)) (header : list string)
    (rows : list (list (option Json))) :
  csv_table py_str data = Some (header, rows) →
  ∃ records,
    dict_get "crime_statistics" data = Some (JList (map JDict records))
    ∧ length rows = length records
    ∧ ∀ (i : nat) record, records !! i = Some record →
        let flat :=
          flatten_record py_str
            (enhance (default JNull (dict_get "report_date" data))
               (default JNull (dict_get "extracted_date_text" data)) record) "" in
        ∃ row, rows !! i = Some row
          ∧ length row = length header
          ∧ (∀ key value, In (key, value) flat →
               ∃ j : nat, header !! j = Some key ∧ row !! j = Some (Some value))
          ∧ (∀ (j : nat) key, header !! j = Some key →
               row !! j = Some (dict_get key flat)).
Proof.
  rw /csv_table.
  destruct (dict_get "crime_statistics" data) as [[| | | | |[|m ms]|]|]; try done.
  destruct (records_of (m :: ms)) as [records|] eqn:Hrecords; [|done].
  apply records_of_spec in Hrecords as ->.
  set (flat := λ record, flatten_record py_str (enhance _ _ record) "").
  intros [= <- <-]. exists records. split; [done|].
  split; [by rw !length_map|].
  set (header := csv_fieldnames _ _).
  intros i record Hi. exists (csv_row header (flat record)).
  have Hrow : ∀ (j : nat) key, header !! j = Some key →
    csv_row header (flat record) !! j = Some (dict_get key (flat record)).
  { intros j key Hj. by rw /csv_row list_lookup_fmap Hj. }
  split_and!; [|by rw /csv_row length_map| |done].
  - by rw !list_lookup_fmap Hi.
  - intros key value Hin.
    have Hkey : key ∈ header.
    { apply csv_fieldnames_elem, list_elem_of_In, in_concat.
      exists (map fst (flat record)). split.
      - apply in_map, in_map. by eapply list_elem_of_In, list_elem_of_lookup_2.
      - by apply (in_map fst) in Hin. }
    apply list_elem_of_lookup_1 in Hkey as [j Hj]. exists j. split; [done|].
    rw (Hrow _ _ Hj). f_equal. apply dict_get_elem; [|done].
    apply flatten_json_NoDup.
Qed.

Lemma csv_rows_keep_every_field_witness :
  ∃ records,
    dict_get "crime_statistics"
      [("report_date", JStr "2024-01-05");
       ("crime_statistics", JList [JDict [("offense_type", JStr "Robbery")]])]
    = Some (JList (map JDict records))
    ∧ length [[Some (JStr "2024-01-05"); Some (JStr "Robbery"); Some JNull]]
      = length records.
Proof.
  destruct (csv_rows_keep_every_field (λ _, "")
              [("report_date", JStr "2024-01-05");
               ("crime_statistics",
                JList [JDict [("offense_type", JStr "Robbery")]])]
              ["report_date"; "offense_type"; "extracted_date_text"]
              [[Some (JStr "2024-01-05"); Some (JStr "Robbery"); Some JNull]]
              eq_refl) as (records & Hstats & Hlen & _).
  by exists records.
Defined.

(** X27: [json_to_csv] produces a table exactly when [crime_statistics] is a
    list, not empty, whose members are all dictionaries; with the key
    missing, an empty list or another value, or a member that is not a
    dictionary, it writes nothing and returns [False]. *)
Theorem csv_needs_list_of_records (py_str : Json → string)
    (data : list (string * Json)) :
  is_Some (csv_table py_str data) ↔
  ∃ record records,
    dict_get "crime_statistics" data =
      Some (JList (map JDict (record :: records))).
Proof.
  rw /csv_table.
  destruct (dict_get "crime_statistics" data) as [[| | | | |[|m ms]|]|];
    try (split; [by intros [? [=]]|by intros (? & ? & [=])]).
  destruct (records_of (m :: ms)) as [records|] eqn:Hrecords.
  - split; [intros _|by eexists].
    apply records_of_spec in Hrecords.
    destruct records as [|record records]; [done|].
    exists record, records. by rw Hrecords.
  - split; [by intros [? [=]]|].
    intros (record & records & Hstats).
    have Hm : m :: ms = map JDict (record :: records) by congruence.
    apply (records_of_spec (m :: ms)) in Hm. by rw Hm in Hrecords.
Qed.

(** ** [extract_date_from_header] *)

Lemma span_app (p : ascii → bool) (s : string) :
  s = (span p s).1 +:+ (span p s).2.
Proof.
  induction s as [|c s IH]; [done|].
  rw /=. destruct (p c); [|done]. by rw /= append_cons -IH.
Qed.

Lemma then_inv (m1 m2 : Matcher) (s a r : string) :
  then_ m1 m2 s = Some (a, r) →
  ∃ a1 r1 a2, m1 s = Some (a1, r1) ∧ m2 r1 = Some (a2, r) ∧ a = a1 +:+ a2.
Proof.
  rw /then_. destruct (m1 s) as [[a1 r1]|] eqn:H1; [|done].
  rw /=. destruct (m2 r1) as [[a2 r2]|] eqn:H2; [|done].
  rw /=. intros [= <- <-]. by exists a1, r1, a2.
Qed.

Lemma splits_then (m1 m2 : Matcher) :
  splits m1 → splits m2 → splits (then_ m1 m2).
Proof.
  intros H1 H2 s a r (a1 & r1 & a2 & Hm1 & Hm2 & ->)%then_inv.
  by rw (H1 _ _ _ Hm1) (H2 _ _ _ Hm2) append_assoc.
Qed.

Lemma splits_many1 (p : ascii → bool) : splits (many1 p).
Proof.
  intros s a r. rw /many1. move: (span_app p s).
  destruct (span p s) as [[|c a'] r']; [done|].
  by intros -> [= <- <-].
Qed.

Lemma splits_char (c : ascii) : splits (char c).
Proof.
  intros [|c' s] a r; [done|]. rw /=.
  destruct (Ascii.eqb c' c); [|done]. by intros [= <- <-].
Qed.

Lemma splits_digits12_then (sep : ascii) : splits (digits12_then sep).
Proof.
  intros [|d1 [|d2 s]] a r; try done. rw /=.
  destruct (is_digit d1 && is_digit d2).
  - destruct s as [|c s]; [done|].
    destruct (Ascii.eqb c sep); [|done]. by intros [= <- <-].
  - destruct (is_digit d1 && Ascii.eqb d2 sep); [|done]. by intros [= <- <-].
Qed.

Lemma digits4_year (s a r : string) :
  digits4 s = Some (a, r) → s = a +:+ r ∧ ends_in_year a.
Proof.
  destruct s as [|c1 [|c2 [|c3 [|c4 s]]]]; try done. rw /=.
  destruct (is_digit c1) eqn:H1; [|done]. destruct (is_digit c2) eqn:H2; [|done].
  destruct (is_digit c3) eqn:H3; [|done]. destruct (is_digit c4) eqn:H4; [|done].
  intros [= <- <-]. split; [done|].
  exists "", (String c1 (String c2 (String c3 (String c4 "")))).
  by rw /= H1 H2 H3 H4.
Qed.

Lemma then_year (m1 m2 : Matcher) :
  (∀ s a r, m2 s = Some (a, r) → ends_in_year a) →
  ∀ s a r, then_ m1 m2 s = Some (a, r) → ends_in_year a.
Proof.
  intros H2 s a r (a1 & r1 & a2 & _ & Hm2 & ->)%then_inv.
  destruct (H2 _ _ _ Hm2) as (front & year & -> & Hlen & Hdigits).
  exists (a1 +:+ front), year. by rw append_assoc.
Qed.

Lemma slash_date_shape (s a r : string) :
  slash_date s = Some (a, r) → s = a +:+ r ∧ ends_in_year a.
Proof.
  intros Hm. split.
  - move: Hm. apply splits_then; [apply splits_digits12_then|].
    apply splits_then; [apply splits_digits12_then|].
    intros ? ? ? Hd. by apply digits4_year in Hd as [? _].
  - move: Hm. apply then_year, then_year.
    intros ? ? ? Hd. by apply digits4_year in Hd as [_ ?].
Qed.

Lemma month_date_shape (s a r : string) :
  month_date s = Some (a, r) → s = a +:+ r ∧ ends_in_year a.
Proof.
  intros Hm. split.
  - move: Hm. apply splits_then; [apply splits_many1|].
    apply splits_then; [apply splits_many1|].
    apply splits_then; [apply splits_digits12_then|].
    apply splits_then; [apply splits_many1|].
    intros ? ? ? Hd. by apply digits4_year in Hd as [? _].
  - move: Hm. do 4 apply then_year.
    intros ? ? ? Hd. by apply digits4_year in Hd as [_ ?].
Qed.

Lemma weekday_date_shape (s a r : string) :
  weekday_date s = Some (a, r) → s = a +:+ r ∧ ends_in_year a.
Proof.
  intros Hm. split.
  - move: Hm. apply splits_then; [apply splits_many1|].
    apply splits_then; [apply splits_char|].
    apply splits_then; [apply splits_many1|].
    intros ? ? ? Hd. by apply month_date_shape in Hd as [? _].
  - move: Hm. do 3 apply then_year.
    intros ? ? ? Hd. by apply month_date_shape in Hd as [_ ?].
Qed.

Lemma match_ci_split (lit s r : string) :
  match_ci lit s = Some r → ∃ front, s = front +:+ r.
Proof.
  move: s. induction lit as [|a lit IH]; intros s.
  - rw /=. destruct s; intros [= <-]; by exists "".
  - destruct s as [|c s]; [done|]. rw /=.
    destruct (Ascii.eqb _ _); [|done].
    intros [front ->]%IH. by exists (String c front).
Qed.

Lemma whole_match_inside (m : Matcher) :
  (∀ s a r, m s = Some (a, r) → s = a +:+ r ∧ ends_in_year a) →
  group_inside (λ s, fst <$> m s).
Proof.
  intros Hm s group Hat.
  destruct (m s) as [[a r]|] eqn:Hs; [|done].
  injection Hat as <-. destruct (Hm _ _ _ Hs) as [-> Hyear].
  split; [|done]. by exists "", r.
Qed.

Lemma labelled_date_inside : group_inside labelled_date_at.
Proof.
  intros s group. rw /labelled_date_at.
  destruct (match_ci "Date:" s) as [r|] eqn:Hlabel; [|done].
  apply match_ci_split in Hlabel as [front ->].
  rw /= /many0 /=. move: (span_app is_space r).
  destruct (span is_space r) as [spaces r']. rw /=. intros ->.
  destruct (slash_date r') as [[a back]|] eqn:Hdate; [|done].
  intros [= <-]. destruct (slash_date_shape _ _ _ Hdate) as [-> Hyear].
  split; [|done]. exists (front +:+ spaces), back. by rw !append_assoc.
Qed.

Lemma contains_app (k front back : string) :
  contains k (front +:+ k +:+ back) = true.
Proof.
  induction front as [|c front IH].
  - rw append_nil_l. destruct k; rw /= ?append_cons /=.
    + by destruct back.
    + by rw Ascii.eqb_refl startswith_app.
  - rw append_cons /= IH. apply orb_true_r.
Qed.

Lemma search_sound (at_head : string → option string) (s group : string) :
  search at_head s = Some group →
  ∃ skipped rest, s = skipped +:+ rest ∧ at_head rest = Some group.
Proof.
  induction s as [|c s IH]; rw /=.
  - destruct (at_head "") eqn:Hat; [|done]. intros [= ->]. by exists "", "".
  - destruct (at_head (String c s)) eqn:Hat.
    + intros [= ->]. by exists "", (String c s).
    + intros (skipped & rest & -> & Hrest)%IH. by exists (String c skipped), rest.
Qed.

Lemma search_complete (at_head : string → option string) (rest group : string) :
  at_head rest = Some group →
  ∀ skipped, is_Some (search at_head (skipped +:+ rest)).
Proof.
  intros Hat skipped. induction skipped as [|c skipped IH].
  - rw append_nil_l. destruct rest; rw /= Hat; by eexists.
  - rw append_cons /=.
    destruct (at_head (String c (skipped +:+ rest))); [by eexists|done].
Qed.

Lemma search_inside (at_head : string → option string) (text group : string) :
  group_inside at_head → search at_head text = Some group →
  contains group text = true ∧ ends_in_year group.
Proof.
  intros Hinside (skipped & rest & -> & Hat)%search_sound.
  destruct (Hinside _ _ Hat) as [(front & back & ->) Hyear].
  split; [|done]. rw -(append_assoc skipped front). apply contains_app.
Qed.

Lemma date_patterns_inside (pattern : string → option string)
    (text group : string) :
  In pattern DATE_PATTERNS → pattern text = Some group →
  contains group text = true ∧ ends_in_year group.
Proof.
  intros [<-|[<-|[<-|[<-|[]]]]]; apply search_inside.
  - apply whole_match_inside, weekday_date_shape.
  - apply whole_match_inside, month_date_shape.
  - apply whole_match_inside, slash_date_shape.
  - apply labelled_date_inside.
Qed.

Lemma try_patterns_sound (parse_date : string → option string)
    (patterns : list (string → option string)) (text date : string) :
  try_patterns parse_date patterns text = Some date →
  ∃ pattern date_str,
    In pattern patterns ∧ pattern text = Some date_str
    ∧ parse_date date_str = Some date.
Proof.
  induction patterns as [|pattern patterns IH]; [done|]. rw /=.
  have Hrest : try_patterns parse_date patterns text = Some date →
    ∃ pattern0 date_str, (pattern = pattern0 ∨ In pattern0 patterns)
      ∧ pattern0 text = Some date_str ∧ parse_date date_str = Some date.
  { intros (p & date_str & Hin & Hp & Hparse)%IH. exists p, date_str. auto. }
  destruct (pattern text) as [date_str|] eqn:Hmatch; [|done].
  destruct (parse_date date_str) as [parsed|] eqn:Hparse; [|done].
  intros [= <-]. exists pattern, date_str. auto.
Qed.

(** X28: whatever the date parser does, a date that
    [extract_date_from_header] returns is what the parser made of a piece of
    the header text itself, and that piece ends in four digits. *)
Theorem header_date_comes_from_the_text (parse_date : string → option string)
    (text date : string) :
  extract_date_from_header parse_date text = Some date →
  ∃ date_str,
    parse_date date_str = Some date
    ∧ contains date_str text = true
    ∧ ends_in_year date_str.
Proof.
  intros (pattern & date_str & Hin & Hmatch & Hparse)%try_patterns_sound.
  exists date_str. split; [done|]. by apply (date_patterns_inside pattern).
Qed.

Lemma header_date_comes_from_the_text_witness :
  ∃ date_str,
    (if String.eqb date_str "February 8, 2026" then Some "2026-02-08" else None)
    = Some "2026-02-08"
    ∧ contains date_str "Report for Sunday, February 8, 2026 (daily)" = true
    ∧ ends_in_year date_str.
Proof.
  exact (header_date_comes_from_the_text
           (λ s, if String.eqb s "February 8, 2026" then Some "2026-02-08"
                 else None)
           "Report for Sunday, February 8, 2026 (daily)" "2026-02-08" eq_refl).
Defined.

Lemma search_none (at_head : string → option string) (text : string) :
  search at_head text = None →
  ∀ skipped rest, text = skipped +:+ rest → at_head rest = None.
Proof.
  intros Hnone skipped rest ->.
  destruct (at_head rest) as [group|] eqn:Hat; [|done].
  destruct (search_complete _ _ _ Hat skipped) as [g Hg]. by rw Hg in Hnone.
Qed.

(** X29: the first and the last of the four date patterns never find a
    date where the second and the third find none: a header in which
    neither the [month day, year] pattern nor the [mm/dd/yyyy] pattern
    matches has no date, whatever the parser. *)
Theorem two_patterns_decide_the_match (parse_date : string → option string)
    (text : string) :
  search month_date_at text = None →
  search slash_date_at text = None →
  search weekday_date_at text = None
  ∧ search labelled_date_at text = None
  ∧ extract_date_from_header parse_date text = None.
Proof.
  intros Hmonth Hslash.
  have Hweekday : search weekday_date_at text = None.
  { destruct (search weekday_date_at text) as [group|] eqn:Hw; [|done].
    apply search_sound in Hw as (skipped & rest & -> & Hat).
    move: Hat. rw /weekday_date_at.
    destruct (weekday_date rest) as [[a r]|] eqn:Hrest; [|done]. intros _.
    apply then_inv in Hrest as (a1 & r1 & a2 & H1 & Hrest & _).
    apply then_inv in Hrest as (a3 & r3 & a4 & H3 & Hrest & _).
    apply then_inv in Hrest as (a5 & r5 & a6 & H5 & Hrest & _).
    apply splits_many1 in H1 as ->. apply splits_char in H3 as ->.
    apply splits_many1 in H5 as ->.
    have Hnone := search_none _ _ Hmonth
      (skipped +:+ a1 +:+ a3 +:+ a5) r5.
    rw /month_date_at Hrest in Hnone. rw !append_assoc in Hnone.
    by specialize (Hnone eq_refl). }
  have Hlabelled : search labelled_date_at text = None.
  { destruct (search labelled_date_at text) as [group|] eqn:Hl; [|done].
    apply search_sound in Hl as (skipped & rest & -> & Hat).
    move: Hat. rw /labelled_date_at.
    destruct (match_ci "Date:" rest) as [r|] eqn:Hlabel; [|done].
    apply match_ci_split in Hlabel as [front ->].
    rw /= /many0 /=. move: (span_app is_space r).
    destruct (span is_space r) as [spaces r']. rw /=. intros ->.
    destruct (slash_date r') as [[a back]|] eqn:Hdate; [|done]. intros _.
    have Hnone := search_none _ _ Hslash (skipped +:+ front +:+ spaces) r'.
    rw /slash_date_at Hdate in Hnone. rw !append_assoc in Hnone.
    by specialize (Hnone eq_refl). }
  split_and!; [done|done|].
  by rw /extract_date_from_header /= Hweekday Hmonth Hslash Hlabelled.
Qed.

Lemma two_patterns_decide_the_match_witness :
  search weekday_date_at "Date: 2026-02-08" = None
  ∧ search labelled_date_at "Date: 2026-02-08" = None
  ∧ extract_date_from_header (λ s, Some s) "Date: 2026-02-08" = None.
Proof.
  exact (two_patterns_decide_the_match (λ s, Some s) "Date: 2026-02-08"
           eq_refl eq_refl).
Defined.

(** ** [get_date_filename] *)

Lemma digit_val_digit_char (n : Z) : digit_val (digit_char n) = n mod 10.
Proof.
  rw /digit_char.
  have Hn : 0 <= n mod 10 < 10 by apply Z.mod_pos_bound.
  have [k [-> Hk]] : ∃ k : nat, n mod 10 = Z.of_nat k ∧ (k < 10)%nat
    by exists (Z.to_nat (n mod 10)); lia.
  do 10 (destruct k as [|k]; [done|]). lia.
Qed.

Lemma year_field_pad4 (y : Z) (r : string) :
  0 <= y <= 9999 → year_field (pad4 y +:+ r) = Some (y, r).
Proof.
  intros Hy. rw /pad4 !append_cons append_nil_l /year_field.
  rw !digit_char_digit /= !digit_val_digit_char. do 2 f_equal.
  Z.to_euclidean_division_equations. lia.
Qed.

Lemma small_number (n bound : Z) :
  0 <= n < bound → ∃ k : nat, n = Z.of_nat k ∧ (k < Z.to_nat bound)%nat.
Proof. intros Hn. exists (Z.to_nat n). lia. Qed.

Lemma month_field_pad2 (m : Z) (r : string) :
  1 <= m <= 12 →
  month_field (pad2 m +:+ String "-" r) = Some (m, String "-" r).
Proof.
  intros Hm. destruct (small_number m 13) as (k & -> & Hk); [lia|].
  destruct k as [|k]; [lia|].
  do 12 (destruct k as [|k]; [by vm_compute|]). simpl in Hk. lia.
Qed.

Lemma day_field_pad2 (d : Z) :
  1 <= d <= 31 → day_field (pad2 d) = Some (d, "").
Proof.
  intros Hd. destruct (small_number d 32) as (k & -> & Hk); [lia|].
  destruct k as [|k]; [lia|].
  do 31 (destruct k as [|k]; [by vm_compute|]). simpl in Hk. lia.
Qed.

Lemma valid_date_bounds (y m d : Z) :
  valid_date y m d = true → 1 <= y <= 9999 ∧ 1 <= m <= 12 ∧ 1 <= d <= 31.
Proof.
  rw /valid_date /days_in_month !andb_true_iff.
  intros [[[[[Hy1 Hy2] Hm1] Hm2] Hd1] Hd2].
  destruct (m =? 2); [destruct (is_leap y)|];
    [| |destruct ((m =? 4) || (m =? 6) || (m =? 9) || (m =? 11))]; lia.
Qed.

Lemma dash_cons (r : string) : dash ("-" +:+ r) = Some r.
Proof. done. Qed.

Local Arguments year_field : simpl never.
Local Arguments month_field : simpl never.
Local Arguments day_field : simpl never.
Local Arguments dash : simpl never.

Lemma strptime_strftime (y m d : Z) :
  valid_date y m d = true → strptime (strftime (y, m, d)) = Some (y, m, d).
Proof.
  intros Hvalid.
  destruct (valid_date_bounds y m d Hvalid) as (Hy & Hm & Hd).
  have Hmonth : month_field (pad2 m +:+ "-" +:+ pad2 d) =
                Some (m, "-" +:+ pad2 d).
  { by apply (month_field_pad2 m (pad2 d)). }
  rw /strptime /strftime year_field_pad4; [lia|].
  rw /= append_nil_l Hmonth /= append_nil_l day_field_pad2 //=.
  by rw /datetime Hvalid.
Qed.

(** X30: for a report date in the form that [strftime("%Y-%m-%d")] gives
    to an existing date from the year 1000 on (the form of [report_date] in
    the parsed data), [get_date_filename] returns that date on eight
    digits, year, month and day, whatever the day on which the script runs:
    the fallback to today's date is not taken. *)
Theorem iso_report_date_names_the_file (now : Z * Z * Z) (y m d : Z) :
  1000 ≤ y → valid_date y m d = true →
  get_date_filename now (Some (strftime (y, m, d))) =
    pad4 y +:+ pad2 m +:+ pad2 d
  ∧ all_chars is_digit (get_date_filename now (Some (strftime (y, m, d)))) = true
  ∧ String.length (get_date_filename now (Some (strftime (y, m, d)))) = 8%nat.
Proof.
  intros _ Hvalid.
  have Hname : get_date_filename now (Some (strftime (y, m, d))) =
    pad4 y +:+ pad2 m +:+ pad2 d.
  { by rw /get_date_filename strptime_strftime. }
  rw Hname. split; [done|].
  rw /pad4 /pad2 !append_cons !append_nil_l /= !digit_char_digit. done.
Qed.

Lemma iso_report_date_names_the_file_witness :
  get_date_filename (2026, 11, 3) (Some "2026-02-08") = "20260208".
Proof.
  have Hyear : 1000 ≤ 2026 by lia.
  by destruct (iso_report_date_names_the_file (2026, 11, 3) 2026 2 8
                 Hyear eq_refl) as [-> _].
Defined.
